(** * Job scheduling and notification delivery engine

  A shallow embedding of the scheduling core of the trading bot
  (app/scheduler.py, app/db.py, app/handlers/admin.py,
  app/handlers/user.py) together with the properties its specification
  states about it.

  Conventions of the embedding:
  - a database table is the list of its rows, in storage order;
  - a Python [dict] is an insertion-ordered association list ([PyDict]),
    because the code zips the values of one against a list of keys;
  - prices are IEEE-754 binary64 numbers, Rocq's primitive [float];
  - an awaited call that may raise is an oracle returning either its value
    or the fact that it raised; the [try]/[except] blocks of the source are
    the [match]es on that outcome;
  - wall-clock readings ([datetime.now()]) are parameters. *)

From Stdlib Require Import List Bool Arith ZArith Lia String Ascii.
From Stdlib Require Import Floats Permutation Sorted DecimalString DecimalZ.
Import ListNotations.

Local Open Scope string_scope.
Local Open Scope list_scope.

(** ** Python strings (ASCII fragment) *)

Module PyStr.

(** [str.upper] on ASCII letters. *)
Definition upper_char (c : ascii) : ascii :=
  let n := nat_of_ascii c in
  if andb (97 <=? n)%nat (n <=? 122)%nat then ascii_of_nat (n - 32) else c.

Fixpoint upper (s : string) : string :=
  match s with
  | EmptyString => EmptyString
  | String c s' => String (upper_char c) (upper s')
  end.

(** The ASCII characters [str.strip] and the regex class [\s] treat as
    white space: TAB, LF, VT, FF, CR, FS, GS, RS, US and the space. *)
Definition is_space (c : ascii) : bool :=
  let n := nat_of_ascii c in
  orb (andb (9 <=? n)%nat (n <=? 13)%nat) (andb (28 <=? n)%nat (n <=? 32)%nat).

Fixpoint lstrip (s : string) : string :=
  match s with
  | EmptyString => EmptyString
  | String c s' => if is_space c then lstrip s' else s
  end.

(** [rstrip] keeps a character when it is not white space or when
    something survives to its right. *)
Fixpoint rstrip (s : string) : string :=
  match s with
  | EmptyString => EmptyString
  | String c s' =>
      match rstrip s' with
      | EmptyString => if is_space c then EmptyString else String c EmptyString
      | r => String c r
      end
  end.

Definition strip (s : string) : string := rstrip (lstrip s).

(** [s.split(sep)] for a one-character separator: always at least one
    part. *)
Fixpoint split (sep : ascii) (s : string) : list string :=
  match s with
  | EmptyString => [EmptyString]
  | String c s' =>
      if Ascii.eqb c sep then EmptyString :: split sep s'
      else match split sep s' with
           | [] => [String c EmptyString]
           | p :: ps => String c p :: ps
           end
  end.

Definition is_digit (c : ascii) : bool :=
  let n := nat_of_ascii c in andb (48 <=? n)%nat (n <=? 57)%nat.

Fixpoint all_digits (s : string) : bool :=
  match s with
  | EmptyString => true
  | String c s' => andb (is_digit c) (all_digits s')
  end.

(** [s.isdigit()]: at least one character, all of them digits. *)
Definition isdigit (s : string) : bool :=
  match s with
  | EmptyString => false
  | _ => all_digits s
  end.

Definition digit_value (c : ascii) : Z := Z.of_nat (nat_of_ascii c - 48).

Fixpoint int_from (acc : Z) (s : string) : Z :=
  match s with
  | EmptyString => acc
  | String c s' => int_from (10 * acc + digit_value c) s'
  end.

(** [int(s)] for a string of digits. *)
Definition int (s : string) : Z := int_from 0 s.

(** [str(n)] / [f"{n}"] for an integer. *)
Definition str (n : Z) : string := NilEmpty.string_of_int (Z.to_int n).

End PyStr.

(** ** Python dictionaries: insertion-ordered, keyed by strings *)

Module PyDict.
Section Dict.
Context {V : Type}.

Definition t := list (string * V).

(** [d[k] = v]: an existing key keeps its position, a new key goes last. *)
Fixpoint set (k : string) (v : V) (d : t) : t :=
  match d with
  | [] => [(k, v)]
  | (k', v') :: d' =>
      if String.eqb k k' then (k, v) :: d' else (k', v') :: set k v d'
  end.

(** [d.get(k)]. *)
Fixpoint get (k : string) (d : t) : option V :=
  match d with
  | [] => None
  | (k', v') :: d' => if String.eqb k k' then Some v' else get k d'
  end.

Definition keys (d : t) : list string := map fst d.
Definition values (d : t) : list V := map snd d.

(** A dict comprehension [{k: v for ...}] inserts its pairs in order. *)
Definition of_pairs (l : list (string * V)) : t :=
  fold_left (fun d kv => set (fst kv) (snd kv) d) l [].
End Dict.
Arguments t : clear implicits.
End PyDict.

(** ** Price alerts: app/db.py and the evaluator of app/scheduler.py *)

Module Alerts.

Inductive AlertType := ABOVE | BELOW.

Definition AlertType_eqb (x y : AlertType) : bool :=
  match x, y with
  | ABOVE, ABOVE | BELOW, BELOW => true
  | _, _ => false
  end.

(** A row of table [price_alerts]; time stamps are clock readings. *)
Record PriceAlert := mkPriceAlert {
  id : Z;
  user_id : Z;
  asset : string;
  target_price : float;
  alert_type : AlertType;
  is_active : bool;
  created_at : Z;
  triggered_at : option Z;
  is_one_time : bool
}.

Definition Table := list PriceAlert.

(** *** DB methods *)

(** [select(distinct(PriceAlert.asset)).where(PriceAlert.is_active == True)] *)
Definition get_distinct_alert_assets (db : Table) : list string :=
  nodup string_dec (map asset (filter is_active db)).

(** [select(PriceAlert).where(PriceAlert.is_active == True)] *)
Definition get_all_active_price_alerts (db : Table) : Table :=
  filter is_active db.

Definition set_inactive (now : Z) (a : PriceAlert) : PriceAlert :=
  mkPriceAlert (id a) (user_id a) (asset a) (target_price a) (alert_type a)
               false (created_at a) (Some now) (is_one_time a).

Definition id_in (ids : list Z) (a : PriceAlert) : bool :=
  existsb (Z.eqb (id a)) ids.

(** [update(PriceAlert).where(PriceAlert.id.in_(ids)).values(is_active=False,
    triggered_at=now)] *)
Definition deactivate_batch (ids : list Z) (now : Z) (db : Table) : Table :=
  map (fun a => if id_in ids a then set_inactive now a else a) db.

(** [DB.deactivate_price_alert] *)
Definition deactivate_price_alert (alert_id : Z) (now : Z) (db : Table) : Table :=
  map (fun a => if Z.eqb (id a) alert_id then set_inactive now a else a) db.

(** [DB.delete_price_alert] *)
Definition delete_price_alert (alert_id : Z) (db : Table) : Table :=
  filter (fun a => negb (Z.eqb (id a) alert_id)) db.

(** The integer primary key the engine gives a new row: one more than the
    largest key in the table (SQLite's rowid rule; the column is declared
    without the AUTOINCREMENT keyword). *)
Definition next_id (db : Table) : Z :=
  fold_right (fun a m => Z.max (id a) m) 0%Z db + 1.

(** [DB.add_price_alert]: the row is created active, never triggered. *)
Definition add_price_alert (uid : Z) (sym : string) (target : float)
           (ty : AlertType) (one_time : bool) (now : Z) (db : Table) : Table :=
  db ++ [mkPriceAlert (next_id db) uid sym target ty true now None one_time].

(** [DB.get_user_price_alerts]; the ordering by creation time is not
    modelled, the callers here only count the rows. *)
Definition get_user_price_alerts (uid : Z) (active_only : bool) (db : Table) : Table :=
  filter (fun a => andb (Z.eqb (user_id a) uid)
                        (if active_only then is_active a else true)) db.

(** *** fetch_current_price *)

(** What the price endpoint did for one request. *)
Inductive PriceResponse :=
| ClientError                      (* aiohttp.ClientError, HTTP error status *)
| UnexpectedError                  (* any other exception *)
| InvalidStructure                 (* no data / no "1m" / empty "1m" *)
| LatestCandle (current_price close : option float).

(** Truth value of a float: every value but the zeros. *)
Definition truthy (x : float) : bool := negb (PrimFloat.eqb x 0%float).

(** [a or b] on optional floats. *)
Definition py_or (a b : option float) : option float :=
  match a with
  | Some x => if truthy x then Some x else b
  | None => b
  end.

Definition fetch_current_price (r : PriceResponse) : option float :=
  match r with
  | LatestCandle cp cl => py_or cp cl
  | InvalidStructure => None
  | ClientError => None
  | UnexpectedError => None
  end.

(** The price endpoint, asked for a symbol. *)
Definition PriceFeed := string -> PriceResponse.

(** [price_tasks], [price_results] and [asset_prices] of the job.
    [fetch_current_price] catches every exception, so every result of
    [gather] is [None] or a float and [isinstance(price, float)] selects the
    floats. *)
Definition price_tasks (feed : PriceFeed) (active_assets : list string)
  : PyDict.t (option float) :=
  PyDict.of_pairs
    (map (fun a => (a, fetch_current_price (feed (PyStr.upper a)))) active_assets).

Definition asset_prices (feed : PriceFeed) (active_assets : list string)
  : PyDict.t float :=
  let price_results := PyDict.values (price_tasks feed active_assets) in
  PyDict.of_pairs
    (flat_map (fun ap => match snd ap with
                         | Some price => [(fst ap, price)]
                         | None => []
                         end)
              (combine active_assets price_results)).

(** *** check_price_alerts_job *)

(** The fields interpolated into the notification text. *)
Record AlertText := mkAlertText {
  txt_asset : string;
  txt_price : float;
  txt_above : bool;
  txt_target : float;
  txt_one_time_note : bool
}.

Definition message_text (alert : PriceAlert) (current_price : float) : AlertText :=
  mkAlertText (asset alert) current_price
              (AlertType_eqb (alert_type alert) ABOVE)
              (target_price alert) (is_one_time alert).

(** [bot.send_message(chat_id, text)]: [true] when it returns, [false] when
    it raises. *)
Definition Bot := Z -> AlertText -> bool.

(** One call of [bot.send_message] made by the job. *)
Record Attempt := mkAttempt {
  att_alert : PriceAlert;
  att_price : float;
  att_delivered : bool
}.

Definition triggered (alert : PriceAlert) (current_price : float) : bool :=
  orb (andb (AlertType_eqb (alert_type alert) ABOVE)
            (PrimFloat.leb (target_price alert) current_price))
      (andb (AlertType_eqb (alert_type alert) BELOW)
            (PrimFloat.leb current_price (target_price alert))).

(** The body of [for alert in active_alerts], on the pair
    ([triggered_one_time_ids], calls made so far). *)
Definition sweep_step (bot : Bot) (prices : PyDict.t float)
           (acc : list Z * list Attempt) (alert : PriceAlert)
  : list Z * list Attempt :=
  match PyDict.get (asset alert) prices with
  | None => acc
  | Some current_price =>
      if triggered alert current_price then
        if bot (user_id alert) (message_text alert current_price) then
          ((if is_one_time alert then fst acc ++ [id alert] else fst acc),
           snd acc ++ [mkAttempt alert current_price true])
        else
          (fst acc, snd acc ++ [mkAttempt alert current_price false])
      else acc
  end.

Definition sweep (bot : Bot) (prices : PyDict.t float) (active_alerts : Table)
  : list Z * list Attempt :=
  fold_left (sweep_step bot prices) active_alerts ([], []).

Record Tick := mkTick {
  tick_db : Table;               (* the table after the job *)
  tick_calls : list Attempt;     (* the sends it made, in order *)
  tick_batch : list Z            (* triggered_one_time_ids *)
}.

Definition check_price_alerts_job (feed : PriceFeed) (bot : Bot) (now : Z)
           (db : Table) : Tick :=
  let active_assets := get_distinct_alert_assets db in
  match active_assets with
  | [] => mkTick db [] []
  | _ :: _ =>
      let prices := asset_prices feed active_assets in
      match prices with
      | [] => mkTick db [] []
      | _ :: _ =>
          let active_alerts := get_all_active_price_alerts db in
          let '(triggered_one_time_ids, calls) := sweep bot prices active_alerts in
          match triggered_one_time_ids with
          | [] => mkTick db calls []
          | _ :: _ =>
              mkTick (deactivate_batch triggered_one_time_ids now db)
                     calls triggered_one_time_ids
          end
      end
  end.

(** *** Views of one tick, used to state its properties *)

(** The price the job can use for a symbol: what [fetch_current_price]
    returned for it. *)
Definition quote (feed : PriceFeed) (sym : string) : option float :=
  fetch_current_price (feed (PyStr.upper sym)).

Definition quoted (feed : PriceFeed) (sym : string) : list (string * float) :=
  match quote feed sym with Some p => [(sym, p)] | None => [] end.

(** The send one alert causes in a sweep: none when its symbol has no price
    or the threshold is not met. *)
Definition outcome (bot : Bot) (prices : PyDict.t float) (a : PriceAlert)
  : list Attempt :=
  match PyDict.get (asset a) prices with
  | Some p =>
      if triggered a p
      then [mkAttempt a p (bot (user_id a) (message_text a p))]
      else []
  | None => []
  end.

(** The sends after which the alert's id is appended to
    [triggered_one_time_ids]. *)
Definition queued (t : Attempt) : bool :=
  andb (att_delivered t) (is_one_time (att_alert t)).

Definition attempt_id (t : Attempt) : Z := id (att_alert t).

(** The primary key: no two rows share an id. *)
Definition unique_ids (db : Table) : Prop := NoDup (map id db).

(** The row stored under an id. *)
Definition row (alert_id : Z) (db : Table) : option PriceAlert :=
  find (fun a => Z.eqb (id a) alert_id) db.

(** *** Everything the system does to table [price_alerts] *)

(** The writes of the user handlers ([set_alert_frequency_handler],
    [delete_alert_handler]), the unused [DB.deactivate_price_alert], and the
    evaluator's tick. *)
Inductive Op :=
| OpAdd (uid : Z) (sym : string) (target : float) (ty : AlertType)
        (one_time : bool) (now : Z)
| OpDeactivate (alert_id : Z) (now : Z)
| OpDelete (alert_id : Z)
| OpTick (feed : PriceFeed) (bot : Bot) (now : Z).

(** One operation: the table after it and the trigger notifications it
    sent. *)
Definition step (op : Op) (db : Table) : Table * list Attempt :=
  match op with
  | OpAdd uid sym target ty one_time now =>
      (add_price_alert uid sym target ty one_time now db, [])
  | OpDeactivate alert_id now => (deactivate_price_alert alert_id now db, [])
  | OpDelete alert_id => (delete_price_alert alert_id db, [])
  | OpTick feed bot now =>
      let tick := check_price_alerts_job feed bot now db in
      (tick_db tick, tick_calls tick)
  end.

Fixpoint run (ops : list Op) (db : Table) : Table * list Attempt :=
  match ops with
  | [] => (db, [])
  | op :: ops' =>
      let '(db1, calls1) := step op db in
      let '(db2, calls2) := run ops' db1 in
      (db2, calls1 ++ calls2)
  end.

Definition deletes (alert_id : Z) (op : Op) : bool :=
  match op with
  | OpDelete j => Z.eqb j alert_id
  | _ => false
  end.

(** The row under an id exists and is inactive. *)
Definition inactive_row (alert_id : Z) (db : Table) : Prop :=
  exists a, row alert_id db = Some a /\ is_active a = false.

End Alerts.

(** ** Sample data for the evaluator *)

Module AlertSamples.
Import Alerts.

(** The scenario of the specification: a one-time alert on XAUUSD, above
    2300.00, owned by user 7. *)
Definition gold_alert : PriceAlert :=
  mkPriceAlert 1 7 "XAUUSD" 2300%float ABOVE true 0 None true.

(** A recurring alert of user 8 on EURUSD, below 1.25. *)
Definition euro_alert : PriceAlert :=
  mkPriceAlert 2 8 "EURUSD" 1.25%float BELOW true 0 None false.

(** A one-time alert of user 9 on a symbol whose fetch fails. *)
Definition oil_alert : PriceAlert :=
  mkPriceAlert 3 9 "USOIL" 80%float ABOVE true 0 None true.

Definition sample_db : Table := [gold_alert; euro_alert; oil_alert].

(** Gold trades exactly at the target, the euro below its target, and the
    request for oil fails. *)
Definition sample_feed : PriceFeed :=
  fun sym =>
    if String.eqb sym "XAUUSD" then LatestCandle (Some 2300%float) None
    else if String.eqb sym "EURUSD" then LatestCandle None (Some 1.125%float)
    else ClientError.

Definition bot_ok : Bot := fun _ _ => true.

(** A transport that cannot reach user 7. *)
Definition bot_down_for_7 : Bot := fun chat_id _ => negb (Z.eqb chat_id 7).

(** The sample tick when the transport cannot reach the owner of the gold
    alert, and the tick that follows it once the transport is back. *)
Definition failed_send_tick : Tick :=
  check_price_alerts_job sample_feed bot_down_for_7 60 sample_db.

Definition retry_tick : Tick :=
  check_price_alerts_job sample_feed bot_ok 120 (tick_db failed_send_tick).

(** The sample tick with a working transport, and a later history: another
    tick, a new alert of user 7 on the same symbol, a manual deactivation and
    the deletion of another alert. *)
Definition delivered_tick : Tick :=
  check_price_alerts_job sample_feed bot_ok 60 sample_db.

Definition later_ops : list Op :=
  [ OpTick sample_feed bot_ok 120;
    OpAdd 7 "XAUUSD" 2300%float ABOVE true 130;
    OpDeactivate 1 140;
    OpDelete 2;
    OpTick sample_feed bot_ok 180 ].

End AlertSamples.

(** ** More of the alert table's methods *)

Module AlertOps.
Import Alerts.

(** [DB.get_price_alert_by_id]: [session.get(PriceAlert, alert_id)]. *)
Definition get_price_alert_by_id (alert_id : Z) (db : Table) : option PriceAlert :=
  find (fun a => Z.eqb (id a) alert_id) db.


(** All alerts of the table are inactive or have no price this tick. *)
Definition nothing_priced (feed : PriceFeed) (db : Table) : Prop :=
  forall a, In a db -> is_active a = true ->
            fetch_current_price (feed (PyStr.upper (asset a))) = None.

(** A feed on which every request fails. *)
Definition dead_feed : PriceFeed := fun _ => ClientError.

End AlertOps.

(** ** The scheduler: APScheduler as app/scheduler.py and the admin handlers
    use it *)

Module Scheduler.

(** A row of table [scheduled_tasks]. *)
Record ScheduledTask := mkScheduledTask {
  job_id : string;
  asset : string;
  hour : Z;
  minute : Z;
  timezone : string
}.

(** The callable of a job with the arguments bound to it (the bot handle is
    left out). *)
Inductive JobFunc :=
| scheduled_analysis_job (asset : string)
| check_price_alerts_job
| send_daily_economic_calendar_job.

(** The trigger arguments of an [add_job] call; [timezone] is optional. *)
Inductive TriggerArgs :=
| cron (hour minute : Z) (timezone : option string)
| interval (minutes : Z) (timezone : option string).

(** A trigger as the scheduler stores it, with its time zone resolved. *)
Inductive Trigger :=
| CronTrigger (hour minute : Z) (tz : string)
| IntervalTrigger (minutes : Z) (tz : string).

Record Job := mkJob {
  id : string;
  func : JobFunc;
  trigger : Trigger
}.

(** Modelled from the spec: the scheduler library is not part of the
    repository. Its contract ("registers or atomically replaces an existing
    job with the same id", jobs evaluated "against each job's configured
    timezone") is modelled as APScheduler 3 implements it: jobs added before
    [start] wait in a pending list and are stored, in order, by [start]; a
    trigger created without a time zone takes the scheduler's, which is the
    host's local zone for [AsyncIOScheduler()]. *)
Record AsyncIOScheduler := mkScheduler {
  running : bool;
  scheduler_timezone : string;
  pending_jobs : list (Job * bool);
  jobstore : list Job
}.

Definition create_trigger (s : AsyncIOScheduler) (args : TriggerArgs) : Trigger :=
  match args with
  | cron h m (Some tz) => CronTrigger h m tz
  | cron h m None => CronTrigger h m (scheduler_timezone s)
  | interval n (Some tz) => IntervalTrigger n tz
  | interval n None => IntervalTrigger n (scheduler_timezone s)
  end.

Definition lookup_job (jid : string) (store : list Job) : option Job :=
  find (fun j => String.eqb (id j) jid) store.

Definition update_job (job : Job) (store : list Job) : list Job :=
  map (fun j => if String.eqb (id j) (id job) then job else j) store.

(** [_real_add_job]: [None] stands for [ConflictingIdError]. *)
Definition real_add_job (job : Job) (replace_existing : bool) (store : list Job)
  : option (list Job) :=
  match lookup_job (id job) store with
  | None => Some (store ++ [job])
  | Some _ => if replace_existing then Some (update_job job store) else None
  end.

(** [scheduler.add_job(func, trigger, **trigger_args, id=..., replace_existing=...)] *)
Definition add_job (f : JobFunc) (args : TriggerArgs) (jid : string)
           (replace_existing : bool) (s : AsyncIOScheduler)
  : option AsyncIOScheduler :=
  let job := mkJob jid f (create_trigger s args) in
  if running s then
    match real_add_job job replace_existing (jobstore s) with
    | Some store => Some (mkScheduler true (scheduler_timezone s) (pending_jobs s) store)
    | None => None
    end
  else
    Some (mkScheduler false (scheduler_timezone s)
                      (pending_jobs s ++ [(job, replace_existing)]) (jobstore s)).

Fixpoint add_pending (pending : list (Job * bool)) (store : list Job)
  : option (list Job) :=
  match pending with
  | [] => Some store
  | (job, replace_existing) :: rest =>
      match real_add_job job replace_existing store with
      | Some store' => add_pending rest store'
      | None => None
      end
  end.

(** [scheduler.start()]; starting a running scheduler raises. *)
Definition start (s : AsyncIOScheduler) : option AsyncIOScheduler :=
  if running s then None
  else match add_pending (pending_jobs s) (jobstore s) with
       | Some store => Some (mkScheduler true (scheduler_timezone s) [] store)
       | None => None
       end.

(** [scheduler.get_job(job_id)]: a stopped scheduler answers from its
    pending jobs, a running one from its store. *)
Definition get_job (jid : string) (s : AsyncIOScheduler) : option Job :=
  if running s then lookup_job jid (jobstore s)
  else option_map fst (find (fun jr => String.eqb (id (fst jr)) jid) (pending_jobs s)).

(** [scheduler.remove_job(job_id)] on a running scheduler. *)
Definition remove_job (jid : string) (s : AsyncIOScheduler) : AsyncIOScheduler :=
  mkScheduler (running s) (scheduler_timezone s) (pending_jobs s)
              (filter (fun j => negb (String.eqb (id j) jid)) (jobstore s)).

(** *** setup_scheduler *)

Definition add_task_job (task : ScheduledTask) (s : AsyncIOScheduler)
  : option AsyncIOScheduler :=
  add_job (scheduled_analysis_job (asset task))
          (cron (hour task) (minute task) None) (job_id task) true s.

Fixpoint add_task_jobs (tasks : list ScheduledTask) (s : AsyncIOScheduler)
  : option AsyncIOScheduler :=
  match tasks with
  | [] => Some s
  | task :: rest =>
      match add_task_job task s with
      | Some s' => add_task_jobs rest s'
      | None => None
      end
  end.

Definition setup_scheduler (tasks : list ScheduledTask) (s : AsyncIOScheduler)
  : option AsyncIOScheduler :=
  match add_task_jobs tasks s with
  | Some s1 =>
      match add_job check_price_alerts_job (interval 1 None)
                    "price_alert_checker" true s1 with
      | Some s2 =>
          add_job send_daily_economic_calendar_job
                  (cron 2 0 (Some "Asia/Baghdad"))
                  "daily_calendar_sender" true s2
      | None => None
      end
  | None => None
  end.

(** [on_startup] of main.py: set the jobs up, then start. *)
Definition on_startup (tasks : list ScheduledTask) (s : AsyncIOScheduler)
  : option AsyncIOScheduler :=
  match setup_scheduler tasks s with
  | Some s' => start s'
  | None => None
  end.

(** *** The admin handler that adds a task *)

(** What the admin handlers read and write. *)
Record AdminState := mkAdminState {
  scheduler : AsyncIOScheduler;
  scheduled_tasks : list ScheduledTask
}.

Inductive Reply :=
| InvalidMinute
| TaskAlreadyExists
| TaskScheduled (asset : string) (hour minute : Z).

(** [job_id = f"task_{asset}_{hour}_{minute}"] *)
Definition task_job_id (asset : string) (hour minute : Z) : string :=
  "task_" ++ asset ++ "_" ++ PyStr.str hour ++ "_" ++ PyStr.str minute.

(** [DB.add_task]: column [job_id] is unique, a second row with the same
    value is an integrity error ([None]); [timezone] takes its default. *)
Definition add_task (jid asset : string) (hour minute : Z)
           (tasks : list ScheduledTask) : option (list ScheduledTask) :=
  if existsb (fun t => String.eqb (job_id t) jid) tasks then None
  else Some (tasks ++ [mkScheduledTask jid asset hour minute "Asia/Baghdad"]).

(** [add_task_minute_handler], given the message text and the asset and
    hour kept in the conversation state; [None] when an exception escapes. *)
Definition add_task_minute_handler (text asset : string) (hour : Z)
           (st : AdminState) : option (AdminState * Reply) :=
  if orb (negb (PyStr.isdigit text))
         (negb (andb (0 <=? PyStr.int text)%Z (PyStr.int text <=? 59)%Z))
  then Some (st, InvalidMinute)
  else
    let minute := PyStr.int text in
    let jid := task_job_id asset hour minute in
    match get_job jid (scheduler st) with
    | Some _ => Some (st, TaskAlreadyExists)
    | None =>
        match add_task jid asset hour minute (scheduled_tasks st) with
        | None => None
        | Some tasks' =>
            match add_job (scheduled_analysis_job asset) (cron hour minute None)
                          jid true (scheduler st) with
            | Some s' => Some (mkAdminState s' tasks', TaskScheduled asset hour minute)
            | None => None
            end
        end
    end.

(** *** When a cron job is due *)

(** Modelled from the spec: a cron job fires at the instants whose
    wall-clock time in the trigger's zone is its (hour, minute). Instants are
    minutes of UTC; [utc_offset] gives a zone's offset in minutes. *)
Definition cron_fires (utc_offset : string -> Z) (j : Job) (utc_minute : Z) : bool :=
  match trigger j with
  | CronTrigger h m tz => Z.eqb ((utc_minute + utc_offset tz) mod 1440) (60 * h + m)
  | IntervalTrigger _ _ => false
  end.

Definition unique_job_ids (store : list Job) : Prop := NoDup (map id store).

(** A string without the separator of [task_job_id]. *)
Fixpoint no_underscore (s : string) : bool :=
  match s with
  | EmptyString => true
  | String c s' => andb (negb (Ascii.eqb c "_"%char)) (no_underscore s')
  end.

(** *** Sample data *)

(** Baghdad is three hours east of UTC. *)
Definition sample_offsets (tz : string) : Z :=
  if String.eqb tz "Asia/Baghdad" then 180 else 0.

(** A fresh [AsyncIOScheduler()] on a host whose local zone is UTC. *)
Definition utc_host : AsyncIOScheduler := mkScheduler false "UTC" [] [].

(** The reference task: XAUUSD at 02:00, zone Asia/Baghdad. *)
Definition baghdad_task : ScheduledTask :=
  mkScheduledTask "task_XAUUSD_2_0" "XAUUSD" 2 0 "Asia/Baghdad".

(** 23:00 UTC is 02:00 in Baghdad; 02:00 UTC is 05:00 in Baghdad. *)
Definition baghdad_0200 : Z := 23 * 60.
Definition utc_0200 : Z := 2 * 60.

End Scheduler.

(** ** The admin's task conversation and task removal: app/handlers/admin.py *)

Module AdminTasks.
Import Scheduler.

(** [DB.delete_task] *)
Definition delete_task (jid : string) (tasks : list ScheduledTask)
  : list ScheduledTask :=
  filter (fun t => negb (String.eqb (job_id t) jid)) tasks.

(** [s.split(sep, maxsplit)]: at most [maxsplit] cuts, the rest is kept
    whole. *)
Fixpoint split_max (sep : ascii) (maxsplit : nat) (s : string) : list string :=
  match maxsplit with
  | O => [s]
  | S n =>
      match s with
      | EmptyString => [EmptyString]
      | String c s' =>
          if Ascii.eqb c sep then EmptyString :: split_max sep n s'
          else match split_max sep (S n) s' with
               | [] => [String c EmptyString]
               | p :: ps => String c p :: ps
               end
      end
  end.

(** The callback data [list_tasks_keyboard] puts on the button of a task
    (for removal). *)
Definition remove_button_data (t : ScheduledTask) : string :=
  "task:remove:" ++ job_id t.

(** [remove_task_handler] for a callback whose data is [data]; [None] when
    the data has no third part and the index raises. *)
Definition remove_task_handler (data : string) (st : AdminState)
  : option AdminState :=
  match split_max ":"%char 2 data with
  | _ :: _ :: jid :: _ =>
      let s1 := match get_job jid (scheduler st) with
                | Some _ => remove_job jid (scheduler st)
                | None => scheduler st
                end in
      Some (mkAdminState s1 (delete_task jid (scheduled_tasks st)))
  | _ => None
  end.

(** The states of the conversation that adds a task, and what it has
    collected so far ([state.update_data]). *)
Inductive TaskState := add_task_asset | add_task_hour | add_task_minute.

Record Dialog := mkDialog {
  state : option TaskState;
  data_asset : option string;
  data_hour : option Z
}.

Inductive Said :=
| AskAsset | AskHour | AskMinute
| InvalidHour
| Replied (r : Reply).

(** [add_task_prompt_handler] *)
Definition add_task_prompt_handler (d : Dialog) : Dialog * Said :=
  (mkDialog (Some add_task_asset) (data_asset d) (data_hour d), AskAsset).

(** [add_task_asset_handler] *)
Definition add_task_asset_handler (text : string) (d : Dialog) : Dialog * Said :=
  (mkDialog (Some add_task_hour) (Some (PyStr.upper text)) (data_hour d), AskHour).

(** [add_task_hour_handler] *)
Definition add_task_hour_handler (text : string) (d : Dialog) : Dialog * Said :=
  if orb (negb (PyStr.isdigit text))
         (negb (andb (0 <=? PyStr.int text)%Z (PyStr.int text <=? 23)%Z))
  then (d, InvalidHour)
  else (mkDialog (Some add_task_minute) (data_asset d) (Some (PyStr.int text)),
        AskMinute).

(** A text message of the admin, routed by the state of the conversation;
    [None] when no handler of the conversation takes it or an exception
    escapes ([data['asset']] or [data['hour']] missing, the task row already
    there). The minute handler clears the conversation when it has scheduled
    the task. *)
Definition task_message (text : string) (d : Dialog) (st : AdminState)
  : option (Dialog * AdminState * Said) :=
  match state d with
  | None => None
  | Some add_task_asset =>
      let '(d', said) := add_task_asset_handler text d in Some (d', st, said)
  | Some add_task_hour =>
      let '(d', said) := add_task_hour_handler text d in Some (d', st, said)
  | Some add_task_minute =>
      match data_asset d, data_hour d with
      | Some asset, Some hour =>
          match add_task_minute_handler text asset hour st with
          | Some (st', TaskScheduled a h m) =>
              Some (mkDialog None None None, st', Replied (TaskScheduled a h m))
          | Some (st', r) => Some (d, st', Replied r)
          | None => None
          end
      | _, _ => None
      end
  end.

(** The whole conversation: the prompt, then the three messages. *)
Definition add_task_conversation (asset_text hour_text minute_text : string)
           (st : AdminState) : option (Dialog * AdminState * Said) :=
  let '(d0, _) := add_task_prompt_handler (mkDialog None None None) in
  match task_message asset_text d0 st with
  | Some (d1, st1, _) =>
      match task_message hour_text d1 st1 with
      | Some (d2, st2, _) => task_message minute_text d2 st2
      | None => None
      end
  | None => None
  end.

(** The texts on which [PyStr] speaks for Python: every character is
    ASCII. (Outside ASCII [str.isdigit] accepts characters [int] rejects.) *)
Fixpoint ascii_text (s : string) : bool :=
  match s with
  | EmptyString => true
  | String c s' => andb (nat_of_ascii c <? 128)%nat (ascii_text s')
  end.

(** The ids [setup_scheduler] gives its own two jobs. *)
Definition reserved_ids : list string :=
  ["price_alert_checker"; "daily_calendar_sender"].

Definition is_analysis_job (j : Job) : bool :=
  match func j with
  | scheduled_analysis_job _ => true
  | _ => false
  end.

(** The job [setup_scheduler] and the handler register for a task. *)
Definition task_job (tz : string) (t : ScheduledTask) : Job :=
  mkJob (job_id t) (scheduled_analysis_job (asset t))
        (CronTrigger (hour t) (minute t) tz).

Definition system_jobs (tz : string) : list Job :=
  [ mkJob "price_alert_checker" check_price_alerts_job (IntervalTrigger 1 tz);
    mkJob "daily_calendar_sender" send_daily_economic_calendar_job
          (CronTrigger 2 0 "Asia/Baghdad") ].

(** The table of tasks and the running scheduler agree: the scheduler runs,
    its ids are pairwise distinct, and the ids of its analysis jobs are the
    job ids of the table. *)
Definition in_sync (st : AdminState) : Prop :=
  running (scheduler st) = true
  /\ unique_job_ids (jobstore (scheduler st))
  /\ (forall jid, In jid (map job_id (scheduled_tasks st))
                  <-> In jid (map id (filter is_analysis_job
                                             (jobstore (scheduler st))))).

(** A persisted table as the unique column and the handler's ids make it:
    no job id twice, none of them reserved. *)
Definition well_formed_tasks (tasks : list ScheduledTask) : Prop :=
  NoDup (map job_id tasks)
  /\ (forall t, In t tasks -> ~ In (job_id t) reserved_ids).

Definition sample_tasks : list ScheduledTask :=
  [ mkScheduledTask "task_XAUUSD_8_30" "XAUUSD" 8 30 "Asia/Baghdad";
    mkScheduledTask "task_EURUSD_14_0" "EURUSD" 14 0 "Asia/Baghdad" ].

End AdminTasks.

(** ** Fan-out of one message: the broadcast handler and the tail of the
    daily calendar job *)

Module Fanout.

(** The texts these two paths send. *)
Inductive Text :=
| Broadcast (html : string)
| Digest (body : string)
| AdminReport (sent_count : nat).

(** What awaiting [bot.send_message] gave: a message, or an exception. *)
Inductive SendResult := Sent | Raised.

Definition Bot := Z -> Text -> SendResult.

Definition is_exception (r : SendResult) : bool :=
  match r with Raised => true | Sent => false end.

(** One awaited send: its result, and the call added to the log of calls
    made on the transport. *)
Definition send_message (bot : Bot) (chat_id : Z) (text : Text)
           (log : list (Z * Text)) : SendResult * list (Z * Text) :=
  (bot chat_id text, log ++ [(chat_id, text)]).

(** [asyncio.gather] with [return_exceptions=True] over the sends to
    [chat_ids]: every task runs, an exception becomes that task's result. *)
Fixpoint gather (bot : Bot) (chat_ids : list Z) (text : Text)
         (log : list (Z * Text)) : list SendResult * list (Z * Text) :=
  match chat_ids with
  | [] => ([], log)
  | chat_id :: rest =>
      let '(r, log1) := send_message bot chat_id text log in
      let '(rs, log2) := gather bot rest text log1 in
      (r :: rs, log2)
  end.

(** The counting loop of [send_broadcast_confirm_handler]. *)
Definition count_step (acc : nat * nat) (result : SendResult) : nat * nat :=
  let '(sent, failed) := acc in
  if is_exception result then (sent, failed + 1) else (sent + 1, failed).

(** [send_broadcast_confirm_handler], from [DB.get_all_user_ids()] on: the
    counts it reports and the calls made. *)
Definition send_broadcast_confirm_handler (bot : Bot) (user_ids : list Z)
           (message_text : string) (log : list (Z * Text))
  : (nat * nat) * list (Z * Text) :=
  let '(results, log') := gather bot user_ids (Broadcast message_text) log in
  (fold_left count_step results (0, 0), log').

(** How the calendar job ends. *)
Inductive JobEnd :=
| NoUsers
| Finished (sent_count : nat)
| AdminSendRaised (sent_count : nat).

(** The unguarded loop over [ADMIN_IDS]: the first send that raises ends the
    job with that exception. *)
Fixpoint report_to_admins (bot : Bot) (admin_ids : list Z) (sent_count : nat)
         (log : list (Z * Text)) : bool * list (Z * Text) :=
  match admin_ids with
  | [] => (true, log)
  | admin_id :: rest =>
      let '(r, log1) := send_message bot admin_id (AdminReport sent_count) log in
      if is_exception r then (false, log1)
      else report_to_admins bot rest sent_count log1
  end.

(** [send_daily_economic_calendar_job], from [DB.get_all_active_users()]
    on. *)
Definition send_daily_economic_calendar_job (bot : Bot) (all_users admin_ids : list Z)
           (message_text : string) (log : list (Z * Text))
  : JobEnd * list (Z * Text) :=
  match all_users with
  | [] => (NoUsers, log)
  | _ :: _ =>
      let '(results, log1) := gather bot all_users (Digest message_text) log in
      let sent_count := List.length (filter (fun r => negb (is_exception r)) results) in
      if (0 <? sent_count)%nat then
        let '(ok, log2) := report_to_admins bot admin_ids sent_count log1 in
        ((if ok then Finished sent_count else AdminSendRaised sent_count), log2)
      else (Finished sent_count, log1)
  end.

(** The recipients whose send raises. *)
Definition failures (bot : Bot) (chat_ids : list Z) (text : Text) : nat :=
  List.length (filter (fun c => is_exception (bot c text)) chat_ids).

End Fanout.

(** ** The entry point of the add-alert conversation: app/handlers/user.py *)

Module UserHandlers.

(** A row of table [users], with the columns the handler reads. *)
Record User := mkUser {
  id : Z;
  subscription_tier : string;
  is_vip : bool
}.

Inductive FSM := set_alert_asset | set_alert_price | set_alert_type
               | set_alert_frequency | delete_alert_confirm.

Inductive Output :=
| AnswerAlert (text : string)      (* query.answer(text, show_alert=True) *)
| EditText (text : string)         (* query.message.edit_text(text, ...) *)
| Answer.                          (* query.answer() *)

Record World := mkWorld {
  users : list User;
  price_alerts : Alerts.Table;
  state : option FSM;
  outputs : list Output
}.

(** [DB.get_user] *)
Definition get_user (user_id : Z) (w : World) : option User :=
  find (fun u => Z.eqb (id u) user_id) (users w).

Definition upgrade_prompt : string :=
  "You have reached the maximum of 3 active alerts for the free plan. Please upgrade to add more.".

Definition choose_asset_prompt : string :=
  "Choose the asset you want to set an alert for:".

Definition start_flow (w : World) : World :=
  mkWorld (users w) (price_alerts w) (Some set_alert_asset)
          (outputs w ++ [EditText choose_asset_prompt; Answer]).

(** [start_add_alert_handler]; [None] when the user row is missing and the
    attribute access raises. *)
Definition start_add_alert_handler (from_user : Z) (w : World) : option World :=
  match get_user from_user w with
  | None => None
  | Some user =>
      if String.eqb (subscription_tier user) "free" then
        let active_alerts_count :=
          List.length (Alerts.get_user_price_alerts (id user) true (price_alerts w)) in
        if (3 <=? active_alerts_count)%nat then
          Some (mkWorld (users w) (price_alerts w) (state w)
                        (outputs w ++ [AnswerAlert upgrade_prompt]))
        else Some (start_flow w)
      else Some (start_flow w)
  end.

(** *** Sample data: a free user with three active alerts and a subscriber
    with four *)

Definition free_user : User := mkUser 7 "free" false.
Definition pro_user : User := mkUser 8 "pro" false.

Definition alert_of (alert_id uid : Z) : Alerts.PriceAlert :=
  Alerts.mkPriceAlert alert_id uid "XAUUSD" 2300%float Alerts.ABOVE true 0 None true.

Definition sample_world : World :=
  mkWorld [free_user; pro_user]
          [alert_of 1 7; alert_of 2 7; alert_of 3 7;
           alert_of 4 8; alert_of 5 8; alert_of 6 8; alert_of 7 8]
          None [].

End UserHandlers.

(** ** The economic calendar: MyfxbookCalendarScraper *)

Module Calendar.

(** *** Matching as [re.match] does

    A pattern is the list of ways it matches a prefix of the subject, in the
    order a backtracking matcher tries them; each way carries the value read
    and the rest of the subject. The match [re.match] returns is the first
    one. *)
Definition Pattern (A : Type) : Type := string -> list (A * string).

Definition pure {A} (a : A) : Pattern A := fun s => [(a, s)].

Definition seq {A B} (p : Pattern A) (f : A -> Pattern B) : Pattern B :=
  fun s => flat_map (fun ar => f (fst ar) (snd ar)) (p s).

(** [p|q]: the ways of [p] come before those of [q]. *)
Definition alt {A} (p q : Pattern A) : Pattern A := fun s => p s ++ q s.

Definition char_where (ok : ascii -> bool) : Pattern ascii :=
  fun s => match s with
           | String c rest => if ok c then [(c, rest)] else []
           | EmptyString => []
           end.

(** A digit between two bounds, as its value. *)
Definition digit_in (lo hi : nat) : Pattern Z :=
  seq (char_where (fun c => let n := nat_of_ascii c in
                            andb (48 + lo <=? n)%nat (n <=? 48 + hi)%nat))
      (fun c => pure (PyStr.digit_value c)).

(** [\d], on ASCII. *)
Definition digit : Pattern Z := digit_in 0 9.

Definition two_digits (p q : Pattern Z) : Pattern Z :=
  seq p (fun a => seq q (fun b => pure (10 * a + b)%Z)).

Definition lower_char (c : ascii) : ascii :=
  let n := nat_of_ascii c in
  if andb (65 <=? n)%nat (n <=? 90)%nat then ascii_of_nat (n + 32) else c.

(** A literal word under [re.IGNORECASE]. *)
Fixpoint word (w : string) : Pattern unit :=
  match w with
  | EmptyString => pure tt
  | String c w' =>
      seq (char_where (fun x => Ascii.eqb (lower_char x) (lower_char c)))
          (fun _ => word w')
  end.

Definition literal (c : ascii) : Pattern unit :=
  seq (char_where (Ascii.eqb c)) (fun _ => pure tt).

(** The rests left by [\s*], longest run first. *)
Fixpoint after_spaces (s : string) : list string :=
  match s with
  | String c rest => if PyStr.is_space c then after_spaces rest ++ [s] else [s]
  | EmptyString => [EmptyString]
  end.

(** [\s+], which every white space of a format becomes. *)
Definition spaces : Pattern unit :=
  fun s => match s with
           | String c rest =>
               if PyStr.is_space c
               then map (fun r => (tt, r)) (after_spaces rest) else []
           | EmptyString => []
           end.

(** *** The directives these formats use *)

(** [%d]: [3[0-1]|[1-2]\d|0[1-9]|[1-9]| [1-9]] *)
Definition directive_d : Pattern Z :=
  alt (two_digits (digit_in 3 3) (digit_in 0 1))
 (alt (two_digits (digit_in 1 2) digit)
 (alt (two_digits (digit_in 0 0) (digit_in 1 9))
 (alt (digit_in 1 9)
      (seq (literal " "%char) (fun _ => digit_in 1 9))))).

(** [%H]: [2[0-3]|[0-1]\d|\d] *)
Definition directive_H : Pattern Z :=
  alt (two_digits (digit_in 2 2) (digit_in 0 3))
 (alt (two_digits (digit_in 0 1) digit) digit).

(** [%I]: [1[0-2]|0[1-9]|[1-9]] *)
Definition directive_I : Pattern Z :=
  alt (two_digits (digit_in 1 1) (digit_in 0 2))
 (alt (two_digits (digit_in 0 0) (digit_in 1 9)) (digit_in 1 9)).

(** [%M]: [[0-5]\d|\d] *)
Definition directive_M : Pattern Z :=
  alt (two_digits (digit_in 0 5) digit) digit.

(** [%Y]: [\d\d\d\d] *)
Definition directive_Y : Pattern Z :=
  seq (two_digits digit digit)
      (fun hi => seq (two_digits digit digit) (fun lo => pure (100 * hi + lo)%Z)).

Definition month_abbr : list string :=
  ["jan"; "feb"; "mar"; "apr"; "may"; "jun";
   "jul"; "aug"; "sep"; "oct"; "nov"; "dec"].

Fixpoint one_of (names : list string) (value : Z) : Pattern Z :=
  match names with
  | [] => fun _ => []
  | n :: rest => alt (seq (word n) (fun _ => pure value)) (one_of rest (value + 1))
  end.

(** [%b], as the number of the month (C locale). *)
Definition directive_b : Pattern Z := one_of month_abbr 1.

(** [%p]: [true] for PM (C locale). *)
Definition directive_p : Pattern bool :=
  alt (seq (word "am") (fun _ => pure false)) (seq (word "pm") (fun _ => pure true)).

(** [_strptime]: the first match must use up the subject; no match or
    "unconverted data remains" is a [ValueError], here [None]. *)
Definition full_match {A} (p : Pattern A) (data : string) : option A :=
  match p data with
  | [] => None
  | (a, rest) :: _ => match rest with EmptyString => Some a | _ => None end
  end.

(** *** Dates and times *)

Record Date := mkDate { year : Z; month : Z; day : Z }.

(** A [datetime] localized to Asia/Baghdad: the zone has had one offset,
    +03:00, all year since 2008, so the local fields determine the instant
    and [localize(..., is_dst=None)] never fails. *)
Record DateTime := mkDateTime { date : Date; hour : Z; minute : Z }.

Definition is_leap (y : Z) : bool :=
  andb (y mod 4 =? 0)%Z (orb (negb (y mod 100 =? 0)%Z) (y mod 400 =? 0)%Z).

Definition days_in_month (y m : Z) : Z :=
  if (m =? 2)%Z then (if is_leap y then 29 else 28)
  else if orb (orb (m =? 4)%Z (m =? 6)%Z) (orb (m =? 9)%Z (m =? 11)%Z) then 30
  else 31.

(** The checks of the [date] constructor. *)
Definition valid_date (y m d : Z) : bool :=
  andb (andb (1 <=? y)%Z (y <=? 9999)%Z)
       (andb (andb (1 <=? m)%Z (m <=? 12)%Z)
             (andb (1 <=? d)%Z (d <=? days_in_month y m)%Z)).

(** [d + timedelta(days=1)] (below the last day of year 9999). *)
Definition next_day (d : Date) : Date :=
  if (day d <? days_in_month (year d) (month d))%Z
  then mkDate (year d) (month d) (day d + 1)
  else if (month d <? 12)%Z then mkDate (year d) (month d + 1) 1
       else mkDate (year d + 1) 1 1.

Definition Date_eqb (a b : Date) : bool :=
  andb (year a =? year b)%Z (andb (month a =? month b)%Z (day a =? day b)%Z).

(** The fields [datetime] compares, most significant first. *)
Definition fields (t : DateTime) : list Z :=
  [year (date t); month (date t); day (date t); hour t; minute t].

Fixpoint lex_leb (a b : list Z) : bool :=
  match a, b with
  | [], _ => true
  | _ :: _, [] => false
  | x :: a', y :: b' =>
      if (x <? y)%Z then true else if (y <? x)%Z then false else lex_leb a' b'
  end.

(** [a <= b] on localized datetimes of this zone. *)
Definition DateTime_leb (a b : DateTime) : bool := lex_leb (fields a) (fields b).

(** *** strptime with the three formats of the scraper *)

(** [datetime.strptime(data, "%b %d %Y").date()] *)
Definition strptime_b_d_Y (data : string) : option Date :=
  match full_match
          (seq directive_b (fun m =>
           seq spaces (fun _ =>
           seq directive_d (fun d =>
           seq spaces (fun _ =>
           seq directive_Y (fun y => pure (y, m, d))))))) data with
  | Some (y, m, d) => if valid_date y m d then Some (mkDate y m d) else None
  | None => None
  end.

(** The 24-hour value of a 12-hour reading. *)
Definition hour_of_12 (h : Z) (pm : bool) : Z :=
  if pm then (if (h =? 12)%Z then 12 else h + 12)%Z
  else (if (h =? 12)%Z then 0 else h)%Z.

(** [datetime.strptime(data, "%I:%M%p").time()] as (hour, minute). *)
Definition strptime_I_M_p (data : string) : option (Z * Z) :=
  full_match
    (seq directive_I (fun h =>
     seq (literal ":"%char) (fun _ =>
     seq directive_M (fun m =>
     seq directive_p (fun pm => pure (hour_of_12 h pm, m)))))) data.

(** [datetime.strptime(data, "%H:%M").time()] as (hour, minute). *)
Definition strptime_H_M (data : string) : option (Z * Z) :=
  full_match
    (seq directive_H (fun h =>
     seq (literal ":"%char) (fun _ =>
     seq directive_M (fun m => pure (h, m))))) data.

(** The inner [try]/[except ValueError] of [_parse_event_datetime]. *)
Definition parse_event_time (time_part : string) : option (Z * Z) :=
  match strptime_I_M_p (PyStr.upper time_part) with
  | Some event_time => Some event_time
  | None => strptime_H_M time_part
  end.

(** [_parse_event_datetime]; [None] is the value returned after a
    [ValueError]. *)
Definition _parse_event_datetime (current_year : Z) (date_str : string)
  : option DateTime :=
  let parts := PyStr.split ","%char date_str in
  let date_part := PyStr.strip (hd EmptyString parts) in
  let time_part := match parts with
                   | _ :: p1 :: _ => PyStr.strip p1
                   | _ => EmptyString
                   end in
  match strptime_b_d_Y (date_part ++ " " ++ PyStr.str current_year) with
  | None => None
  | Some event_date =>
      if valid_date current_year (month event_date) (day event_date) then
        let final_date := mkDate current_year (month event_date) (day event_date) in
        match time_part with
        | EmptyString => Some (mkDateTime final_date 0 0)
        | _ =>
            match parse_event_time time_part with
            | Some (h, m) => Some (mkDateTime final_date h m)
            | None => None
            end
        end
      else None
  end.

(** *** The rows of the page and the scrape *)

(** A [td] of a row: its text, and the text of its first [div] whose class
    starts with [impact_], if there is one. *)
Record Td := mkTd { td_text : string; td_impact_div : option string }.

(** What the scraper looks at in a [tr.economicCalendarRow]: the text of the
    [div] with attribute [data-calendardatetd], the [td]s in order, and the
    texts of the [td]s with attributes [data-previous], [data-concensus] and
    [data-actual]; [None] where [find] finds nothing. *)
Record Row := mkRow {
  date_div : option string;
  tds : list Td;
  previous_td : option string;
  concensus_td : option string;
  actual_td : option string
}.

Record Event := mkEvent {
  datetime_obj : DateTime;
  currency : string;
  event : string;
  impact : string;
  previous : string;
  forecast : string;
  actual : string
}.

Definition target_currencies : list string := ["USD"; "EUR"].
Definition acceptable_impacts : list string := ["Medium"; "High"].

(** [x in xs] on strings. *)
Definition str_in (x : string) (xs : list string) : bool := existsb (String.eqb x) xs.

(** [s or default] on strings. *)
Definition or_default (s default : string) : string :=
  match s with EmptyString => default | _ => s end.

Definition empty_td : Td := mkTd EmptyString None.

(** What the body of [for row in rows] does with one row. *)
Inductive RowResult :=
| Skipped                  (* a [continue] *)
| RowError                 (* an exception, caught and logged *)
| Appended (e : Event).

Definition scrape_row (now : DateTime) (row : Row) : RowResult :=
  let today_baghdad := date now in
  let tomorrow_baghdad := next_day today_baghdad in
  match date_div row with
  | None => Skipped
  | Some text =>
      let date_str := PyStr.strip text in
      if (List.length (tds row) <? 6)%nat then Skipped
      else
        let currency := PyStr.strip (td_text (nth 3 (tds row) empty_td)) in
        let event := PyStr.strip (td_text (nth 4 (tds row) empty_td)) in
        let impact := match td_impact_div (nth 5 (tds row) empty_td) with
                      | Some t => PyStr.strip t
                      | None => "None"
                      end in
        if orb (negb (str_in currency target_currencies))
               (negb (str_in impact acceptable_impacts))
        then Skipped
        else
          match _parse_event_datetime (year (date now)) date_str with
          | None => Skipped
          | Some event_full_dt =>
              if negb (orb (Date_eqb (date event_full_dt) today_baghdad)
                           (Date_eqb (date event_full_dt) tomorrow_baghdad))
              then Skipped
              else
                match previous_td row, concensus_td row, actual_td row with
                | Some p, Some f, Some a =>
                    Appended (mkEvent event_full_dt currency event impact
                                (or_default (PyStr.strip p) "N/A")
                                (or_default (PyStr.strip f) "N/A")
                                (or_default (PyStr.strip a) "Not released"))
                | _, _, _ => RowError
                end
          end
  end.

Definition appended (r : RowResult) : list Event :=
  match r with Appended e => [e] | _ => [] end.

(** [list.sort(key=lambda x: x['datetime_obj'])]: a stable sort. *)
Fixpoint insert_event (e : Event) (sorted : list Event) : list Event :=
  match sorted with
  | [] => [e]
  | e' :: rest =>
      if DateTime_leb (datetime_obj e) (datetime_obj e')
      then e :: e' :: rest
      else e' :: insert_event e rest
  end.

Definition sort_events (events : list Event) : list Event :=
  fold_right insert_event [] events.

(** What the request for the page gave. *)
Inductive Response :=
| NetworkError
| UnexpectedError
| Page (rows : list Row).

(** [_scrape_calendar], with the clock reading [now] in Baghdad time. *)
Definition _scrape_calendar (response : Response) (now : DateTime) : list Event :=
  match response with
  | Page rows => sort_events (flat_map (fun row => appended (scrape_row now row)) rows)
  | NetworkError => []
  | UnexpectedError => []
  end.

(** *** The output as the specification words it *)

(** A parsed row: a row from which the date, the currency, the headline, the
    impact and the previous, forecast and actual values could all be
    extracted. *)
Definition parsed_row (current_year : Z) (row : Row) : option Event :=
  match date_div row, previous_td row, concensus_td row, actual_td row with
  | Some text, Some p, Some f, Some a =>
      if (6 <=? List.length (tds row))%nat then
        match _parse_event_datetime current_year (PyStr.strip text) with
        | Some dt =>
            Some (mkEvent dt
                    (PyStr.strip (td_text (nth 3 (tds row) empty_td)))
                    (PyStr.strip (td_text (nth 4 (tds row) empty_td)))
                    (match td_impact_div (nth 5 (tds row) empty_td) with
                     | Some t => PyStr.strip t
                     | None => "None"
                     end)
                    (or_default (PyStr.strip p) "N/A")
                    (or_default (PyStr.strip f) "N/A")
                    (or_default (PyStr.strip a) "Not released"))
        | None => None
        end
      else None
  | _, _, _, _ => None
  end.

(** Currency in the target set, impact in the acceptable set, and the date
    today or tomorrow. *)
Definition wanted (today : Date) (e : Event) : bool :=
  andb (str_in (currency e) target_currencies)
       (andb (str_in (impact e) acceptable_impacts)
             (orb (Date_eqb (date (datetime_obj e)) today)
                  (Date_eqb (date (datetime_obj e)) (next_day today)))).

Definition wanted_parsed_rows (rows : list Row) (now : DateTime) : list Event :=
  filter (wanted (date now))
         (flat_map (fun row => match parsed_row (year (date now)) row with
                               | Some e => [e]
                               | None => []
                               end) rows).

(** [a] is not later than [b]. *)
Definition not_later (a b : Event) : Prop :=
  DateTime_leb (datetime_obj a) (datetime_obj b) = true.

(** *** How a clock reading is written in the two formats *)

Definition two_digit (n : Z) : string :=
  if (n <? 10)%Z then "0" ++ PyStr.str n else PyStr.str n.

(** "14:30" *)
Definition clock24 (h m : Z) : string := PyStr.str h ++ ":" ++ two_digit m.

(** "2:30PM" *)
Definition clock12 (h m : Z) : string :=
  PyStr.str (if (h mod 12 =? 0)%Z then 12 else h mod 12)
  ++ ":" ++ two_digit m ++ (if (h <? 12)%Z then "AM" else "PM").

(** Both writings of every minute of the day are read back as that minute,
    the first by the 12-hour format, the second by the 24-hour format after
    the 12-hour format has failed on it. *)
Definition clock_read_back (h m : Z) : bool :=
  match strptime_I_M_p (PyStr.upper (clock12 h m)),
        strptime_I_M_p (PyStr.upper (clock24 h m)),
        strptime_H_M (clock24 h m) with
  | Some (h1, m1), None, Some (h2, m2) =>
      andb (andb (h1 =? h)%Z (m1 =? m)%Z) (andb (h2 =? h)%Z (m2 =? m)%Z)
  | _, _, _ => false
  end.

Definition all_clocks_read_back : bool :=
  forallb (fun h => forallb (fun m => clock_read_back (Z.of_nat h) (Z.of_nat m))
                            (List.seq 0 60))
          (List.seq 0 24).

(** *** Sample page *)

Definition sample_now : DateTime := mkDateTime (mkDate 2025 1 4) 2 0.

Definition sample_tds (cur title imp : string) : list Td :=
  [empty_td; empty_td; empty_td; mkTd cur None; mkTd title None;
   mkTd EmptyString (Some imp)].

Definition sample_row (when cur title imp : string) : Row :=
  mkRow (Some when) (sample_tds cur title imp) (Some "1.0") (Some "") (Some "").

Definition sample_rows : list Row :=
  [ sample_row "Jan 5, 2:30PM" "USD" "CPI" "High";
    sample_row "Jan 5, 14:30" "EUR" "ECB Rate" "Medium";
    sample_row "Jan 4, 09:00" "USD" "Payrolls" "High";
    sample_row "soon" "USD" "Undated" "High";
    sample_row "Jan 4, 10:00" "JPY" "BoJ" "High";
    sample_row "Jan 4, 11:00" "USD" "Minor" "Low";
    sample_row "Jan 9, 11:00" "USD" "Later" "High";
    mkRow (Some "Jan 4, 12:00") (sample_tds "USD" "No cells" "High") None None None ].

End Calendar.


(* ====================================================================== *)
(** ** More on the calendar scraper *)

Module CalendarMore.
Import Calendar.

(** Every value a pattern can read satisfies [P]. *)
Definition yields {A} (P : A -> Prop) (p : Pattern A) : Prop :=
  forall s a rest, In (a, rest) (p s) -> P a.

(** The events at instant [t]: the key of the sort compares equal. *)
Definition same_instant (t : DateTime) (e : Event) : bool :=
  andb (DateTime_leb (datetime_obj e) t) (DateTime_leb t (datetime_obj e)).

(** A clock reading within the day. *)
Definition clock_ok (t : Z * Z) : Prop :=
  (0 <= fst t <= 23)%Z /\ (0 <= snd t <= 59)%Z.

Definition new_years_eve : DateTime := mkDateTime (mkDate 2025 12 31) 9 0.

Definition new_year_rows : list Row :=
  [ sample_row "Jan 1, 10:00" "USD" "ISM" "High";
    sample_row "Dec 31, 16:30" "USD" "Jobless Claims" "Medium" ].

End CalendarMore.

(** ** The scheduled analysis job: app/scheduler.py *)

Module AnalysisJob.
Import Fanout.

(** The two texts the job sends. *)
Inductive Notice :=
| VipAnalysis (asset recommendation : string)
| JobFailed (asset error : string).

Definition Bot := Z -> Notice -> SendResult.

(** What an awaited call gave: its value, or the exception it raised (as
    the text [f"{e}"] shows it). *)
Inductive Awaited (A : Type) :=
| Returned (a : A)
| Raise (e : string).
Arguments Returned {A} a.
Arguments Raise {A} e.

Definition send_message (bot : Bot) (chat_id : Z) (text : Notice)
           (log : list (Z * Notice)) : SendResult * list (Z * Notice) :=
  (bot chat_id text, log ++ [(chat_id, text)]).

(** [asyncio.gather(..., return_exceptions=True)] over the sends to the VIP
    users. *)
Fixpoint gather (bot : Bot) (chat_ids : list Z) (text : Notice)
         (log : list (Z * Notice)) : list SendResult * list (Z * Notice) :=
  match chat_ids with
  | [] => ([], log)
  | chat_id :: rest =>
      let '(r, log1) := send_message bot chat_id text log in
      let '(rs, log2) := gather bot rest text log1 in
      (r :: rs, log2)
  end.

(** The [except] block: one send per administrator, each in its own
    [try]; a send that raises is logged and the loop goes on. *)
Fixpoint notify_admins (bot : Bot) (admin_ids : list Z) (asset e : string)
         (log : list (Z * Notice)) : list (Z * Notice) :=
  match admin_ids with
  | [] => log
  | admin_id :: rest =>
      let '(r, log1) := send_message bot admin_id (JobFailed asset e) log in
      if is_exception r then notify_admins bot rest asset e log1
      else notify_admins bot rest asset e log1
  end.

Section Job.
Variable Candles : Type.

(** [scheduled_analysis_job]: the calls it makes on the transport. [ready]
    is [API_ENABLED and gemini_model]; the three awaited calls of the [try]
    block are oracles. The job itself never raises. *)
Definition scheduled_analysis_job
           (ready : bool)
           (fetch_and_prepare_candles : string -> Awaited Candles)
           (analyze_asset : string -> Candles -> Awaited string)
           (get_vip_users : Awaited (list Z))
           (admin_ids : list Z)
           (asset : string) (bot : Bot) (log : list (Z * Notice))
  : list (Z * Notice) :=
  if negb ready then log
  else
    match fetch_and_prepare_candles asset with
    | Raise e => notify_admins bot admin_ids asset e log
    | Returned candles =>
        match analyze_asset asset candles with
        | Raise e => notify_admins bot admin_ids asset e log
        | Returned recommendation =>
            match get_vip_users with
            | Raise e => notify_admins bot admin_ids asset e log
            | Returned [] => log
            | Returned vip_users =>
                snd (gather bot vip_users (VipAnalysis asset recommendation) log)
            end
        end
    end.

End Job.

End AnalysisJob.

(** ** The price-alert conversations: app/handlers/user.py *)

Module AlertFlow.
Import UserHandlers.

(** [int(s)] on the numerals [str] writes: decimal digits, with a minus
    sign for a negative number. [None] is the [ValueError]. *)
Definition py_int (s : string) : option Z :=
  match s with
  | String "-"%char digits =>
      if PyStr.isdigit digits then Some (- PyStr.int digits)%Z else None
  | _ => if PyStr.isdigit s then Some (PyStr.int s) else None
  end.

Definition is_alnum (c : ascii) : bool :=
  let n := nat_of_ascii c in
  orb (PyStr.is_digit c)
      (orb (andb (65 <=? n)%nat (n <=? 90)%nat) (andb (97 <=? n)%nat (n <=? 122)%nat)).

Fixpoint all_alnum (s : string) : bool :=
  match s with
  | EmptyString => true
  | String c s' => andb (is_alnum c) (all_alnum s')
  end.

(** [s.isalnum()] on ASCII: at least one character, all letters or
    digits. *)
Definition isalnum (s : string) : bool :=
  match s with
  | EmptyString => false
  | _ => all_alnum s
  end.

(** [AlertType(value)]: the member with that value, or a [ValueError]. *)
Definition AlertType_of (value : string) : option Alerts.AlertType :=
  if String.eqb value "above" then Some Alerts.ABOVE
  else if String.eqb value "below" then Some Alerts.BELOW
  else None.

(** The [FSMContext] of the user: the state, and the keys of the data
    dictionary these handlers write. *)
Record Context := mkContext {
  fsm : option FSM;
  data_alert_asset : option string;
  data_target_price : option float;
  data_alert_type : option string;
  data_alert_to_delete : option Z
}.

(** [state.clear()] *)
Definition cleared : Context := mkContext None None None None None.

(** [state.set_state(st)] *)
Definition set_state (st : FSM) (c : Context) : Context :=
  mkContext (Some st) (data_alert_asset c) (data_target_price c)
            (data_alert_type c) (data_alert_to_delete c).

Record Session := mkSession {
  user_rows : list User;
  alert_rows : Alerts.Table;
  context : Context
}.

Definition with_context (c : Context) (s : Session) : Session :=
  mkSession (user_rows s) (alert_rows s) c.

(** What the handler answered. *)
Inductive Reply :=
| UpgradePrompt | ChooseAsset
| SubscribersOnly | AskSymbol
| AskPrice (asset : string)
| InvalidSymbol | InvalidPrice
| AskType | AskFrequency
| AlertSet (asset : string) (one_time : bool)
| AddFailed
| AlertNotFound
| Details (alert : Alerts.PriceAlert)
| ConfirmDelete
| AlertsMenu (deleted : bool).

(** The part of the callback data after the [k]-th colon. *)
Definition part (k : nat) (data : string) : option string :=
  nth_error (PyStr.split ":"%char data) k.

(** [start_add_alert_handler] on a session: it reads the tables and sets
    the state, the data dictionary is not touched. *)
Definition start_add_alert (from_user : Z) (s : Session)
  : option (Session * Reply) :=
  let c := context s in
  match start_add_alert_handler
          from_user (mkWorld (user_rows s) (alert_rows s) (fsm c) []) with
  | None => None
  | Some w =>
      Some (with_context (mkContext (state w) (data_alert_asset c)
                                    (data_target_price c) (data_alert_type c)
                                    (data_alert_to_delete c)) s,
            match outputs w with
            | [AnswerAlert _] => UpgradePrompt
            | _ => ChooseAsset
            end)
  end.

(** [select_alert_asset_handler]; [None] when an exception escapes (no
    second part, or the user row is missing where it is read). *)
Definition select_alert_asset_handler (data : string) (from_user : Z)
           (s : Session) : option (Session * Reply) :=
  let c := context s in
  match part 1 data with
  | None => None
  | Some asset_selected =>
      if String.eqb asset_selected "other_asset" then
        match find (fun u => Z.eqb (id u) from_user) (user_rows s) with
        | None => None
        | Some user =>
            if andb (String.eqb (subscription_tier user) "free")
                    (negb (is_vip user))
            then Some (s, SubscribersOnly)
            else Some (with_context (set_state set_alert_asset c) s, AskSymbol)
        end
      else
        Some (with_context
                (mkContext (Some set_alert_price) (Some asset_selected)
                           (data_target_price c) (data_alert_type c)
                           (data_alert_to_delete c)) s,
              AskPrice asset_selected)
  end.

(** [handle_custom_alert_asset] *)
Definition handle_custom_alert_asset (text : string) (s : Session)
  : Session * Reply :=
  let c := context s in
  let asset_symbol := PyStr.strip (PyStr.upper text) in
  if orb (negb (isalnum asset_symbol))
         (negb (andb (2 <=? String.length asset_symbol)%nat
                     (String.length asset_symbol <=? 10)%nat))
  then (s, InvalidSymbol)
  else (with_context
          (mkContext (Some set_alert_price) (Some asset_symbol)
                     (data_target_price c) (data_alert_type c)
                     (data_alert_to_delete c)) s,
        AskPrice asset_symbol).

(** [set_alert_price_handler]; [float_of] is [float(message.text)], [None]
    its [ValueError]. *)
Definition set_alert_price_handler (float_of : string -> option float)
           (text : string) (s : Session) : Session * Reply :=
  let c := context s in
  match float_of text with
  | None => (s, InvalidPrice)
  | Some price =>
      if PrimFloat.leb price 0%float then (s, InvalidPrice)
      else (with_context
              (mkContext (Some set_alert_type) (data_alert_asset c)
                         (Some price) (data_alert_type c)
                         (data_alert_to_delete c)) s,
            AskType)
  end.

(** [set_alert_type_handler] *)
Definition set_alert_type_handler (data : string) (s : Session)
  : option (Session * Reply) :=
  let c := context s in
  match part 1 data with
  | None => None
  | Some value =>
      Some (with_context
              (mkContext (Some set_alert_frequency) (data_alert_asset c)
                         (data_target_price c) (Some value)
                         (data_alert_to_delete c)) s,
            AskFrequency)
  end.

(** [set_alert_frequency_handler]: a missing key of the data or a value
    that is no alert type raises inside the [try], and the handler answers
    with the failure; the row is created at [now]. *)
Definition set_alert_frequency_handler (data : string) (from_user now : Z)
           (s : Session) : option (Session * Reply) :=
  let c := context s in
  match part 1 data with
  | None => None
  | Some freq =>
      let is_one_time_alert := String.eqb freq "one_time" in
      match data_alert_asset c, data_target_price c, data_alert_type c with
      | Some asset, Some price, Some value =>
          match AlertType_of value with
          | Some ty =>
              Some (mkSession (user_rows s)
                              (Alerts.add_price_alert from_user asset price ty
                                                      is_one_time_alert now
                                                      (alert_rows s))
                              cleared,
                    AlertSet asset is_one_time_alert)
          | None => Some (s, AddFailed)
          end
      | _, _, _ => Some (s, AddFailed)
      end
  end.

(** [manage_specific_alert_handler] *)
Definition manage_specific_alert_handler (data : string) (from_user : Z)
           (s : Session) : option (Session * Reply) :=
  match part 1 data with
  | None => None
  | Some text =>
      match py_int text with
      | None => None
      | Some alert_id =>
          match AlertOps.get_price_alert_by_id alert_id (alert_rows s) with
          | None => Some (s, AlertNotFound)
          | Some alert =>
              if negb (Z.eqb (Alerts.user_id alert) from_user)
              then Some (s, AlertNotFound)
              else Some (s, Details alert)
          end
      end
  end.

(** [confirm_delete_alert_handler] *)
Definition confirm_delete_alert_handler (data : string) (s : Session)
  : option (Session * Reply) :=
  let c := context s in
  match part 2 data with
  | None => None
  | Some text =>
      match py_int text with
      | None => None
      | Some alert_id =>
          Some (with_context
                  (mkContext (Some delete_alert_confirm) (data_alert_asset c)
                             (data_target_price c) (data_alert_type c)
                             (Some alert_id)) s,
                ConfirmDelete)
      end
  end.

(** [delete_alert_handler]: [if alert_id:] passes for an id that is there
    and is not zero. *)
Definition delete_alert_handler (s : Session) : Session * Reply :=
  match data_alert_to_delete (context s) with
  | Some alert_id =>
      if Z.eqb alert_id 0 then (with_context cleared s, AlertsMenu false)
      else (mkSession (user_rows s)
                      (Alerts.delete_price_alert alert_id (alert_rows s))
                      cleared,
            AlertsMenu true)
  | None => (with_context cleared s, AlertsMenu false)
  end.

Definition in_state (st : FSM) (s : Session) : bool :=
  match fsm (context s), st with
  | Some set_alert_asset, set_alert_asset
  | Some set_alert_price, set_alert_price
  | Some set_alert_type, set_alert_type
  | Some set_alert_frequency, set_alert_frequency
  | Some delete_alert_confirm, delete_alert_confirm => true
  | _, _ => false
  end.

(** What reaches the handlers of these conversations. *)
Inductive Update :=
| Callback (data : string)
| Text (text : string).

(** The handlers of the router for callback queries, in the order they are
    registered: the first whose filters pass takes the query. [None]: a
    handler outside these conversations takes it, no handler does, or an
    exception escapes. *)
Definition callback_query (data : string) (from_user now : Z) (s : Session)
  : option (Session * Reply) :=
  if String.eqb data "main_menu" then None
  else if String.prefix "analyze:" data then None
  else if String.prefix "eco_analyze:" data then None
  else if String.eqb data "alerts:list" then None
  else if String.eqb data "alerts:add" then start_add_alert from_user s
  else if String.prefix "set_alert:" data
       then select_alert_asset_handler data from_user s
  else if andb (String.prefix "alert_type:" data) (in_state set_alert_type s)
       then set_alert_type_handler data s
  else if andb (String.prefix "alert_freq:" data) (in_state set_alert_frequency s)
       then set_alert_frequency_handler data from_user now s
  else if String.prefix "alert_manage:" data
       then manage_specific_alert_handler data from_user s
  else if String.prefix "alert_action:delete:" data
       then confirm_delete_alert_handler data s
  else if andb (String.eqb data "alert_delete_confirmed")
               (in_state delete_alert_confirm s)
       then Some (delete_alert_handler s)
  else None.

(** A text message that is neither a command nor a label of the main menu
    goes to the handler of the state. *)
Definition text_message (float_of : string -> option float) (text : string)
           (s : Session) : option (Session * Reply) :=
  if in_state set_alert_asset s then Some (handle_custom_alert_asset text s)
  else if in_state set_alert_price s
       then Some (set_alert_price_handler float_of text s)
  else None.

Definition handle (float_of : string -> option float) (from_user now : Z)
           (u : Update) (s : Session) : option (Session * Reply) :=
  match u with
  | Callback data => callback_query data from_user now s
  | Text text => text_message float_of text s
  end.

(** The updates of one user, one after the other. *)
Fixpoint run (float_of : string -> option float) (from_user now : Z)
         (updates : list Update) (s : Session) : option Session :=
  match updates with
  | [] => Some s
  | u :: rest =>
      match handle float_of from_user now u s with
      | Some (s', _) => run float_of from_user now rest s'
      | None => None
      end
  end.



(** The data of the buttons of [get_manage_alerts_keyboard] and
    [get_alert_action_keyboard]. *)
Definition manage_button (alert_id : Z) : string :=
  "alert_manage:" ++ PyStr.str alert_id.

Definition delete_button (alert_id : Z) : string :=
  "alert_action:delete:" ++ PyStr.str alert_id.

(** A character that does not occur in a string. *)
Fixpoint without (c : ascii) (s : string) : bool :=
  match s with
  | EmptyString => true
  | String x s' => andb (negb (Ascii.eqb x c)) (without c s')
  end.

(** The free user of the sample with three active alerts, in no
    conversation. *)
Definition sample_session : Session :=
  mkSession (users sample_world) (price_alerts sample_world) cleared.

Definition sample_float_of (text : string) : option float :=
  if String.eqb text "2350.5" then Some 2350.5%float else None.

End AlertFlow.

(** ** The admin's user pages: app/db.py, app/keyboards.py,
    app/handlers/admin.py *)

Module AdminUsers.
Import AlertFlow.

(** A row of table [users], with the columns these handlers read and
    write; [subscription_expiry] in seconds. *)
Record UserRow := mkUserRow {
  id : Z;
  subscription_tier : string;
  subscription_expiry : option Z;
  is_vip : bool;
  credits : Z
}.

(** [USERS_PER_PAGE] *)
Definition USERS_PER_PAGE : Z := 5.

(** [DB.get_all_users]; [ordered] is the table in the order of the query
    ([join_date] descending). SQLite reads a negative OFFSET as 0. *)
Definition get_all_users (page per_page : Z) (ordered : list UserRow)
  : list UserRow * Z :=
  let offset := ((page - 1) * per_page)%Z in
  (firstn (Z.to_nat per_page) (skipn (Z.to_nat offset) ordered),
   Z.of_nat (List.length ordered)).

(** A button: what it is for, and its callback data. *)
Inductive Label := ViewUser | Previous | Next | Back | Action.

Definition Button : Type := Label * string.
Definition Keyboard := list (list Button).

Definition page_data (page : Z) : string := "users:page:" ++ PyStr.str page.
Definition view_data (user_id : Z) : string := "user:view:" ++ PyStr.str user_id.

(** [paginated_users_keyboard] *)
Definition paginated_users_keyboard (users : list UserRow)
           (total page per_page : Z) : Keyboard :=
  let buttons := map (fun user => [(ViewUser, view_data (id user))]) users in
  let total_pages := ((total + per_page - 1) / per_page)%Z in
  let nav_buttons :=
    (if (1 <? page)%Z then [(Previous, page_data (page - 1))] else [])
    ++ (if (page <? total_pages)%Z then [(Next, page_data (page + 1))] else []) in
  buttons
  ++ (match nav_buttons with [] => [] | _ => [nav_buttons] end)
  ++ [[(Back, "admin:main")]].

Inductive Screen :=
| NoUsersFound
| UsersPage (page total_pages : Z) (keyboard : Keyboard).

(** [parts[-1]] of a split, which is never empty. *)
Definition last_part (data : string) : string :=
  last (PyStr.split ":"%char data) EmptyString.

(** [admin_browse_users_handler]; [None] when [int] raises. *)
Definition admin_browse_users_handler (data : string) (ordered : list UserRow)
  : option Screen :=
  match py_int (last_part data) with
  | None => None
  | Some page =>
      let '(users, total) := get_all_users page USERS_PER_PAGE ordered in
      match users with
      | [] => Some NoUsersFound
      | _ =>
          let total_pages := ((total + 5 - 1) / 5)%Z in
          Some (UsersPage page total_pages
                          (paginated_users_keyboard users total page 5))
      end
  end.

(** The users a screen lists, as the data of their buttons, and the data
    of its Next button. *)
Definition data_of (l : Label) (k : Keyboard) : list string :=
  map snd (filter (fun b => match fst b, l with
                            | ViewUser, ViewUser | Previous, Previous
                            | Next, Next | Back, Back | Action, Action => true
                            | _, _ => false
                            end) (List.concat k)).

(** The admin opens the first page and presses Next as long as it is
    offered, at most [presses] times: the users each screen lists. *)
Fixpoint browse (presses : nat) (data : string) (ordered : list UserRow)
  : list (list string) :=
  match admin_browse_users_handler data ordered with
  | Some (UsersPage _ _ keyboard) =>
      data_of ViewUser keyboard
      :: match presses, data_of Next keyboard with
         | S n, next :: _ => browse n next ordered
         | _, _ => []
         end
  | _ => []
  end.

(** *** Managing one user *)

(** [DB.update_user_tier] at time [now] *)
Definition update_user_tier (user_id : Z) (tier : string) (now : Z)
           (table : list UserRow) : list UserRow :=
  let expiry := if orb (String.eqb tier "standard") (String.eqb tier "pro")
                then Some (now + 30 * 86400)%Z else None in
  map (fun u => if Z.eqb (id u) user_id
                then mkUserRow (id u) tier expiry (is_vip u) (credits u)
                else u) table.

(** [DB.change_credits] *)
Definition change_credits (user_id amount : Z) (table : list UserRow)
  : list UserRow :=
  map (fun u => if Z.eqb (id u) user_id
                then mkUserRow (id u) (subscription_tier u)
                               (subscription_expiry u) (is_vip u)
                               (credits u + amount)
                else u) table.

(** [DB.set_vip_status] *)
Definition set_vip_status (user_id : Z) (status : bool) (table : list UserRow)
  : list UserRow :=
  map (fun u => if Z.eqb (id u) user_id
                then mkUserRow (id u) (subscription_tier u)
                               (subscription_expiry u) status (credits u)
                else u) table.

(** [DB.get_user] *)
Definition get_user (user_id : Z) (table : list UserRow) : option UserRow :=
  find (fun u => Z.eqb (id u) user_id) table.

(** [user_management_keyboard] *)
Definition user_management_keyboard (user : UserRow) : Keyboard :=
  [ [(Action, ("user:set_tier:standard:" ++ PyStr.str (id user))%string)];
    [(Action, ("user:set_tier:pro:" ++ PyStr.str (id user))%string)];
    [(Action, ("user:set_tier:free:" ++ PyStr.str (id user))%string)];
    [(Action, ("user:add_credits:10:" ++ PyStr.str (id user))%string)];
    [(Action, ("user:toggle_vip:" ++ PyStr.str (id user))%string)];
    [(Back, "users:page:1")] ].

(** [manage_user_actions_handler] at time [now]: the table it leaves, or
    [None] when an exception escapes (a part is missing, [int] raises, the
    user row is missing where it is read). The handler before it in the
    router takes the data that start with [user:view:]. *)
Definition manage_user_actions_handler (data : string) (now : Z)
           (table : list UserRow) : option (list UserRow) :=
  if String.prefix "user:view:" data then None
  else
    let parts := PyStr.split ":"%char data in
    match nth_error parts 1, py_int (last parts EmptyString) with
    | Some action, Some user_id =>
        let changed :=
          if String.eqb action "set_tier" then
            match nth_error parts 2 with
            | Some tier => Some (update_user_tier user_id tier now table)
            | None => None
            end
          else if String.eqb action "add_credits" then
            match nth_error parts 2 with
            | Some text =>
                match py_int text with
                | Some amount => Some (change_credits user_id amount table)
                | None => None
                end
            | None => None
            end
          else if String.eqb action "toggle_vip" then
            match get_user user_id table with
            | Some user =>
                Some (set_vip_status user_id (negb (is_vip user)) table)
            | None => None
            end
          else Some table in
        match changed with
        | Some table' =>
            match get_user user_id table' with
            | Some _ => Some table'
            | None => None
            end
        | None => None
        end
    | _, _ => None
    end.

Definition unique_user_ids (table : list UserRow) : Prop :=
  NoDup (map id table).

Definition sample_users : list UserRow :=
  map (fun n => mkUserRow (Z.of_nat n) "free" None false 10) (List.seq 1 12).

End AdminUsers.

(** ** The calendar message of the menu handler: app/handlers/user.py *)

Module CalendarMessage.
Import Calendar.

(** [current_day_str]: empty before the first event. *)
Inductive DayStr := NoDay | Today | Tomorrow.

Definition DayStr_eqb (a b : DayStr) : bool :=
  match a, b with
  | NoDay, NoDay | Today, Today | Tomorrow, Tomorrow => true
  | _, _ => false
  end.

Section Texts.

(** The characters of a Python string, whatever they are: [len] counts
    them. The three f-strings of the handler are given as functions: the
    heading, the line that opens a day and the lines of one event. *)
Variable Char : Type.
Variable heading : list Char.
Variable day_header : DayStr -> Date -> list Char.
Variable event_text : Event -> list Char.

(** The first half of the loop body: the day line, when the day changes. *)
Definition open_day (today : Date) (event : Event)
           (message_text : list Char) (current_day_str : DayStr)
  : list Char * DayStr :=
  let event_day := date (datetime_obj event) in
  let day_str := if Date_eqb event_day today then Today else Tomorrow in
  if negb (DayStr_eqb day_str current_day_str)
  then (message_text ++ day_header day_str event_day, day_str)
  else (message_text, current_day_str).

(** The body of [for event in events] in [myfxbook_calendar_menu_handler]:
    the messages answered so far, [message_text] and [current_day_str]. *)
Definition handler_step (today : Date)
           (acc : list (list Char) * list Char * DayStr) (event : Event)
  : list (list Char) * list Char * DayStr :=
  let '(answered, message_text, current_day_str) := acc in
  let '(message_text, current_day_str) :=
    open_day today event message_text current_day_str in
  let text := event_text event in
  if (4096 <? List.length message_text + List.length text)%nat
  then (answered ++ [message_text], [] ++ text, current_day_str)
  else (answered, message_text ++ text, current_day_str).

(** [myfxbook_calendar_menu_handler], from the scraped events on: the
    texts it sends with [message.answer], in order. Without events it edits
    its loading message and answers nothing. *)
Definition myfxbook_calendar_menu_handler (events : list Event) (today : Date)
  : list (list Char) :=
  match events with
  | [] => []
  | _ =>
      let '(answered, message_text, _) :=
        fold_left (handler_step today) events ([], heading, NoDay) in
      answered ++ match message_text with
                  | [] => []
                  | _ => [message_text]
                  end
  end.

(** The same loop without the cut at 4096 characters, which is the loop of
    [send_daily_economic_calendar_job]. *)
Definition message_step (today : Date) (acc : list Char * DayStr)
           (event : Event) : list Char * DayStr :=
  let '(message_text, current_day_str) := acc in
  let '(message_text, current_day_str) :=
    open_day today event message_text current_day_str in
  (message_text ++ event_text event, current_day_str).

Definition whole_message (events : list Event) (today : Date) : list Char :=
  fst (fold_left (message_step today) events (heading, NoDay)).

End Texts.

(** A text Telegram is asked to send: not empty, and over the limit of 4096
    characters by [H] at most. *)
Definition fits {Char : Type} (H : nat) (m : list Char) : Prop :=
  0 < List.length m <= 4096 + H.

(** Sample texts, one character per unit of length. *)
Definition sample_heading : list nat := [0].
Definition sample_day_header (d : DayStr) (_ : Date) : list nat :=
  match d with Today => [1; 1] | _ => [2; 2] end.
Definition sample_event_text (_ : Event) : list nat := [3; 3; 3].

Definition sample_events : list Event :=
  [ mkEvent (mkDateTime (mkDate 2025 1 4) 9 0) "USD" "Payrolls" "High" "" "" "";
    mkEvent (mkDateTime (mkDate 2025 1 5) 14 30) "USD" "CPI" "High" "" "" "" ].

End CalendarMessage.

(** ** Credits and plans in the analysis handlers: app/handlers/user.py *)

Module AnalysisCredits.
Import AdminUsers.

Inductive Answer :=
| SubscriptionExpired
| OutOfCredits
| ChooseAsset
| SubscribersOnly
| AskSymbol
| NoCreditsLeft
| Analyzing (asset : string).

(** [DB.get_or_update_user] for a user without a row: the row is created
    with the defaults of the columns. *)
Definition new_user (user_id : Z) : UserRow :=
  mkUserRow user_id "free" None false 10.

Definition is_free (user : UserRow) : bool :=
  String.eqb (subscription_tier user) "free".

Definition is_subscriber (user : UserRow) : bool :=
  orb (String.eqb (subscription_tier user) "standard")
      (String.eqb (subscription_tier user) "pro").

(** [menu_analyze_handler] at time [now] *)
Definition menu_analyze_handler (from_user now : Z) (table : list UserRow)
  : list UserRow * Answer :=
  let '(user, table) :=
    match get_user from_user table with
    | Some user => (user, table)
    | None => (new_user from_user, table ++ [new_user from_user])
    end in
  if andb (is_subscriber user)
          (match subscription_expiry user with
           | Some expiry => (expiry <? now)%Z
           | None => false
           end)
  then (update_user_tier (id user) "free" now table, SubscriptionExpired)
  else if andb (is_free user) (credits user <=? 0)%Z
       then (table, OutOfCredits)
       else (table, ChooseAsset).

(** [analyze_callback_handler]: the table it leaves and its answer; [None]
    when an exception escapes (no row for the user, no second part). *)
Definition analyze_callback_handler (data : string) (from_user : Z)
           (table : list UserRow) : option (list UserRow * Answer) :=
  match get_user from_user table, nth_error (PyStr.split ":"%char data) 1 with
  | Some user, Some action =>
      if String.eqb action "other" then
        if andb (is_free user) (negb (is_vip user))
        then Some (table, SubscribersOnly)
        else Some (table, AskSymbol)
      else
        if andb (is_free user) (negb (is_vip user)) then
          if (credits user <=? 0)%Z then Some (table, NoCreditsLeft)
          else Some (change_credits (id user) (-1) table, Analyzing action)
        else Some (table, Analyzing action)
  | _, _ => None
  end.

(** No user owes credits. *)
Definition no_debt (table : list UserRow) : Prop :=
  forall user, In user table -> (0 <= credits user)%Z.

(** The assets on the buttons of [get_analysis_keyboard]; the data of a
    button is [analyze:] followed by the asset. *)
Definition analysis_keyboard_assets : list string :=
  ["XAUUSD"; "EURUSD"; "US100"; "US30"; "BTCUSD"; "GBPUSD"].

Definition expired_pro : UserRow := mkUserRow 21 "pro" (Some 100%Z) false 0.
Definition last_credit : UserRow := mkUserRow 22 "free" None false 1.
Definition sample_accounts : list UserRow := [expired_pro; last_credit].

End AnalysisCredits.

(** ** How the page writes a date *)

Module CalendarWriting.
Import Calendar.

Definition month_names : list string :=
  ["Jan"; "Feb"; "Mar"; "Apr"; "May"; "Jun";
   "Jul"; "Aug"; "Sep"; "Oct"; "Nov"; "Dec"].

Definition month_name (mo : Z) : string :=
  nth (Z.to_nat (mo - 1)) month_names EmptyString.

(** "Jan 5" *)
Definition date_text (mo d : Z) : string := month_name mo ++ " " ++ PyStr.str d.

(** "Jan 5, 2:30PM" and "Jan 5, 14:30": the date, a comma, the clock. *)
Definition date_str (mo d : Z) (clock : string) : string :=
  date_text mo d ++ ", " ++ clock.

(** The first way a pattern matches, which is the one [re.match] takes. *)
Definition first_match {A} (p : Pattern A) (s : string) : option (A * string) :=
  hd_error (p s).

Fixpoint no_comma (s : string) : bool :=
  match s with
  | EmptyString => true
  | String c s' => andb (negb (Ascii.eqb c ","%char)) (no_comma s')
  end.

(** A part of a date string: it holds no comma, [strip] leaves it as it is
    (also behind the space that follows the comma) and it is not empty. *)
Definition plain_part (s : string) : bool :=
  andb (no_comma s)
       (andb (String.eqb (PyStr.strip s) s)
             (andb (String.eqb (PyStr.strip (" " ++ s)) s)
                   (negb (String.eqb s EmptyString)))).

(** A year of four digits is read back by [%Y], and no white space opens
    its writing. *)
Definition year_reads_back (y : Z) : bool :=
  andb (match directive_Y (PyStr.str y) with
        | [(v, EmptyString)] => Z.eqb v y
        | _ => false
        end)
       (match after_spaces (PyStr.str y) with
        | [rest] => String.eqb rest (PyStr.str y)
        | _ => false
        end).

End CalendarWriting.

(** * Properties *)
(* ====================================================================== *)

(** ** Comparison of binary64 numbers *)

Section FloatOrder.

Lemma SFcompare_Eq_sym (f1 f2 : SpecFloat.spec_float) :
  SpecFloat.SFcompare f1 f2 = Some Eq -> SpecFloat.SFcompare f2 f1 = Some Eq.
Proof.
  destruct f1 as [s1| s1| |s1 m1 e1], f2 as [s2| s2| |s2 m2 e2]; simpl;
    try destruct s1; try destruct s2; try congruence.
  - destruct (Z.compare e1 e2) eqn:He; try discriminate.
    apply Z.compare_eq in He. subst e2. rewrite Z.compare_refl.
    fold (Pos.compare m1 m2). fold (Pos.compare m2 m1).
    destruct (Pos.compare m1 m2) eqn:Hm; try discriminate.
    apply Pos.compare_eq in Hm. subst m2. now rewrite Pos.compare_refl.
  - destruct (Z.compare e1 e2) eqn:He; try discriminate.
    apply Z.compare_eq in He. subst e2. rewrite Z.compare_refl.
    fold (Pos.compare m1 m2). fold (Pos.compare m2 m1).
    destruct (Pos.compare m1 m2) eqn:Hm; try discriminate.
    apply Pos.compare_eq in Hm. subst m2. now rewrite Pos.compare_refl.
Qed.

(** [x == y] gives both [x <= y] and [y <= x]; a NaN equals nothing. *)
Lemma float_eqb_leb (x y : float) :
  PrimFloat.eqb x y = true ->
  PrimFloat.leb x y = true /\ PrimFloat.leb y x = true.
Proof.
  rewrite eqb_spec, !leb_spec. unfold SpecFloat.SFeqb, SpecFloat.SFleb.
  destruct (SpecFloat.SFcompare (Prim2SF x) (Prim2SF y)) as [[]|] eqn:E;
    try discriminate.
  intros _. now rewrite (SFcompare_Eq_sym _ _ E).
Qed.

End FloatOrder.

(** ** Dictionaries *)

Section DictFacts.
Context {V : Type}.
Implicit Types (d : PyDict.t V) (k : string) (v : V).

Lemma dict_set_fresh k v d :
  ~ In k (PyDict.keys d) -> PyDict.set k v d = d ++ [(k, v)].
Proof.
  induction d as [|[k' v'] d IH]; simpl; intros Hk; [reflexivity|].
  destruct (String.eqb_spec k k') as [->|Hne].
  - exfalso. apply Hk. now left.
  - f_equal. apply IH. intros Hin. apply Hk. now right.
Qed.

(** Inserting pairs with pairwise distinct fresh keys appends them. *)
Lemma dict_fold_set_nodup (l : list (string * V)) d :
  NoDup (map fst l) ->
  (forall k, In k (map fst l) -> ~ In k (PyDict.keys d)) ->
  fold_left (fun d kv => PyDict.set (fst kv) (snd kv) d) l d = d ++ l.
Proof.
  revert d. induction l as [|[k v] l IH]; simpl; intros d Hnd Hfresh.
  - now rewrite app_nil_r.
  - inversion Hnd as [|? ? Hk Hnd']; subst.
    rewrite dict_set_fresh by (apply Hfresh; now left).
    rewrite IH; [now rewrite <- app_assoc| assumption |].
    intros k' Hk' Hin. unfold PyDict.keys in Hin.
    rewrite map_app in Hin. apply in_app_or in Hin. destruct Hin as [Hin|Hin].
    + apply (Hfresh k'); [now right | exact Hin].
    + simpl in Hin. destruct Hin as [<-|[]]. contradiction.
Qed.

Lemma dict_of_pairs_nodup (l : list (string * V)) :
  NoDup (map fst l) -> PyDict.of_pairs l = l.
Proof.
  intros Hnd. unfold PyDict.of_pairs.
  rewrite dict_fold_set_nodup; auto.
Qed.

Lemma dict_get_In k v d : PyDict.get k d = Some v -> In (k, v) d.
Proof.
  induction d as [|[k' v'] d IH]; simpl; [discriminate|].
  destruct (String.eqb_spec k k') as [->|Hne].
  - intros [= ->]. now left.
  - intros H. right. now apply IH.
Qed.

Lemma dict_get_None k d : ~ In k (PyDict.keys d) -> PyDict.get k d = None.
Proof.
  induction d as [|[k' v'] d IH]; simpl; [reflexivity|].
  intros Hk. destruct (String.eqb_spec k k') as [->|Hne].
  - exfalso. apply Hk. now left.
  - apply IH. intros Hin. apply Hk. now right.
Qed.

End DictFacts.

(** ** The price table of a tick *)

Section PriceTable.
Import Alerts.
Variable feed : PriceFeed.

Local Abbreviation quote := (Alerts.quote feed).
Local Abbreviation quoted := (Alerts.quoted feed).

Lemma combine_map_self {A B} (g : A -> B) (l : list A) :
  combine l (map g l) = map (fun a => (a, g a)) l.
Proof. induction l; simpl; congruence. Qed.

Lemma quoted_keys (assets : list string) :
  map fst (flat_map quoted assets)
  = filter (fun s => match quote s with Some _ => true | None => false end) assets.
Proof.
  induction assets as [|s l IH]; simpl; [reflexivity|].
  rewrite map_app, IH. unfold quoted. now destruct (quote s).
Qed.

Lemma get_distinct_alert_assets_NoDup (db : Table) :
  NoDup (get_distinct_alert_assets db).
Proof. apply NoDup_nodup. Qed.

Lemma get_distinct_alert_assets_In (db : Table) (sym : string) :
  In sym (get_distinct_alert_assets db)
  <-> exists a, In a db /\ is_active a = true /\ asset a = sym.
Proof.
  unfold get_distinct_alert_assets. rewrite nodup_In, in_map_iff. split.
  - intros (a & Ha & Hin). apply filter_In in Hin. exists a. tauto.
  - intros (a & Hin & Hact & Ha). exists a. split; [assumption|].
    apply filter_In. tauto.
Qed.

(** With pairwise distinct symbols both dictionaries of the job keep the
    order of [active_assets], so [zip] pairs every symbol with its own
    result. *)
Lemma asset_prices_quoted (assets : list string) :
  NoDup assets -> asset_prices feed assets = flat_map quoted assets.
Proof.
  intros Hnd. unfold asset_prices, price_tasks. cbv zeta.
  rewrite (dict_of_pairs_nodup (map _ assets))
    by (rewrite map_map; simpl; now rewrite map_id).
  unfold PyDict.values. rewrite map_map. simpl.
  rewrite combine_map_self, flat_map_concat_map, map_map.
  rewrite <- flat_map_concat_map.
  rewrite dict_of_pairs_nodup.
  - reflexivity.
  - change (NoDup (map fst (flat_map quoted assets))).
    rewrite quoted_keys. now apply NoDup_filter.
Qed.

Lemma get_quoted (assets : list string) (sym : string) :
  PyDict.get sym (flat_map quoted assets)
  = if in_dec string_dec sym assets then quote sym else None.
Proof.
  induction assets as [|s l IH]; simpl; [reflexivity|].
  unfold quoted at 1. destruct (string_dec s sym) as [->|Hne].
  - destruct (quote sym) eqn:Hq; simpl.
    + now rewrite String.eqb_refl.
    + rewrite IH. destruct (in_dec string_dec sym l); congruence.
  - assert (Hneq : String.eqb sym s = false)
      by (apply String.eqb_neq; congruence).
    destruct (quote s); simpl; rewrite ?Hneq, IH;
      destruct (in_dec string_dec sym l); reflexivity.
Qed.

(** A symbol has a price in [asset_prices] exactly when it is one of the
    symbols asked for and its own fetch returned a float; no other fetch
    matters. *)
Lemma asset_prices_get (assets : list string) (sym : string) :
  NoDup assets ->
  PyDict.get sym (asset_prices feed assets)
  = if in_dec string_dec sym assets then quote sym else None.
Proof. intros Hnd. rewrite asset_prices_quoted by assumption. apply get_quoted. Qed.

End PriceTable.

(** ** One sweep over the active alerts *)

Section Sweep.
Import Alerts.
Variables (bot : Bot) (prices : PyDict.t float).

Lemma sweep_step_outcome (acc : list Z * list Attempt) (a : PriceAlert) :
  sweep_step bot prices acc a
  = (fst acc ++ map attempt_id (filter queued (outcome bot prices a)),
     snd acc ++ outcome bot prices a).
Proof.
  unfold sweep_step, outcome. destruct acc as [ids calls]; simpl.
  destruct (PyDict.get (asset a) prices) as [p|]; simpl;
    [|now rewrite !app_nil_r].
  destruct (triggered a p); simpl; [|now rewrite !app_nil_r].
  unfold queued; simpl.
  destruct (bot (user_id a) (message_text a p)); simpl;
    [|now rewrite app_nil_r].
  destruct (is_one_time a); simpl; [reflexivity | now rewrite app_nil_r].
Qed.

Lemma sweep_fold (alerts : Table) (acc : list Z * list Attempt) :
  fold_left (sweep_step bot prices) alerts acc
  = (fst acc ++ map attempt_id (filter queued (flat_map (outcome bot prices) alerts)),
     snd acc ++ flat_map (outcome bot prices) alerts).
Proof.
  revert acc. induction alerts as [|a l IH]; intros acc; simpl.
  - rewrite !app_nil_r. now destruct acc.
  - rewrite IH, sweep_step_outcome; simpl.
    now rewrite filter_app, map_app, <- !app_assoc.
Qed.

(** The sweep makes, in order, one send per alert that has a price and meets
    its threshold, and queues the one-time alerts among those delivered. *)
Lemma sweep_outcomes (alerts : Table) :
  sweep bot prices alerts
  = (map attempt_id (filter queued (flat_map (outcome bot prices) alerts)),
     flat_map (outcome bot prices) alerts).
Proof. unfold sweep. now rewrite sweep_fold. Qed.

Lemma outcome_In (a : PriceAlert) (t : Attempt) :
  In t (outcome bot prices a) <->
  exists p, PyDict.get (asset a) prices = Some p /\ triggered a p = true
            /\ t = mkAttempt a p (bot (user_id a) (message_text a p)).
Proof.
  unfold outcome. split.
  - destruct (PyDict.get (asset a) prices) as [p|]; [|intros []].
    destruct (triggered a p) eqn:Ht; [|intros []].
    intros [<-|[]]. now exists p.
  - intros (p & -> & -> & ->). now left.
Qed.

End Sweep.

Section Tick.
Import Alerts.
Variables (feed : PriceFeed) (bot : Bot) (now : Z).

Lemma deactivate_batch_nil (db : Table) : deactivate_batch [] now db = db.
Proof. unfold deactivate_batch. simpl. apply map_id. Qed.

Lemma outcome_no_prices (alerts : Table) :
  flat_map (outcome bot []) alerts = [].
Proof. induction alerts; simpl; auto. Qed.

(** The job in one equation: the early returns are the cases where the sweep
    would have made no send. *)
Lemma check_price_alerts_job_sweep (db : Table) :
  let prices := asset_prices feed (get_distinct_alert_assets db) in
  let calls := flat_map (outcome bot prices) (get_all_active_price_alerts db) in
  let batch := map attempt_id (filter queued calls) in
  check_price_alerts_job feed bot now db
  = mkTick (deactivate_batch batch now db) calls batch.
Proof.
  intros prices calls batch. unfold check_price_alerts_job.
  destruct (get_distinct_alert_assets db) as [|s l] eqn:Hassets.
  - assert (Hnone : get_all_active_price_alerts db = []).
    { unfold get_all_active_price_alerts.
      destruct (filter is_active db) as [|a l'] eqn:Hf; [reflexivity|].
      assert (Hin : In (asset a) (get_distinct_alert_assets db)).
      { unfold get_distinct_alert_assets. rewrite Hf. apply nodup_In. now left. }
      rewrite Hassets in Hin. destruct Hin. }
    subst batch calls. rewrite Hnone. simpl. now rewrite deactivate_batch_nil.
  - fold prices. destruct prices as [|kv d] eqn:Hprices.
    + subst batch calls. rewrite outcome_no_prices. simpl.
      now rewrite deactivate_batch_nil.
    + rewrite sweep_outcomes. fold calls. fold batch.
      destruct batch; [now rewrite deactivate_batch_nil | reflexivity].
Qed.

End Tick.

(** ** Rows and their ids *)

Section Rows.
Import Alerts.

Lemma id_in_In (ids : list Z) (a : PriceAlert) :
  id_in ids a = true <-> In (id a) ids.
Proof.
  unfold id_in. rewrite existsb_exists. split.
  - intros (j & Hj & He). apply Z.eqb_eq in He. now subst.
  - intros H. exists (id a). split; [assumption | apply Z.eqb_refl].
Qed.

Lemma unique_ids_inj (db : Table) (a b : PriceAlert) :
  unique_ids db -> In a db -> In b db -> id a = id b -> a = b.
Proof.
  unfold unique_ids. induction db as [|c db IH]; simpl; [intros _ []|].
  intros Hnd Ha Hb Hid. inversion Hnd as [|? ? Hc Hnd']; subst.
  destruct Ha as [->|Ha], Hb as [->|Hb]; auto.
  - exfalso. apply Hc. rewrite Hid. now apply in_map.
  - exfalso. apply Hc. rewrite <- Hid. now apply in_map.
Qed.

Lemma row_Some (db : Table) (i : Z) (a : PriceAlert) :
  row i db = Some a -> In a db /\ id a = i.
Proof.
  unfold row. intros H. apply find_some in H. now rewrite Z.eqb_eq in H.
Qed.

Lemma row_unique (db : Table) (a : PriceAlert) :
  unique_ids db -> In a db -> row (id a) db = Some a.
Proof.
  intros Hu Ha. unfold row.
  destruct (find (fun b => Z.eqb (id b) (id a)) db) as [b|] eqn:Hf.
  - apply find_some in Hf. destruct Hf as [Hb He]. apply Z.eqb_eq in He.
    f_equal. now apply (unique_ids_inj db).
  - exfalso. apply (find_none _ _ Hf) in Ha. now rewrite Z.eqb_refl in Ha.
Qed.

(** An update that keeps every id moves no row. *)
Lemma row_map (f : PriceAlert -> PriceAlert) (db : Table) (i : Z) :
  (forall a, id (f a) = id a) ->
  row i (map f db) = option_map f (row i db).
Proof.
  intros Hf. unfold row. induction db as [|a db IH]; simpl; [reflexivity|].
  rewrite Hf. destruct (Z.eqb (id a) i); [reflexivity | exact IH].
Qed.

Lemma unique_ids_map (f : PriceAlert -> PriceAlert) (db : Table) :
  (forall a, id (f a) = id a) -> unique_ids db -> unique_ids (map f db).
Proof.
  intros Hf. unfold unique_ids. rewrite map_map.
  now rewrite (map_ext _ id Hf).
Qed.

Lemma unique_ids_filter (f : PriceAlert -> bool) (db : Table) :
  unique_ids db -> unique_ids (filter f db).
Proof.
  unfold unique_ids. induction db as [|a db IH]; simpl; [auto|].
  intros Hnd. inversion Hnd as [|? ? Ha Hnd']; subst.
  destruct (f a); simpl; auto. constructor; auto.
  intros Hin. apply Ha. apply in_map_iff in Hin.
  destruct Hin as (b & Hb & Hin). apply filter_In in Hin.
  rewrite <- Hb. apply in_map. tauto.
Qed.

Lemma next_id_above (db : Table) (a : PriceAlert) :
  In a db -> (id a < next_id db)%Z.
Proof.
  unfold next_id. induction db as [|b db IH]; simpl; [intros []|].
  intros [->|Ha]; [lia|]. specialize (IH Ha). lia.
Qed.

Lemma row_deactivate_batch (ids : list Z) (now : Z) (db : Table) (i : Z) :
  row i (deactivate_batch ids now db)
  = option_map (fun a => if id_in ids a then set_inactive now a else a) (row i db).
Proof.
  unfold deactivate_batch. apply row_map.
  intros a. now destruct (id_in ids a).
Qed.

End Rows.

(** ** What a tick sends and what it writes *)

Section TickFacts.
Import Alerts.
Variables (feed : PriceFeed) (bot : Bot) (now : Z).

Local Abbreviation job := (check_price_alerts_job feed bot now).
Local Abbreviation prices_of db := (asset_prices feed (get_distinct_alert_assets db)).

Lemma triggered_iff (a : PriceAlert) (p : float) :
  triggered a p = true <->
  (alert_type a = ABOVE /\ PrimFloat.leb (target_price a) p = true)
  \/ (alert_type a = BELOW /\ PrimFloat.leb p (target_price a) = true).
Proof.
  unfold triggered. rewrite orb_true_iff, !andb_true_iff.
  destruct (alert_type a); simpl; intuition congruence.
Qed.

(** An active alert's symbol is among those fetched, so its entry in
    [asset_prices] is the result of its own fetch. *)
Lemma active_alert_price (db : Table) (a : PriceAlert) :
  In a db -> is_active a = true ->
  PyDict.get (asset a) (prices_of db) = quote feed (asset a).
Proof.
  intros Ha Hact.
  rewrite asset_prices_get by apply get_distinct_alert_assets_NoDup.
  destruct (in_dec string_dec (asset a) (get_distinct_alert_assets db)) as [|Hn];
    [reflexivity|].
  exfalso. apply Hn. apply get_distinct_alert_assets_In. now exists a.
Qed.

Lemma tick_calls_In (db : Table) (t : Attempt) :
  In t (tick_calls (job db)) <->
  exists a p, In a db /\ is_active a = true
              /\ quote feed (asset a) = Some p /\ triggered a p = true
              /\ t = mkAttempt a p (bot (user_id a) (message_text a p)).
Proof.
  rewrite check_price_alerts_job_sweep. simpl. rewrite in_flat_map. split.
  - intros (a & Hin & Ht). apply filter_In in Hin. destruct Hin as [Ha Hact].
    apply outcome_In in Ht. destruct Ht as (p & Hp & Htr & ->).
    rewrite active_alert_price in Hp by assumption. now exists a, p.
  - intros (a & p & Ha & Hact & Hp & Htr & ->). exists a. split.
    + apply filter_In. now split.
    + apply outcome_In. exists p. rewrite active_alert_price by assumption.
      now repeat split.
Qed.

Lemma tick_batch_In (db : Table) (i : Z) :
  In i (tick_batch (job db)) <->
  exists t, In t (tick_calls (job db)) /\ queued t = true /\ attempt_id t = i.
Proof.
  rewrite check_price_alerts_job_sweep. simpl. rewrite in_map_iff. split.
  - intros (t & Hi & Hin). apply filter_In in Hin. exists t. tauto.
  - intros (t & Hin & Hq & Hi). exists t. split; [assumption|].
    apply filter_In. now split.
Qed.

(** The only write of a tick is the batched deactivation made after the
    sweep. *)
Lemma tick_db_batch (db : Table) :
  tick_db (job db) = deactivate_batch (tick_batch (job db)) now db.
Proof. now rewrite check_price_alerts_job_sweep. Qed.

Lemma unique_ids_tick (db : Table) : unique_ids db -> unique_ids (tick_db (job db)).
Proof.
  intros Hu. rewrite tick_db_batch. unfold deactivate_batch.
  apply unique_ids_map; [|assumption].
  intros a. now destruct (id_in _ a).
Qed.

(** Every send of a tick is for a different alert. *)
Lemma tick_calls_once (db : Table) :
  unique_ids db -> NoDup (map attempt_id (tick_calls (job db))).
Proof.
  intros Hu. rewrite check_price_alerts_job_sweep. simpl.
  set (prices := prices_of db).
  assert (Hsub : forall l : Table,
             map attempt_id (flat_map (outcome bot prices) l)
             = map id (filter (fun a => match outcome bot prices a with
                                        | [] => false | _ => true end) l)).
  { induction l as [|a l IH]; simpl; [reflexivity|].
    rewrite map_app, IH. unfold outcome at 1 3.
    destruct (PyDict.get (asset a) prices) as [p|]; [|reflexivity].
    destruct (triggered a p); reflexivity. }
  rewrite Hsub. unfold get_all_active_price_alerts.
  apply unique_ids_filter. now apply unique_ids_filter.
Qed.

End TickFacts.

(** ** The evaluator's claims *)

Section EvaluatorClaims.
Import Alerts.

(** C1. In [check_price_alerts_job], an active alert whose symbol has a
    fetched price [p] this tick triggers (a notification send is made for it)
    if and only if it is an ABOVE alert and [p >= target_price], or a BELOW
    alert and [p <= target_price]; both comparisons are inclusive, so a price
    equal to the target triggers in either direction. *)
Theorem C1_trigger_iff_threshold_inclusive
        (feed : PriceFeed) (bot : Bot) (now : Z) (db : Table)
        (a : PriceAlert) (p : float) :
  In a (get_all_active_price_alerts db) ->
  PyDict.get (asset a) (asset_prices feed (get_distinct_alert_assets db)) = Some p ->
  let tick := check_price_alerts_job feed bot now db in
  ((exists delivered, In (mkAttempt a p delivered) (tick_calls tick))
   <-> (alert_type a = ABOVE /\ PrimFloat.leb (target_price a) p = true)
       \/ (alert_type a = BELOW /\ PrimFloat.leb p (target_price a) = true))
  /\ (PrimFloat.eqb p (target_price a) = true ->
      exists delivered, In (mkAttempt a p delivered) (tick_calls tick)).
Proof.
  intros Hin Hp tick. apply filter_In in Hin. destruct Hin as [Ha Hact].
  rewrite active_alert_price in Hp by assumption.
  assert (Hiff : (exists delivered, In (mkAttempt a p delivered) (tick_calls tick))
                 <-> triggered a p = true).
  { subst tick. split.
    - intros (d & Hd). apply tick_calls_In in Hd.
      destruct Hd as (a' & p' & _ & _ & _ & Htr & Heq).
      injection Heq as <- <- _. exact Htr.
    - intros Htr. exists (bot (user_id a) (message_text a p)).
      apply tick_calls_In. now exists a, p. }
  split.
  - rewrite Hiff. apply triggered_iff.
  - intros Heq. apply Hiff, triggered_iff.
    apply float_eqb_leb in Heq. destruct Heq as [Hle Hge].
    destruct (alert_type a); [left | right]; auto.
Qed.

(** The scenario of the specification: target 2300.00, ABOVE, price 2300.00. *)
Lemma C1_trigger_iff_threshold_inclusive_witness :
  exists delivered,
    In (mkAttempt AlertSamples.gold_alert 2300%float delivered)
       (tick_calls (check_price_alerts_job AlertSamples.sample_feed
                      AlertSamples.bot_ok 60 AlertSamples.sample_db)).
Proof.
  apply (C1_trigger_iff_threshold_inclusive
           AlertSamples.sample_feed AlertSamples.bot_ok 60
           AlertSamples.sample_db AlertSamples.gold_alert 2300%float).
  - simpl. left. reflexivity.
  - vm_compute. reflexivity.
  - vm_compute. reflexivity.
Defined.

End EvaluatorClaims.

Section EvaluatorIsolation.
Import Alerts.

(** An alert for which the tick makes no send, or an undelivered one, is
    not in the batch, and its row is left as it was. *)
Lemma tick_leaves_unqueued_row
      (feed : PriceFeed) (bot : Bot) (now : Z) (db : Table) (a : PriceAlert) :
  unique_ids db -> In a db ->
  (forall t, In t (tick_calls (check_price_alerts_job feed bot now db)) ->
             att_alert t = a -> queued t = false) ->
  ~ In (id a) (tick_batch (check_price_alerts_job feed bot now db))
  /\ row (id a) (tick_db (check_price_alerts_job feed bot now db)) = Some a.
Proof.
  intros Hu Ha Hnq.
  assert (Hout : ~ In (id a) (tick_batch (check_price_alerts_job feed bot now db))).
  { intros Hin. apply tick_batch_In in Hin. destruct Hin as (t & Ht & Hq & Hid).
    assert (Heq : att_alert t = a).
    { apply (unique_ids_inj db); auto.
      apply tick_calls_In in Ht. destruct Ht as (b & q & Hb & _ & _ & _ & ->).
      exact Hb. }
    rewrite (Hnq t Ht Heq) in Hq. discriminate. }
  split; [exact Hout|].
  rewrite tick_db_batch, row_deactivate_batch, row_unique by assumption. simpl.
  destruct (id_in _ a) eqn:Hid; [|reflexivity].
  apply id_in_In in Hid. contradiction.
Qed.

(** C6. In every tick a failed price fetch for one symbol does not affect the
    price obtained for any other symbol; every alert whose symbol has no
    fetched price is skipped for the tick (no send, row left active and
    unmodified); and every alert whose symbol has a price is evaluated: a send
    is made for it exactly when its threshold is met. *)
Theorem C6_price_fetch_failure_skips_only_its_alerts
        (feed : PriceFeed) (bot : Bot) (now : Z) (db : Table) :
  unique_ids db ->
  let assets := get_distinct_alert_assets db in
  let tick := check_price_alerts_job feed bot now db in
  (forall sym, In sym assets ->
     PyDict.get sym (asset_prices feed assets)
     = fetch_current_price (feed (PyStr.upper sym)))
  /\ (forall a, In a (get_all_active_price_alerts db) ->
        PyDict.get (asset a) (asset_prices feed assets) = None ->
        (forall t, In t (tick_calls tick) -> att_alert t <> a)
        /\ row (id a) (tick_db tick) = Some a /\ is_active a = true)
  /\ (forall a p, In a (get_all_active_price_alerts db) ->
        PyDict.get (asset a) (asset_prices feed assets) = Some p ->
        (triggered a p = true
         <-> In (mkAttempt a p (bot (user_id a) (message_text a p)))
                (tick_calls tick))).
Proof.
  intros Hu assets tick. split; [|split].
  - intros sym Hsym. subst assets.
    rewrite asset_prices_get by apply get_distinct_alert_assets_NoDup.
    now destruct (in_dec string_dec sym (get_distinct_alert_assets db)).
  - intros a Hin Hnone. apply filter_In in Hin. destruct Hin as [Ha Hact].
    subst assets. rewrite active_alert_price in Hnone by assumption.
    assert (Hno : forall t, In t (tick_calls tick) -> att_alert t <> a).
    { intros t Ht Heq. apply tick_calls_In in Ht.
      destruct Ht as (b & q & _ & _ & Hq & _ & ->). simpl in Heq. subst b.
      congruence. }
    split; [exact Hno|]. split; [|exact Hact].
    apply (tick_leaves_unqueued_row feed bot now db a); auto.
    intros t Ht Heq. exfalso. exact (Hno t Ht Heq).
  - intros a p Hin Hp. apply filter_In in Hin. destruct Hin as [Ha Hact].
    subst assets. rewrite active_alert_price in Hp by assumption. split.
    + intros Htr. apply tick_calls_In. now exists a, p.
    + intros Ht. apply tick_calls_In in Ht.
      destruct Ht as (b & q & _ & _ & _ & Htr & Heq).
      injection Heq as <- <- _. exact Htr.
Qed.

(** In the sample tick the request for oil fails: gold and euro are still
    priced, the oil alert is skipped and stays as it was. *)
Lemma C6_price_fetch_failure_skips_only_its_alerts_witness :
  PyDict.get "XAUUSD" (asset_prices AlertSamples.sample_feed
                         (get_distinct_alert_assets AlertSamples.sample_db))
  = Some 2300%float
  /\ row 3 (tick_db (check_price_alerts_job AlertSamples.sample_feed
                       AlertSamples.bot_ok 60 AlertSamples.sample_db))
     = Some AlertSamples.oil_alert.
Proof.
  assert (Hu : unique_ids AlertSamples.sample_db).
  { unfold unique_ids. simpl.
    repeat constructor; simpl; intuition discriminate. }
  pose proof (C6_price_fetch_failure_skips_only_its_alerts
                AlertSamples.sample_feed AlertSamples.bot_ok 60
                AlertSamples.sample_db Hu) as (Hprice & Hskip & _).
  split.
  - rewrite Hprice; [vm_compute; reflexivity | simpl; auto].
  - apply (Hskip AlertSamples.oil_alert).
    + simpl. auto.
    + vm_compute. reflexivity.
Defined.

End EvaluatorIsolation.

Section EvaluatorDelivery.
Import Alerts.

(** Which alerts a tick fires, and at which prices, does not depend on how
    the sends turn out. *)
Lemma tick_calls_independent_of_bot
      (feed : PriceFeed) (bot bot' : Bot) (now : Z) (db : Table) :
  map (fun t => (att_alert t, att_price t))
      (tick_calls (check_price_alerts_job feed bot' now db))
  = map (fun t => (att_alert t, att_price t))
        (tick_calls (check_price_alerts_job feed bot now db)).
Proof.
  rewrite !check_price_alerts_job_sweep. simpl.
  induction (get_all_active_price_alerts db) as [|a l IH]; simpl; [reflexivity|].
  rewrite !map_app, IH. f_equal. unfold outcome.
  destruct (PyDict.get (asset a) _) as [p|]; [|reflexivity].
  destruct (triggered a p); reflexivity.
Qed.

(** A delivered one-time alert is in the batch and is inactive after the
    tick. *)
Lemma tick_deactivates_delivered_one_time
      (feed : PriceFeed) (bot : Bot) (now : Z) (db : Table)
      (b : PriceAlert) (q : float) :
  unique_ids db ->
  In (mkAttempt b q true) (tick_calls (check_price_alerts_job feed bot now db)) ->
  is_one_time b = true ->
  In (id b) (tick_batch (check_price_alerts_job feed bot now db))
  /\ row (id b) (tick_db (check_price_alerts_job feed bot now db))
     = Some (set_inactive now b).
Proof.
  intros Hu Hin Hone.
  assert (Hb : In (id b) (tick_batch (check_price_alerts_job feed bot now db))).
  { apply tick_batch_In. exists (mkAttempt b q true).
    split; [assumption|]. unfold queued, attempt_id; simpl.
    now rewrite Hone. }
  split; [exact Hb|].
  assert (Hdb : In b db).
  { apply tick_calls_In in Hin.
    destruct Hin as (b' & q' & Hb' & _ & _ & _ & Heq).
    injection Heq as <- _ _. exact Hb'. }
  rewrite tick_db_batch, row_deactivate_batch, row_unique by assumption. simpl.
  apply id_in_In in Hb. now rewrite Hb.
Qed.

(** C2 (as the code has it). A notification send that raises for a triggered
    alert does not change which other alerts the tick evaluates and fires;
    the send is recorded as failed and the alert's row is left untouched: it
    is not queued in [triggered_one_time_ids] and stays active. Only the
    one-time alerts whose notification was delivered are queued and
    deactivated by the end-of-tick batch. *)
Theorem C2_send_failure_keeps_sweep_and_leaves_alert_active
        (feed : PriceFeed) (bot : Bot) (now : Z) (db : Table)
        (a : PriceAlert) (p : float) :
  unique_ids db ->
  In a (get_all_active_price_alerts db) ->
  PyDict.get (asset a) (asset_prices feed (get_distinct_alert_assets db)) = Some p ->
  triggered a p = true ->
  bot (user_id a) (message_text a p) = false ->
  let tick := check_price_alerts_job feed bot now db in
  (forall bot',
      map (fun t => (att_alert t, att_price t))
          (tick_calls (check_price_alerts_job feed bot' now db))
      = map (fun t => (att_alert t, att_price t)) (tick_calls tick))
  /\ In (mkAttempt a p false) (tick_calls tick)
  /\ ~ In (id a) (tick_batch tick)
  /\ row (id a) (tick_db tick) = Some a
  /\ (forall b q, In (mkAttempt b q true) (tick_calls tick) ->
                  is_one_time b = true ->
                  In (id b) (tick_batch tick)
                  /\ row (id b) (tick_db tick) = Some (set_inactive now b)).
Proof.
  intros Hu Hin Hp Htr Hfail tick.
  apply filter_In in Hin. destruct Hin as [Ha Hact].
  rewrite active_alert_price in Hp by assumption.
  split; [intros bot'; apply tick_calls_independent_of_bot|].
  split.
  { apply tick_calls_In. exists a, p. now rewrite Hfail. }
  assert (Hnq : forall t, In t (tick_calls tick) -> att_alert t = a ->
                          queued t = false).
  { intros t Ht Heq. apply tick_calls_In in Ht.
    destruct Ht as (b & q & _ & _ & Hq & _ & ->). simpl in Heq. subst b.
    assert (q = p) by congruence. subst q.
    unfold queued; simpl. now rewrite Hfail. }
  destruct (tick_leaves_unqueued_row feed bot now db a Hu Ha Hnq) as [H1 H2].
  split; [exact H1|]. split; [exact H2|].
  intros b q Hb Hone. now apply tick_deactivates_delivered_one_time with (q := q).
Qed.

Lemma sample_db_unique_ids : unique_ids AlertSamples.sample_db.
Proof.
  unfold unique_ids. simpl. repeat constructor; simpl; intuition discriminate.
Qed.

Lemma C2_send_failure_keeps_sweep_and_leaves_alert_active_witness :
  In (mkAttempt AlertSamples.gold_alert 2300%float false)
     (tick_calls AlertSamples.failed_send_tick)
  /\ row 1 (tick_db AlertSamples.failed_send_tick) = Some AlertSamples.gold_alert.
Proof.
  pose proof (C2_send_failure_keeps_sweep_and_leaves_alert_active
                AlertSamples.sample_feed AlertSamples.bot_down_for_7 60
                AlertSamples.sample_db AlertSamples.gold_alert 2300%float
                sample_db_unique_ids) as H.
  destruct H as (_ & Hcall & _ & Hrow & _).
  - simpl. auto.
  - vm_compute. reflexivity.
  - vm_compute. reflexivity.
  - vm_compute. reflexivity.
  - split; [exact Hcall | exact Hrow].
Defined.

(** The claim as the specification states it fails: the gold alert is
    one-time and is triggered by the price 2300.00, its send raises, and it is
    neither queued for deactivation nor deactivated. *)
Lemma C2_counterexample_failed_send_not_deactivated :
  triggered AlertSamples.gold_alert 2300%float = true
  /\ is_one_time AlertSamples.gold_alert = true
  /\ In (mkAttempt AlertSamples.gold_alert 2300%float false)
        (tick_calls AlertSamples.failed_send_tick)
  /\ tick_batch AlertSamples.failed_send_tick = []
  /\ (exists a, row 1 (tick_db AlertSamples.failed_send_tick) = Some a
                /\ is_active a = true).
Proof.
  split; [vm_compute; reflexivity|]. split; [reflexivity|].
  split; [vm_compute; left; reflexivity|]. split; [vm_compute; reflexivity|].
  exists AlertSamples.gold_alert. split; vm_compute; reflexivity.
Qed.

End EvaluatorDelivery.

(** ** The life of an alert across operations *)

Section AlertLife.
Import Alerts.

Lemma row_app_found (db l : Table) (i : Z) (a : PriceAlert) :
  row i db = Some a -> row i (db ++ l) = Some a.
Proof.
  unfold row. induction db as [|b db IH]; simpl; [discriminate|].
  destruct (Z.eqb (id b) i); auto.
Qed.

Lemma row_delete_other (db : Table) (i j : Z) :
  i <> j -> row i (delete_price_alert j db) = row i db.
Proof.
  intros Hij. unfold row, delete_price_alert.
  induction db as [|b db IH]; simpl; [reflexivity|].
  destruct (Z.eqb_spec (id b) j) as [Hj|Hj]; simpl.
  - destruct (Z.eqb_spec (id b) i); [congruence | exact IH].
  - destruct (Z.eqb (id b) i); [reflexivity | exact IH].
Qed.

Lemma unique_ids_add uid sym target ty one_time now (db : Table) :
  unique_ids db -> unique_ids (add_price_alert uid sym target ty one_time now db).
Proof.
  unfold unique_ids, add_price_alert. intros Hu. rewrite map_app. simpl.
  apply NoDup_app; [assumption | repeat constructor; intros [] |].
  intros i Hi [<-|[]]. apply in_map_iff in Hi. destruct Hi as (a & Hid & Ha).
  apply next_id_above in Ha. lia.
Qed.

Lemma set_inactive_id (now : Z) (a : PriceAlert) : id (set_inactive now a) = id a.
Proof. reflexivity. Qed.

(** No operation other than deleting the row makes an inactive row active,
    and a tick sends nothing for it. *)
Lemma step_keeps_inactive (op : Op) (db : Table) (i : Z) :
  unique_ids db -> inactive_row i db -> deletes i op = false ->
  unique_ids (fst (step op db))
  /\ inactive_row i (fst (step op db))
  /\ (forall t, In t (snd (step op db)) -> attempt_id t <> i).
Proof.
  intros Hu (a & Hrow & Hina) Hdel.
  destruct op as [uid sym target ty one_time now | j now | j | feed bot now]; simpl.
  - split; [now apply unique_ids_add|]. split; [|intros t []].
    exists a. split; [|assumption]. now apply row_app_found.
  - split; [|split; [|intros t []]].
    + apply unique_ids_map; [|assumption].
      intros b. now destruct (Z.eqb (id b) j).
    + unfold inactive_row, deactivate_price_alert. rewrite row_map, Hrow; simpl.
      * destruct (Z.eqb (id a) j); eexists; split; eauto.
      * intros b. now destruct (Z.eqb (id b) j).
  - simpl in Hdel. apply Z.eqb_neq in Hdel.
    split; [now apply unique_ids_filter|]. split; [|intros t []].
    exists a. split; [|assumption].
    rewrite row_delete_other by congruence. exact Hrow.
  - split; [now apply unique_ids_tick|]. split.
    + unfold inactive_row.
      rewrite tick_db_batch, row_deactivate_batch, Hrow. simpl.
      destruct (id_in _ a); eexists; split; eauto.
    + intros t Ht Hid. apply tick_calls_In in Ht.
      destruct Ht as (b & q & Hb & Hact & _ & _ & ->).
      unfold attempt_id in Hid; simpl in Hid.
      apply row_Some in Hrow. destruct Hrow as [Ha Hia].
      assert (b = a) by (apply (unique_ids_inj db); auto; congruence).
      subst b. congruence.
Qed.

Lemma run_keeps_inactive (ops : list Op) (db : Table) (i : Z) :
  unique_ids db -> inactive_row i db ->
  forallb (fun op => negb (deletes i op)) ops = true ->
  inactive_row i (fst (run ops db))
  /\ (forall t, In t (snd (run ops db)) -> attempt_id t <> i).
Proof.
  revert db. induction ops as [|op ops IH]; simpl; intros db Hu Hrow Hops.
  - split; [assumption | intros t []].
  - apply andb_true_iff in Hops. destruct Hops as [Hop Hops].
    apply negb_true_iff in Hop.
    destruct (step_keeps_inactive op db i Hu Hrow Hop) as (Hu1 & Hrow1 & Hc1).
    destruct (step op db) as [db1 calls1]. simpl in *.
    destruct (IH db1 Hu1 Hrow1 Hops) as [Hrow2 Hc2].
    destruct (run ops db1) as [db2 calls2]. simpl in *.
    split; [assumption|].
    intros t Ht. apply in_app_or in Ht. destruct Ht; auto.
Qed.

End AlertLife.

Section OneTimeAlerts.
Import Alerts.

(** C3 (as the code has it). A one-time alert that has triggered and whose
    notification was delivered is set inactive by the single batched update
    the tick makes after its sweep; a tick sends at most one notification per
    alert; and afterwards, as long as the row is not deleted, no operation of
    the system (adding an alert, deactivating, deleting another alert, a
    tick) makes it active again or sends a trigger notification for it. *)
Theorem C3_delivered_one_time_alert_fires_once_then_stays_inactive
        (feed : PriceFeed) (bot : Bot) (now : Z) (db : Table)
        (a : PriceAlert) (p : float) :
  unique_ids db ->
  In a (get_all_active_price_alerts db) ->
  is_one_time a = true ->
  PyDict.get (asset a) (asset_prices feed (get_distinct_alert_assets db)) = Some p ->
  triggered a p = true ->
  bot (user_id a) (message_text a p) = true ->
  let tick := check_price_alerts_job feed bot now db in
  tick_db tick = deactivate_batch (tick_batch tick) now db
  /\ In (id a) (tick_batch tick)
  /\ row (id a) (tick_db tick) = Some (set_inactive now a)
  /\ NoDup (map attempt_id (tick_calls tick))
  /\ (forall ops,
        forallb (fun op => negb (deletes (id a) op)) ops = true ->
        inactive_row (id a) (fst (run ops (tick_db tick)))
        /\ (forall t, In t (snd (run ops (tick_db tick))) ->
                      attempt_id t <> id a)).
Proof.
  intros Hu Hin Hone Hp Htr Hok tick.
  apply filter_In in Hin. destruct Hin as [Ha Hact].
  rewrite active_alert_price in Hp by assumption.
  assert (Hcall : In (mkAttempt a p true) (tick_calls tick)).
  { apply tick_calls_In. exists a, p. now rewrite Hok. }
  destruct (tick_deactivates_delivered_one_time feed bot now db a p Hu Hcall Hone)
    as [Hbatch Hrow].
  split; [apply tick_db_batch|]. split; [exact Hbatch|]. split; [exact Hrow|].
  split; [now apply tick_calls_once|].
  intros ops Hops. apply run_keeps_inactive; auto.
  - now apply unique_ids_tick.
  - exists (set_inactive now a). now split.
Qed.

Lemma C3_delivered_one_time_alert_fires_once_then_stays_inactive_witness :
  row 1 (tick_db AlertSamples.delivered_tick)
  = Some (set_inactive 60 AlertSamples.gold_alert)
  /\ inactive_row 1 (fst (run AlertSamples.later_ops
                              (tick_db AlertSamples.delivered_tick))).
Proof.
  pose proof (C3_delivered_one_time_alert_fires_once_then_stays_inactive
                AlertSamples.sample_feed AlertSamples.bot_ok 60
                AlertSamples.sample_db AlertSamples.gold_alert 2300%float
                sample_db_unique_ids) as H.
  destruct H as (_ & _ & Hrow & _ & Hlater).
  - simpl. auto.
  - reflexivity.
  - vm_compute. reflexivity.
  - vm_compute. reflexivity.
  - reflexivity.
  - split; [exact Hrow|].
    apply (Hlater AlertSamples.later_ops). reflexivity.
Defined.

(** The claim as the specification states it fails: the one-time gold alert
    triggers in a tick whose send raises, stays active, and the next tick
    triggers it again and sends the notification. *)
Lemma C3_counterexample_one_time_alert_triggers_in_two_ticks :
  is_one_time AlertSamples.gold_alert = true
  /\ In (mkAttempt AlertSamples.gold_alert 2300%float false)
        (tick_calls AlertSamples.failed_send_tick)
  /\ row 1 (tick_db AlertSamples.failed_send_tick) = Some AlertSamples.gold_alert
  /\ is_active AlertSamples.gold_alert = true
  /\ In (mkAttempt AlertSamples.gold_alert 2300%float true)
        (tick_calls AlertSamples.retry_tick).
Proof.
  split; [reflexivity|]. split; [vm_compute; left; reflexivity|].
  split; [vm_compute; reflexivity|]. split; [reflexivity|].
  vm_compute. left. reflexivity.
Qed.

End OneTimeAlerts.

(** ** The scheduler's claims *)

Section JobStore.
Import Scheduler.

Lemma lookup_job_Some (jid : string) (store : list Job) (j : Job) :
  lookup_job jid store = Some j -> In j store /\ id j = jid.
Proof.
  unfold lookup_job. intros H. apply find_some in H.
  now rewrite String.eqb_eq in H.
Qed.

Lemma lookup_job_None (jid : string) (store : list Job) :
  lookup_job jid store = None -> ~ In jid (map id store).
Proof.
  unfold lookup_job. intros H Hin. apply in_map_iff in Hin.
  destruct Hin as (j & Hid & Hj). apply (find_none _ _ H) in Hj.
  rewrite <- Hid, String.eqb_refl in Hj. discriminate.
Qed.

Lemma update_job_ids (job : Job) (store : list Job) :
  map id (update_job job store) = map id store.
Proof.
  unfold update_job. rewrite map_map. apply map_ext_in.
  intros j _. destruct (String.eqb_spec (id j) (id job)); congruence.
Qed.

Lemma lookup_update_job (job : Job) (store : list Job) (j0 : Job) :
  lookup_job (id job) store = Some j0 ->
  lookup_job (id job) (update_job job store) = Some job.
Proof.
  unfold lookup_job, update_job.
  induction store as [|j store IH]; simpl; [discriminate|].
  destruct (String.eqb (id j) (id job)) eqn:E; simpl.
  - now rewrite String.eqb_refl.
  - rewrite E. exact IH.
Qed.

Lemma lookup_job_app_fresh (job : Job) (store : list Job) :
  lookup_job (id job) store = None ->
  lookup_job (id job) (store ++ [job]) = Some job.
Proof.
  unfold lookup_job. induction store as [|j store IH]; simpl.
  - now rewrite String.eqb_refl.
  - destruct (String.eqb (id j) (id job)); [discriminate | exact IH].
Qed.

(** Adding with [replace_existing=True] never fails, keeps the ids of the
    store pairwise distinct and leaves the new job under its id. *)
Lemma real_add_job_replace (job : Job) (store : list Job) :
  unique_job_ids store ->
  exists store',
    real_add_job job true store = Some store'
    /\ unique_job_ids store'
    /\ lookup_job (id job) store' = Some job.
Proof.
  intros Hu. unfold real_add_job.
  destruct (lookup_job (id job) store) as [j0|] eqn:Hl.
  - exists (update_job job store). split; [reflexivity|]. split.
    + unfold unique_job_ids. now rewrite update_job_ids.
    + now apply lookup_update_job with (j0 := j0).
  - exists (store ++ [job]). split; [reflexivity|]. split.
    + unfold unique_job_ids. rewrite map_app. simpl.
      apply NoDup_app; [assumption | repeat constructor; intros [] |].
      intros k Hk [<-|[]]. now apply lookup_job_None in Hl.
    + now apply lookup_job_app_fresh.
Qed.

Lemma add_pending_replace (pending : list (Job * bool)) (store : list Job) :
  forallb snd pending = true -> unique_job_ids store ->
  exists store', add_pending pending store = Some store' /\ unique_job_ids store'.
Proof.
  revert store. induction pending as [|[job r] rest IH]; simpl; intros store Hr Hu.
  - now exists store.
  - apply andb_true_iff in Hr. destruct Hr as [-> Hr].
    destruct (real_add_job_replace job store Hu) as (store1 & -> & Hu1 & _).
    now apply IH.
Qed.

Lemma add_pending_app (p1 p2 : list (Job * bool)) (store : list Job) :
  add_pending (p1 ++ p2) store
  = match add_pending p1 store with
    | Some store' => add_pending p2 store'
    | None => None
    end.
Proof.
  revert store. induction p1 as [|[job r] p1 IH]; simpl; intros store; [reflexivity|].
  destruct (real_add_job job r store); [apply IH | reflexivity].
Qed.

(** Pairwise distinct ids: a stored id occurs once. *)
Lemma unique_job_ids_count (store : list Job) (j : Job) :
  unique_job_ids store -> lookup_job (id j) store = Some j ->
  count_occ string_dec (map id store) (id j) = 1.
Proof.
  intros Hu Hl. apply lookup_job_Some in Hl. destruct Hl as [Hin _].
  assert (Hle := proj1 (NoDup_count_occ string_dec (map id store)) Hu (id j)).
  assert (Hpos : count_occ string_dec (map id store) (id j) > 0)
    by (apply count_occ_In; now apply in_map).
  lia.
Qed.

End JobStore.

Section Scheduling.
Import Scheduler.

Lemma create_trigger_timezone (s s' : AsyncIOScheduler) (args : TriggerArgs) :
  scheduler_timezone s' = scheduler_timezone s ->
  create_trigger s' args = create_trigger s args.
Proof. intros H. destruct args as [h m [tz|] | n [tz|]]; simpl; congruence. Qed.

(** Two [add_job] calls with one id and [replace_existing=True], on a
    running scheduler or before [start]: once the scheduler runs, the store
    holds the id once, with the job of the second call. *)
Lemma add_job_twice (s : AsyncIOScheduler)
      (f1 f2 : JobFunc) (args1 args2 : TriggerArgs) (jid : string) :
  unique_job_ids (jobstore s) ->
  forallb snd (pending_jobs s) = true ->
  exists s1 s2 live,
    add_job f1 args1 jid true s = Some s1
    /\ add_job f2 args2 jid true s1 = Some s2
    /\ (if running s then Some s2 else start s2) = Some live
    /\ running live = true
    /\ count_occ string_dec (map id (jobstore live)) jid = 1
    /\ get_job jid live = Some (mkJob jid f2 (create_trigger s args2)).
Proof.
  intros Hu Hp. unfold add_job. destruct (running s) eqn:Hrun.
  - destruct (real_add_job_replace (mkJob jid f1 (create_trigger s args1))
                                   (jobstore s) Hu) as (st1 & -> & Hu1 & _).
    exists (mkScheduler true (scheduler_timezone s) (pending_jobs s) st1).
    simpl.
    rewrite (create_trigger_timezone s
               (mkScheduler true (scheduler_timezone s) (pending_jobs s) st1)
               args2 eq_refl).
    destruct (real_add_job_replace (mkJob jid f2 (create_trigger s args2))
                                   st1 Hu1) as (st2 & -> & Hu2 & Hl2).
    do 2 eexists. repeat (split; [reflexivity|]). simpl. split.
    + now apply (unique_job_ids_count st2 (mkJob jid f2 (create_trigger s args2))).
    + exact Hl2.
  - exists (mkScheduler false (scheduler_timezone s)
              (pending_jobs s ++ [(mkJob jid f1 (create_trigger s args1), true)])
              (jobstore s)).
    simpl.
    rewrite (create_trigger_timezone s
               (mkScheduler false (scheduler_timezone s)
                  (pending_jobs s ++ [(mkJob jid f1 (create_trigger s args1), true)])
                  (jobstore s))
               args2 eq_refl).
    exists (mkScheduler false (scheduler_timezone s)
              ((pending_jobs s ++ [(mkJob jid f1 (create_trigger s args1), true)])
                 ++ [(mkJob jid f2 (create_trigger s args2), true)])
              (jobstore s)).
    unfold start; simpl. rewrite <- app_assoc, add_pending_app.
    destruct (add_pending_replace _ _ Hp Hu) as (st0 & -> & Hu0).
    simpl.
    destruct (real_add_job_replace (mkJob jid f1 (create_trigger s args1))
                                   st0 Hu0) as (st1 & -> & Hu1 & _).
    destruct (real_add_job_replace (mkJob jid f2 (create_trigger s args2))
                                   st1 Hu1) as (st2 & -> & Hu2 & Hl2).
    eexists. repeat (split; [reflexivity|]). simpl. split.
    + now apply (unique_job_ids_count st2 (mkJob jid f2 (create_trigger s args2))).
    + exact Hl2.
Qed.

Lemma find_app_fresh {A} (f : A -> bool) (l : list A) (x : A) :
  find f l = None -> f x = true -> find f (l ++ [x]) = Some x.
Proof.
  induction l as [|y l IH]; simpl; intros Hn Hx; [now rewrite Hx|].
  destruct (f y); [discriminate | now apply IH].
Qed.

(** After [add_job] under an id that [get_job] did not know, [get_job]
    answers with the new job. *)
Lemma get_job_add_job_fresh (s s' : AsyncIOScheduler)
      (f : JobFunc) (args : TriggerArgs) (jid : string) :
  get_job jid s = None ->
  add_job f args jid true s = Some s' ->
  get_job jid s' = Some (mkJob jid f (create_trigger s args)).
Proof.
  unfold get_job, add_job. destruct (running s) eqn:Hrun.
  - intros Hnone. unfold real_add_job. simpl. rewrite Hnone.
    intros [= <-]. simpl.
    now apply (lookup_job_app_fresh (mkJob jid f (create_trigger s args))).
  - intros Hnone [= <-]. simpl.
    destruct (find _ (pending_jobs s)) eqn:Hf; [discriminate|].
    rewrite find_app_fresh with (x := (mkJob jid f (create_trigger s args), true));
      auto.
    simpl. apply String.eqb_refl.
Qed.

End Scheduling.

Section JobIds.
Import Scheduler.

Lemma str_inj (a b : Z) : PyStr.str a = PyStr.str b -> a = b.
Proof.
  unfold PyStr.str. intros H.
  assert (Hint : Some (Z.to_int a) = Some (Z.to_int b))
    by (rewrite <- !NilEmpty.isi; now rewrite H).
  injection Hint as Hint.
  rewrite <- (DecimalZ.of_to a), <- (DecimalZ.of_to b). now rewrite Hint.
Qed.

Lemma string_of_uint_no_underscore (d : Decimal.uint) :
  no_underscore (NilEmpty.string_of_uint d) = true.
Proof. induction d; simpl; auto. Qed.

Lemma str_no_underscore (n : Z) : no_underscore (PyStr.str n) = true.
Proof.
  unfold PyStr.str. destruct (Z.to_int n); simpl;
    apply string_of_uint_no_underscore.
Qed.

Lemma no_underscore_sep (x y : string) :
  no_underscore (x ++ String "_"%char y)%string = false.
Proof.
  induction x as [|c x IH]; simpl; [reflexivity|].
  rewrite IH. apply andb_false_r.
Qed.

(** The last separator of a string splits it in one way only. *)
Lemma last_separator_inj (a1 a2 t1 t2 : string) :
  no_underscore t1 = true -> no_underscore t2 = true ->
  (a1 ++ String "_"%char t1 = a2 ++ String "_"%char t2)%string ->
  a1 = a2 /\ t1 = t2.
Proof.
  revert a2. induction a1 as [|c a1 IH]; intros [|c2 a2] H1 H2; simpl.
  - intros [= ->]. now split.
  - intros [= _ ->]. now rewrite no_underscore_sep in H1.
  - intros [= _ <-]. now rewrite no_underscore_sep in H2.
  - intros [= -> Heq]. destruct (IH a2 H1 H2 Heq) as [-> ->]. now split.
Qed.

Lemma append_assoc (x y z : string) : ((x ++ y) ++ z = x ++ (y ++ z))%string.
Proof. induction x as [|c x IH]; simpl; congruence. Qed.

(** The job id determines the asset, the hour and the minute: two requests
    of the handler share an id only when they share all three. *)
Lemma task_job_id_inj (a1 a2 : string) (h1 h2 m1 m2 : Z) :
  task_job_id a1 h1 m1 = task_job_id a2 h2 m2 ->
  a1 = a2 /\ h1 = h2 /\ m1 = m2.
Proof.
  unfold task_job_id. simpl. intros [= Heq].
  change ((a1 ++ String "_"%char (PyStr.str h1 ++ String "_"%char (PyStr.str m1))
           = a2 ++ String "_"%char (PyStr.str h2 ++ String "_"%char (PyStr.str m2)))%string)
    in Heq.
  assert (Hre : forall a h m,
             (a ++ String "_"%char (PyStr.str h ++ String "_"%char (PyStr.str m))
              = (a ++ String "_"%char (PyStr.str h)) ++ String "_"%char (PyStr.str m))%string).
  { intros a h m. rewrite append_assoc. reflexivity. }
  rewrite !Hre in Heq.
  apply last_separator_inj in Heq; try apply str_no_underscore.
  destruct Heq as [Heq Hm].
  apply last_separator_inj in Heq; try apply str_no_underscore.
  destruct Heq as [Ha Hh].
  repeat split; auto using str_inj.
Qed.

End JobIds.

Section SchedulingClaims.
Import Scheduler.

(** C5. Scheduling twice under one job id with different parameters (both
    call sites pass [replace_existing=True]) leaves, once the scheduler runs,
    exactly one job under that id, and it is the job of the latest call; the
    admin handler derives the id from (asset, hour, minute) alone, registers
    the job under it with these parameters, and refuses a second request for
    the same triple, leaving the state as it was; only that triple gives that
    id. *)
Theorem C5_same_job_id_gives_one_job_with_latest_parameters
        (s : AsyncIOScheduler) (f1 f2 : JobFunc) (args1 args2 : TriggerArgs)
        (jid text asset : string) (hour : Z) (tasks : list ScheduledTask) :
  unique_job_ids (jobstore s) ->
  forallb snd (pending_jobs s) = true ->
  (exists s1 s2 live,
      add_job f1 args1 jid true s = Some s1
      /\ add_job f2 args2 jid true s1 = Some s2
      /\ (if running s then Some s2 else start s2) = Some live
      /\ running live = true
      /\ count_occ string_dec (map id (jobstore live)) jid = 1
      /\ get_job jid live = Some (mkJob jid f2 (create_trigger s args2)))
  /\ (forall st1 a h m,
        add_task_minute_handler text asset hour (mkAdminState s tasks)
        = Some (st1, TaskScheduled a h m) ->
        (a, h, m) = (asset, hour, PyStr.int text)
        /\ get_job (task_job_id asset hour m) (scheduler st1)
           = Some (mkJob (task_job_id asset hour m)
                         (scheduled_analysis_job asset)
                         (CronTrigger hour m (scheduler_timezone s)))
        /\ add_task_minute_handler text asset hour st1
           = Some (st1, TaskAlreadyExists))
  /\ (forall asset' hour' minute',
        task_job_id asset' hour' minute'
        = task_job_id asset hour (PyStr.int text) ->
        (asset', hour', minute') = (asset, hour, PyStr.int text)).
Proof.
  intros Hu Hp. split; [now apply add_job_twice|]. split.
  2:{ intros a' h' m' Hid. apply task_job_id_inj in Hid.
      destruct Hid as (-> & -> & ->). reflexivity. }
  intros st1 a h m. unfold add_task_minute_handler. simpl.
  destruct (orb _ _) eqn:Hvalid; [discriminate|].
  destruct (get_job (task_job_id asset hour (PyStr.int text)) s) eqn:Hget;
    [discriminate|].
  destruct (add_task _ asset hour _ tasks) as [tasks'|]; [|discriminate].
  destruct (add_job _ _ _ true s) as [s'|] eqn:Hadd; [|discriminate].
  intros [= <- <- <- <-]. simpl. split; [reflexivity|].
  assert (Hjob := get_job_add_job_fresh _ _ _ _ _ Hget Hadd). simpl in Hjob.
  split; [exact Hjob|]. now rewrite Hjob.
Qed.

(** On a fresh scheduler: XAUUSD is scheduled for 08:30 and then, under the
    same id, EURUSD for 09:45; after [start] one job holds the id, the
    second. *)
Lemma C5_same_job_id_gives_one_job_with_latest_parameters_witness :
  exists s1 s2 live,
    add_job (scheduled_analysis_job "XAUUSD") (cron 8 30 None)
            "task_XAUUSD_8_30" true utc_host = Some s1
    /\ add_job (scheduled_analysis_job "EURUSD") (cron 9 45 None)
               "task_XAUUSD_8_30" true s1 = Some s2
    /\ (if running utc_host then Some s2 else start s2) = Some live
    /\ running live = true
    /\ count_occ string_dec (map id (jobstore live)) "task_XAUUSD_8_30" = 1
    /\ get_job "task_XAUUSD_8_30" live
       = Some (mkJob "task_XAUUSD_8_30" (scheduled_analysis_job "EURUSD")
                     (create_trigger utc_host (cron 9 45 None))).
Proof.
  apply (C5_same_job_id_gives_one_job_with_latest_parameters
           utc_host (scheduled_analysis_job "XAUUSD")
           (scheduled_analysis_job "EURUSD") (cron 8 30 None) (cron 9 45 None)
           "task_XAUUSD_8_30" "30" "XAUUSD" 8 []).
  - constructor.
  - reflexivity.
Defined.

(** The handler on the scenario of the specification: "30" after XAUUSD and
    hour 8 schedules [task_XAUUSD_8_30]; asked again, it refuses. *)
Example add_task_minute_handler_sample :
  let st := mkAdminState (mkScheduler true "UTC" [] []) [] in
  exists st1,
    add_task_minute_handler "30" "XAUUSD" 8 st
    = Some (st1, TaskScheduled "XAUUSD" 8 30)
    /\ map id (jobstore (scheduler st1)) = ["task_XAUUSD_8_30"]
    /\ add_task_minute_handler "30" "XAUUSD" 8 st1 = Some (st1, TaskAlreadyExists).
Proof. eexists. repeat split; vm_compute; reflexivity. Qed.

(** C4 (the code at the reference task). A task stored for 02:00 with zone
    Asia/Baghdad is registered by [setup_scheduler] on a host in UTC with the
    host's zone: its job is not due at 02:00 Baghdad time and is due at 02:00
    UTC, while the calendar job, registered with an explicit zone, is due at
    02:00 Baghdad time. *)
Theorem C4_setup_scheduler_ignores_task_timezone :
  timezone baghdad_task = "Asia/Baghdad"
  /\ exists live job daily,
      on_startup [baghdad_task] utc_host = Some live
      /\ get_job (job_id baghdad_task) live = Some job
      /\ trigger job = CronTrigger 2 0 "UTC"
      /\ cron_fires sample_offsets job baghdad_0200 = false
      /\ cron_fires sample_offsets job utc_0200 = true
      /\ get_job "daily_calendar_sender" live = Some daily
      /\ trigger daily = CronTrigger 2 0 "Asia/Baghdad"
      /\ cron_fires sample_offsets daily baghdad_0200 = true.
Proof.
  split; [reflexivity|]. do 3 eexists.
  repeat split; vm_compute; reflexivity.
Qed.

End SchedulingClaims.

Section SchedulingTimezone.
Import Scheduler.

(** The job a task gets does not depend on the task's [timezone] column:
    [setup_scheduler] never reads it. *)
Lemma add_task_job_ignores_timezone
      (jid a : string) (h m : Z) (tz tz' : string) (s : AsyncIOScheduler) :
  add_task_job (mkScheduledTask jid a h m tz) s
  = add_task_job (mkScheduledTask jid a h m tz') s.
Proof. reflexivity. Qed.

End SchedulingTimezone.

(** ** Fan-out *)

Section FanoutFacts.
Import Fanout.
Variable bot : Bot.

Lemma gather_all (chat_ids : list Z) (text : Text) (log : list (Z * Text)) :
  gather bot chat_ids text log
  = (map (fun c => bot c text) chat_ids,
     log ++ map (fun c => (c, text)) chat_ids).
Proof.
  revert log. induction chat_ids as [|c l IH]; intros log; simpl.
  - now rewrite app_nil_r.
  - rewrite IH. now rewrite <- app_assoc.
Qed.

Lemma count_step_fold (results : list SendResult) (sent failed : nat) :
  fold_left count_step results (sent, failed)
  = (sent + List.length (filter (fun r => negb (is_exception r)) results),
     failed + List.length (filter is_exception results)).
Proof.
  revert sent failed. induction results as [|r l IH]; intros sent failed; simpl.
  - f_equal; lia.
  - destruct r; simpl; rewrite IH; simpl; f_equal; lia.
Qed.

Lemma failed_results (chat_ids : list Z) (text : Text) :
  List.length (filter is_exception (map (fun c => bot c text) chat_ids))
  = failures bot chat_ids text.
Proof.
  unfold failures. induction chat_ids as [|c l IH]; simpl; [reflexivity|].
  destruct (is_exception (bot c text)); simpl; congruence.
Qed.

Lemma results_partition (results : list SendResult) :
  List.length (filter (fun r => negb (is_exception r)) results)
  + List.length (filter is_exception results)
  = List.length results.
Proof.
  induction results as [|r l IH]; simpl; [reflexivity|].
  destruct r; simpl; lia.
Qed.

Lemma delivered_results (chat_ids : list Z) (text : Text) :
  List.length (filter (fun r => negb (is_exception r))
                      (map (fun c => bot c text) chat_ids))
  = List.length chat_ids - failures bot chat_ids text
  /\ failures bot chat_ids text <= List.length chat_ids.
Proof.
  pose proof (results_partition (map (fun c => bot c text) chat_ids)) as H.
  rewrite failed_results, length_map in H. split; lia.
Qed.

Lemma report_to_admins_calls (admin_ids : list Z) (n : nat) (log : list (Z * Text)) :
  exists calls,
    snd (report_to_admins bot admin_ids n log) = log ++ calls
    /\ (fst (report_to_admins bot admin_ids n log) = false ->
        exists a, In a admin_ids /\ bot a (AdminReport n) = Raised).
Proof.
  revert log. induction admin_ids as [|a l IH]; intros log; simpl.
  - exists []. split; [now rewrite app_nil_r | discriminate].
  - destruct (bot a (AdminReport n)) eqn:Hr; simpl.
    + destruct (IH (log ++ [(a, AdminReport n)])) as (calls & Hlog & Hfail).
      exists ((a, AdminReport n) :: calls). split.
      * rewrite Hlog. now rewrite <- app_assoc.
      * intros Hf. destruct (Hfail Hf) as (b & Hb & Hraise). exists b. auto.
    + exists [(a, AdminReport n)]. split; [reflexivity|].
      intros _. exists a. auto.
Qed.

(** The calendar job on a non-empty recipient list. *)
Lemma daily_job_nonempty (user_ids admin_ids : list Z) (body : string)
      (log : list (Z * Text)) :
  user_ids <> [] ->
  send_daily_economic_calendar_job bot user_ids admin_ids body log
  = let n := List.length user_ids - failures bot user_ids (Digest body) in
    let log1 := log ++ map (fun c => (c, Digest body)) user_ids in
    if (0 <? n)%nat then
      let '(ok, log2) := report_to_admins bot admin_ids n log1 in
      ((if ok then Finished n else AdminSendRaised n), log2)
    else (Finished n, log1).
Proof.
  intros Hne. unfold send_daily_economic_calendar_job.
  destruct user_ids as [|c l] eqn:Hids; [congruence|].
  rewrite gather_all.
  destruct (delivered_results (c :: l) (Digest body)) as [-> _].
  reflexivity.
Qed.

End FanoutFacts.

Section FanoutClaims.
Import Fanout.

(** C7. A fan-out of one message to N recipients of which k sends raise
    attempts all N sends, in both dispatch paths; the failures stay results of
    the dispatch and do not leave it as an exception; the broadcast handler
    reports sent = N - k and failed = k, the calendar job counts N - k as
    sent. (The calendar job can still end with an exception, but only from
    its later, unguarded report to an administrator.) *)
Theorem C7_fanout_attempts_all_and_counts
        (bot : Bot) (user_ids admin_ids : list Z) (html body : string)
        (log : list (Z * Text)) :
  let N := List.length user_ids in
  (let k := failures bot user_ids (Broadcast html) in
   send_broadcast_confirm_handler bot user_ids html log
   = ((N - k, k), log ++ map (fun c => (c, Broadcast html)) user_ids))
  /\ (let k := failures bot user_ids (Digest body) in
      k <= N
      /\ exists e admin_calls,
          send_daily_economic_calendar_job bot user_ids admin_ids body log
          = (e, log ++ map (fun c => (c, Digest body)) user_ids ++ admin_calls)
          /\ (user_ids = [] -> e = NoUsers)
          /\ (user_ids <> [] ->
              e = Finished (N - k)
              \/ (e = AdminSendRaised (N - k)
                  /\ exists a, In a admin_ids
                               /\ bot a (AdminReport (N - k)) = Raised))).
Proof.
  cbv zeta. split.
  - unfold send_broadcast_confirm_handler.
    rewrite gather_all, count_step_fold, failed_results.
    destruct (delivered_results bot user_ids (Broadcast html)) as [-> _].
    reflexivity.
  - destruct (delivered_results bot user_ids (Digest body)) as [Hsent Hle].
    split; [exact Hle|].
    destruct (list_eq_dec Z.eq_dec user_ids []) as [->|Hne].
    + exists NoUsers, []. simpl. rewrite app_nil_r.
      split; [reflexivity|]. split; [reflexivity | congruence].
    + rewrite (daily_job_nonempty bot user_ids admin_ids body log Hne).
      cbv zeta.
      set (n := List.length user_ids - failures bot user_ids (Digest body)).
      destruct (0 <? n)%nat.
      * destruct (report_to_admins_calls bot admin_ids n
                    (log ++ map (fun c => (c, Digest body)) user_ids))
          as (calls & Hlog & Hfail).
        destruct (report_to_admins bot admin_ids n _) as [ok log2].
        simpl in Hlog, Hfail. subst log2.
        exists (if ok then Finished n else AdminSendRaised n), calls.
        rewrite <- app_assoc. split; [reflexivity|].
        split; [intros ->; congruence|]. intros _.
        destruct ok; [now left | right; auto].
      * exists (Finished n), []. rewrite !app_nil_r.
        split; [reflexivity|]. split; [intros ->; congruence | now left].
Qed.

(** Four recipients, the sends to 12 and 14 raise: every recipient is tried,
    two are counted as sent and two as failed. *)
Example send_broadcast_sample :
  send_broadcast_confirm_handler
    (fun c _ => if orb (Z.eqb c 12) (Z.eqb c 14) then Raised else Sent)
    [11; 12; 13; 14]%Z "hello" []
  = ((2, 2), [(11, Broadcast "hello"); (12, Broadcast "hello");
              (13, Broadcast "hello"); (14, Broadcast "hello")]%Z).
Proof. reflexivity. Qed.

End FanoutClaims.

(** ** The add-alert entry point *)

Section UserHandlerClaims.
Import UserHandlers.

(** C10. For a user on the free tier who has 3 or more active price alerts
    the add-alert entry point answers with the upgrade prompt and does nothing
    else: the conversation state is not set and the alert table is unchanged.
    For a user on any other tier the conversation is started whatever the
    number of alerts, the table again unchanged. *)
Theorem C10_free_tier_alert_cap
        (w : World) (from_user : Z) (user : User) :
  get_user from_user w = Some user ->
  let active :=
    List.length (Alerts.get_user_price_alerts (id user) true (price_alerts w)) in
  (subscription_tier user = "free" -> 3 <= active ->
   start_add_alert_handler from_user w
   = Some (mkWorld (users w) (price_alerts w) (state w)
                   (outputs w ++ [AnswerAlert upgrade_prompt])))
  /\ (subscription_tier user <> "free" ->
      exists w', start_add_alert_handler from_user w = Some w'
                 /\ state w' = Some set_alert_asset
                 /\ price_alerts w' = price_alerts w).
Proof.
  intros Hu active. unfold start_add_alert_handler. rewrite Hu. split.
  - intros Htier Hcap. rewrite Htier, String.eqb_refl. subst active.
    apply Nat.leb_le in Hcap. now rewrite Hcap.
  - intros Htier. apply String.eqb_neq in Htier. rewrite Htier.
    exists (start_flow w). auto.
Qed.

(** The free user with three active alerts gets the upgrade prompt and
    nothing changes. *)
Lemma C10_free_tier_alert_cap_witness :
  start_add_alert_handler 7 sample_world
  = Some (mkWorld (users sample_world) (price_alerts sample_world)
                  (state sample_world)
                  (outputs sample_world ++ [AnswerAlert upgrade_prompt])).
Proof.
  apply (C10_free_tier_alert_cap sample_world 7 free_user).
  - reflexivity.
  - reflexivity.
  - vm_compute. lia.
Defined.

(** The subscriber with four active alerts enters the conversation. *)
Example start_add_alert_handler_subscriber :
  option_map state (start_add_alert_handler 8 sample_world)
  = Some (Some set_alert_asset).
Proof. reflexivity. Qed.

End UserHandlerClaims.

(** ** The order of calendar events *)

Section EventOrder.
Import Calendar.

Lemma lex_leb_total (a b : list Z) : lex_leb a b = false -> lex_leb b a = true.
Proof.
  revert b. induction a as [|x a IH]; intros [|y b]; simpl; try discriminate;
    auto.
  destruct (Z.ltb_spec x y), (Z.ltb_spec y x); try discriminate; auto; lia.
Qed.

Lemma lex_leb_trans (a b c : list Z) :
  lex_leb a b = true -> lex_leb b c = true -> lex_leb a c = true.
Proof.
  revert b c. induction a as [|x a IH]; intros [|y b] [|z c]; simpl;
    try discriminate; auto.
  destruct (Z.ltb_spec x y), (Z.ltb_spec y x), (Z.ltb_spec y z),
    (Z.ltb_spec z y), (Z.ltb_spec x z), (Z.ltb_spec z x);
    try discriminate; try lia; auto.
  apply IH.
Qed.

Lemma insert_event_perm (e : Event) (l : list Event) :
  Permutation (insert_event e l) (e :: l).
Proof.
  induction l as [|e' l IH]; simpl; [reflexivity|].
  destruct (DateTime_leb _ _); [reflexivity|].
  rewrite IH. apply perm_swap.
Qed.

Lemma sort_events_perm (l : list Event) : Permutation (sort_events l) l.
Proof.
  induction l as [|e l IH]; simpl; [reflexivity|].
  rewrite insert_event_perm. now constructor.
Qed.

Lemma insert_event_sorted (e : Event) (l : list Event) :
  Sorted not_later l -> Sorted not_later (insert_event e l).
Proof.
  induction l as [|e' l IH]; simpl; intros Hs.
  - repeat constructor.
  - destruct (DateTime_leb (datetime_obj e) (datetime_obj e')) eqn:Hle.
    + constructor; [assumption | now constructor].
    + inversion Hs as [|? ? Hs' Hhd]; subst. constructor; [now apply IH|].
      assert (He : not_later e' e) by now apply lex_leb_total.
      destruct l as [|e'' l]; simpl; [now constructor|].
      destruct (DateTime_leb (datetime_obj e) (datetime_obj e''));
        constructor; auto.
      now inversion Hhd.
Qed.

Lemma sort_events_sorted (l : list Event) :
  StronglySorted not_later (sort_events l).
Proof.
  apply Sorted_StronglySorted.
  - intros a b c. unfold not_later, DateTime_leb. apply lex_leb_trans.
  - induction l as [|e l IH]; simpl; [constructor|].
    now apply insert_event_sorted.
Qed.

End EventOrder.

(** ** Rows kept by the scrape *)

Section ScrapeFacts.
Import Calendar.

Lemma filter_flat_map {A B} (f : B -> bool) (g : A -> list B) (l : list A) :
  filter f (flat_map g l) = flat_map (fun x => filter f (g x)) l.
Proof.
  induction l as [|x l IH]; simpl; [reflexivity|].
  now rewrite filter_app, IH.
Qed.

(** The body of the loop appends a row exactly when the row is a parsed row
    and passes the three filters, whatever the order of its checks. *)
Lemma scrape_row_wanted (now : DateTime) (row : Row) :
  appended (scrape_row now row)
  = filter (wanted (date now))
           (match parsed_row (year (date now)) row with
            | Some e => [e]
            | None => []
            end).
Proof.
  unfold scrape_row, parsed_row, wanted.
  destruct (date_div row) as [text|]; [|reflexivity].
  rewrite Nat.ltb_antisym.
  set (cur := PyStr.strip (td_text (nth 3 (tds row) empty_td))).
  set (imp := match td_impact_div (nth 5 (tds row) empty_td) with
              | Some t => PyStr.strip t
              | None => "None"
              end).
  destruct (6 <=? List.length (tds row))%nat;
    [|destruct (previous_td row), (concensus_td row), (actual_td row); reflexivity].
  cbn [negb].
  destruct (_parse_event_datetime (year (date now)) (PyStr.strip text)) as [dt|];
    destruct (previous_td row), (concensus_td row), (actual_td row);
    cbn [filter currency impact datetime_obj];
    destruct (str_in cur target_currencies);
    destruct (str_in imp acceptable_impacts);
    cbn [negb orb andb appended]; try reflexivity;
    destruct (orb (Date_eqb (date dt) (date now))
                  (Date_eqb (date dt) (next_day (date now)))); reflexivity.
Qed.

Lemma scraped_rows_wanted (rows : list Row) (now : DateTime) :
  flat_map (fun row => appended (scrape_row now row)) rows
  = wanted_parsed_rows rows now.
Proof.
  unfold wanted_parsed_rows. rewrite filter_flat_map.
  apply flat_map_ext. intros row. apply scrape_row_wanted.
Qed.

(** An appended event carries the datetime parsed from its row's date. *)
Lemma scrape_row_appended (now : DateTime) (row : Row) (e : Event) :
  scrape_row now row = Appended e ->
  exists text, date_div row = Some text
               /\ _parse_event_datetime (year (date now)) (PyStr.strip text)
                  = Some (datetime_obj e).
Proof.
  unfold scrape_row. destruct (date_div row) as [text|]; [|discriminate].
  destruct (List.length (tds row) <? 6)%nat; [discriminate|].
  destruct (orb _ _); [discriminate|].
  destruct (_parse_event_datetime _ _) as [dt|] eqn:Hdt; [|discriminate].
  destruct (negb _); [discriminate|].
  destruct (previous_td row), (concensus_td row), (actual_td row);
    try discriminate.
  intros [= <-]. exists text. split; [reflexivity | exact Hdt].
Qed.

End ScrapeFacts.

(** ** The calendar's claims *)

Section CalendarClaims.
Import Calendar.

(** C9. When the page is fetched, the scrape returns exactly the parsed rows
    whose currency is in the target set, whose impact is Medium or High and
    whose Baghdad date is today or tomorrow (each as often as it occurs), in
    ascending order of their timestamps. *)
Theorem C9_scrape_keeps_wanted_rows_sorted (rows : list Row) (now : DateTime) :
  Permutation (_scrape_calendar (Page rows) now) (wanted_parsed_rows rows now)
  /\ StronglySorted not_later (_scrape_calendar (Page rows) now).
Proof.
  unfold _scrape_calendar. split.
  - rewrite <- scraped_rows_wanted. apply sort_events_perm.
  - apply sort_events_sorted.
Qed.

(** The sample page: of eight rows three are kept, the earliest first; the
    two writings of 14:30 on Jan 5 give equal timestamps. *)
Example scrape_calendar_sample :
  map (fun e => (event e, datetime_obj e))
      (_scrape_calendar (Page sample_rows) sample_now)
  = [ ("Payrolls", mkDateTime (mkDate 2025 1 4) 9 0);
      ("CPI", mkDateTime (mkDate 2025 1 5) 14 30);
      ("ECB Rate", mkDateTime (mkDate 2025 1 5) 14 30) ].
Proof. vm_compute. reflexivity. Qed.

Lemma clock_read_back_all (h m : Z) :
  (0 <= h < 24)%Z -> (0 <= m < 60)%Z -> clock_read_back h m = true.
Proof.
  intros Hh Hm.
  assert (Hall : all_clocks_read_back = true) by (vm_compute; reflexivity).
  unfold all_clocks_read_back in Hall. rewrite forallb_forall in Hall.
  assert (Hrow := Hall (Z.to_nat h) (proj2 (in_seq 24 0 (Z.to_nat h)) ltac:(lia))).
  rewrite forallb_forall in Hrow.
  assert (Hcell := Hrow (Z.to_nat m) (proj2 (in_seq 60 0 (Z.to_nat m)) ltac:(lia))).
  now rewrite !Z2Nat.id in Hcell by lia.
Qed.

(** The date part is read the same way whatever the time part is. *)
Lemma same_instant_any_year (current_year : Z) :
  _parse_event_datetime current_year "Jan 5, 2:30PM"
  = _parse_event_datetime current_year "Jan 5, 14:30".
Proof.
  unfold _parse_event_datetime.
  change (PyStr.split ","%char "Jan 5, 2:30PM") with ["Jan 5"; " 2:30PM"].
  change (PyStr.split ","%char "Jan 5, 14:30") with ["Jan 5"; " 14:30"].
  cbv zeta.
  change (PyStr.strip (hd EmptyString ["Jan 5"; " 2:30PM"])) with "Jan 5".
  change (PyStr.strip (hd EmptyString ["Jan 5"; " 14:30"])) with "Jan 5".
  change (PyStr.strip " 2:30PM") with "2:30PM".
  change (PyStr.strip " 14:30") with "14:30".
  destruct (strptime_b_d_Y ("Jan 5" ++ " " ++ PyStr.str current_year)) as [d|];
    [|reflexivity].
  destruct (valid_date current_year (month d) (day d)); reflexivity.
Qed.

End CalendarClaims.

Section CalendarDates.
Import Calendar CalendarWriting.

(** A row whose date string neither format can read appends nothing. *)
Lemma scrape_row_unparsed (now : DateTime) (row : Row) (text : string) :
  date_div row = Some text ->
  _parse_event_datetime (year (date now)) (PyStr.strip text) = None ->
  appended (scrape_row now row) = [].
Proof.
  intros Hdiv Hnone. unfold scrape_row. rewrite Hdiv, Hnone.
  destruct (List.length (tds row) <? 6)%nat; [reflexivity|].
  now destruct (orb _ _).
Qed.

Lemma first_match_seq {A B} (p : Pattern A) (f : A -> Pattern B) (s : string)
      (a : A) (rest : string) (x : B * string) :
  first_match p s = Some (a, rest) ->
  first_match (f a) rest = Some x ->
  first_match (seq p f) s = Some x.
Proof.
  unfold first_match, seq. destruct (p s) as [|[a' r'] l]; [discriminate|].
  simpl. intros [= -> ->]. destruct (f a rest); [discriminate|].
  simpl. auto.
Qed.

Lemma full_match_first {A} (p : Pattern A) (s : string) (a : A) :
  first_match p s = Some (a, EmptyString) -> full_match p s = Some a.
Proof.
  unfold first_match, full_match. destruct (p s) as [|[a' r'] l];
    [discriminate|].
  simpl. now intros [= -> ->].
Qed.

(** Every year of four digits, by evaluation. *)
Lemma all_years_read_back :
  forallb (fun y => year_reads_back (Z.of_nat y)) (List.seq 1000 (90 * 100))
  = true.
Proof. vm_compute. reflexivity. Qed.

Lemma year_read (y : Z) :
  (1000 <= y <= 9999)%Z ->
  directive_Y (PyStr.str y) = [(y, EmptyString)]
  /\ after_spaces (PyStr.str y) = [PyStr.str y].
Proof.
  intros Hy.
  assert (Hin : In (Z.to_nat y) (List.seq 1000 (90 * 100)))
    by (apply in_seq; lia).
  pose proof (proj1 (forallb_forall _ _) all_years_read_back (Z.to_nat y) Hin)
    as H.
  cbv beta in H. rewrite Z2Nat.id in H by lia.
  unfold year_reads_back in H. apply andb_true_iff in H. destruct H as [H1 H2].
  split.
  - destruct (directive_Y (PyStr.str y)) as [|[v [|c r]] [|x l]];
      try discriminate.
    apply Z.eqb_eq in H1. now subst.
  - destruct (after_spaces (PyStr.str y)) as [|r [|x l]]; try discriminate.
    apply String.eqb_eq in H2. now subst.
Qed.

Lemma month_read (mo : Z) (rest : string) :
  (1 <= mo <= 12)%Z ->
  first_match directive_b (month_name mo ++ rest) = Some (mo, rest).
Proof.
  intros Hmo.
  assert (H : exists n, (n < 12)%nat /\ mo = Z.of_nat (S n))
    by (exists (Z.to_nat (mo - 1)); lia).
  destruct H as (n & Hn & ->).
  do 12 (destruct n as [|n]; [vm_compute; reflexivity|]). lia.
Qed.

Lemma day_read (d : Z) (rest : string) :
  (1 <= d <= 31)%Z ->
  first_match spaces (" " ++ PyStr.str d ++ " " ++ rest)
  = Some (tt, (PyStr.str d ++ " " ++ rest)%string)
  /\ first_match directive_d (PyStr.str d ++ " " ++ rest)
     = Some (d, (" " ++ rest)%string).
Proof.
  intros Hd.
  assert (H : exists n, (n < 31)%nat /\ d = Z.of_nat (S n))
    by (exists (Z.to_nat (d - 1)); lia).
  destruct H as (n & Hn & ->).
  do 31 (destruct n as [|n]; [split; vm_compute; reflexivity|]). lia.
Qed.

(** The date part of a date string, with the year the scraper appends. *)
Lemma strptime_date_text (y mo d : Z) :
  (1000 <= y <= 9999)%Z -> (1 <= mo <= 12)%Z ->
  (1 <= d <= days_in_month y mo)%Z ->
  strptime_b_d_Y (date_text mo d ++ " " ++ PyStr.str y) = Some (mkDate y mo d).
Proof.
  intros Hy Hmo Hd.
  assert (Hd31 : (1 <= d <= 31)%Z).
  { unfold days_in_month in Hd.
    destruct (mo =? 2)%Z; [destruct (is_leap y); lia|].
    destruct (orb _ _); lia. }
  destruct (year_read y Hy) as [HY Hsp].
  unfold strptime_b_d_Y, date_text. rewrite !append_assoc.
  destruct (day_read d (PyStr.str y) Hd31) as [Hs Hday].
  rewrite (full_match_first _ _ (y, mo, d)).
  - assert (Hv : valid_date y mo d = true).
    { unfold valid_date. repeat (apply andb_true_iff; split);
        apply Z.leb_le; lia. }
    now rewrite Hv.
  - eapply first_match_seq; [now apply month_read|].
    eapply first_match_seq; [exact Hs|].
    eapply first_match_seq; [exact Hday|].
    eapply first_match_seq.
    + unfold first_match, spaces. cbn [append]. simpl PyStr.is_space.
      rewrite Hsp. reflexivity.
    + unfold first_match, seq. rewrite HY. reflexivity.
Qed.

Lemma all_dates_plain :
  forallb (fun mo =>
             forallb (fun d => plain_part (date_text (Z.of_nat mo) (Z.of_nat d)))
                     (List.seq 1 31))
          (List.seq 1 12)
  = true.
Proof. vm_compute. reflexivity. Qed.

Lemma all_clocks_plain :
  forallb (fun h =>
             forallb (fun m =>
                        andb (plain_part (clock12 (Z.of_nat h) (Z.of_nat m)))
                             (plain_part (clock24 (Z.of_nat h) (Z.of_nat m))))
                     (List.seq 0 60))
          (List.seq 0 24)
  = true.
Proof. vm_compute. reflexivity. Qed.

Lemma date_text_plain (mo d : Z) :
  (1 <= mo <= 12)%Z -> (1 <= d <= 31)%Z -> plain_part (date_text mo d) = true.
Proof.
  intros Hmo Hd.
  assert (Hm : In (Z.to_nat mo) (List.seq 1 12)) by (apply in_seq; lia).
  assert (Hday : In (Z.to_nat d) (List.seq 1 31)) by (apply in_seq; lia).
  pose proof (proj1 (forallb_forall _ _) all_dates_plain (Z.to_nat mo) Hm) as H.
  cbv beta in H.
  pose proof (proj1 (forallb_forall _ _) H (Z.to_nat d) Hday) as H'.
  cbv beta in H'. now rewrite !Z2Nat.id in H' by lia.
Qed.

Lemma clocks_plain (h m : Z) :
  (0 <= h < 24)%Z -> (0 <= m < 60)%Z ->
  plain_part (clock12 h m) = true /\ plain_part (clock24 h m) = true.
Proof.
  intros Hh Hm.
  assert (Hhi : In (Z.to_nat h) (List.seq 0 24)) by (apply in_seq; lia).
  assert (Hmi : In (Z.to_nat m) (List.seq 0 60)) by (apply in_seq; lia).
  pose proof (proj1 (forallb_forall _ _) all_clocks_plain (Z.to_nat h) Hhi) as H.
  cbv beta in H.
  pose proof (proj1 (forallb_forall _ _) H (Z.to_nat m) Hmi) as H'.
  cbv beta in H'. rewrite !Z2Nat.id in H' by lia.
  now apply andb_true_iff in H'.
Qed.

Lemma split_at_comma (a rest : string) :
  no_comma a = true ->
  PyStr.split ","%char (a ++ String ","%char rest)
  = a :: PyStr.split ","%char rest.
Proof.
  induction a as [|c a IH]; intros Ha; [reflexivity|].
  simpl in Ha. apply andb_true_iff in Ha. destruct Ha as [Hc Ha].
  apply negb_true_iff in Hc. cbn [append PyStr.split]. rewrite Hc.
  now rewrite (IH Ha).
Qed.

Lemma split_no_comma (a : string) :
  no_comma a = true -> PyStr.split ","%char a = [a].
Proof.
  induction a as [|c a IH]; intros Ha; [reflexivity|].
  simpl in Ha. apply andb_true_iff in Ha. destruct Ha as [Hc Ha].
  apply negb_true_iff in Hc. cbn [PyStr.split]. rewrite Hc.
  now rewrite (IH Ha).
Qed.

Lemma no_comma_space (a : string) :
  no_comma a = true -> no_comma (" " ++ a) = true.
Proof. intros Ha. cbn. exact Ha. Qed.

(** A date string made of a plain date and a plain clock. *)
Lemma parse_date_str (y mo d h m : Z) (clock : string) :
  (1000 <= y <= 9999)%Z -> (1 <= mo <= 12)%Z ->
  (1 <= d <= days_in_month y mo)%Z ->
  plain_part clock = true ->
  parse_event_time clock = Some (h, m) ->
  _parse_event_datetime y (date_str mo d clock)
  = Some (mkDateTime (mkDate y mo d) h m).
Proof.
  intros Hy Hmo Hd Hclock Htime.
  assert (Hd31 : (1 <= d <= 31)%Z).
  { unfold days_in_month in Hd.
    destruct (mo =? 2)%Z; [destruct (is_leap y); lia|].
    destruct (orb _ _); lia. }
  pose proof (date_text_plain mo d Hmo Hd31) as Hdate.
  unfold plain_part in Hclock, Hdate.
  apply andb_true_iff in Hclock. destruct Hclock as [Hc1 Hclock].
  apply andb_true_iff in Hclock. destruct Hclock as [_ Hclock].
  apply andb_true_iff in Hclock. destruct Hclock as [Hc3 Hc4].
  apply andb_true_iff in Hdate. destruct Hdate as [Hd1 Hdate].
  apply andb_true_iff in Hdate. destruct Hdate as [Hd2 _].
  apply String.eqb_eq in Hc3, Hd2. apply negb_true_iff in Hc4.
  unfold _parse_event_datetime, date_str.
  change (", " ++ clock)%string with (String ","%char (" " ++ clock)).
  rewrite (split_at_comma _ _ Hd1).
  rewrite (split_no_comma _ (no_comma_space clock Hc1)).
  cbv zeta. cbn [hd]. rewrite Hd2, Hc3.
  rewrite (strptime_date_text y mo d Hy Hmo Hd). cbn [month day].
  assert (Hv : valid_date y mo d = true).
  { unfold valid_date. repeat (apply andb_true_iff; split);
      apply Z.leb_le; lia. }
  rewrite Hv. destruct clock as [|c clock]; [discriminate|].
  now rewrite Htime.
Qed.

(** A time part that neither format reads makes the whole date string
    unreadable, whatever the date part is. *)
Lemma parse_neither_format (current_year : Z) (text p0 p1 : string)
      (rest : list string) :
  PyStr.split ","%char text = p0 :: p1 :: rest ->
  PyStr.strip p1 <> EmptyString ->
  strptime_I_M_p (PyStr.upper (PyStr.strip p1)) = None ->
  strptime_H_M (PyStr.strip p1) = None ->
  _parse_event_datetime current_year text = None.
Proof.
  intros Hsplit Hne H12 H24. unfold _parse_event_datetime. rewrite Hsplit.
  cbv zeta. destruct (strptime_b_d_Y _) as [event_date|]; [|reflexivity].
  destruct (valid_date _ _ _); [|reflexivity].
  destruct (PyStr.strip p1) as [|c t] eqn:Hp; [congruence|].
  unfold parse_event_time. now rewrite H12, H24.
Qed.

Lemma scrape_row_unparsed_skipped (now : DateTime) (row : Row) (text : string) :
  date_div row = Some text ->
  _parse_event_datetime (year (date now)) (PyStr.strip text) = None ->
  scrape_row now row = Skipped.
Proof.
  intros Hdiv Hnone. unfold scrape_row. rewrite Hdiv, Hnone.
  destruct (List.length (tds row) <? 6)%nat; [reflexivity|].
  now destruct (orb _ _).
Qed.

(** C8. The time of a calendar date is read with the 12-hour format first
    and, when that fails, with the 24-hour format: every minute of the day
    written as "2:30PM" is read by the first; written as "14:30" it is
    refused by the first and read by the second; and both give that minute.
    So for every date of every four-digit year the date string with either
    writing of the time is parsed to that very instant; in particular
    "Jan 5, 2:30PM" and "Jan 5, 14:30" give 14:30 on 5 January of the current
    year. A date string whose time part neither format reads is not parsed.
    An event is in the output of the scrape only if its row's date string
    was parsed; a row whose date string is not parsed is skipped by a
    [continue], not by an exception, and the scrape returns what it returns
    without that row. *)
Theorem C8_calendar_dates_accept_12_and_24_hour_times
        (current_year y mo d h m : Z) (rows : list Row) (now : DateTime) :
  (1000 <= y <= 9999)%Z -> (1 <= mo <= 12)%Z ->
  (1 <= d <= days_in_month y mo)%Z ->
  (0 <= h < 24)%Z -> (0 <= m < 60)%Z ->
  (strptime_I_M_p (PyStr.upper (clock12 h m)) = Some (h, m)
   /\ parse_event_time (clock12 h m) = Some (h, m))
  /\ (strptime_I_M_p (PyStr.upper (clock24 h m)) = None
      /\ strptime_H_M (clock24 h m) = Some (h, m)
      /\ parse_event_time (clock24 h m) = Some (h, m))
  /\ (_parse_event_datetime y (date_str mo d (clock12 h m))
      = Some (mkDateTime (mkDate y mo d) h m)
      /\ _parse_event_datetime y (date_str mo d (clock24 h m))
         = Some (mkDateTime (mkDate y mo d) h m))
  /\ (_parse_event_datetime y "Jan 5, 2:30PM"
      = Some (mkDateTime (mkDate y 1 5) 14 30)
      /\ _parse_event_datetime y "Jan 5, 14:30"
         = Some (mkDateTime (mkDate y 1 5) 14 30))
  /\ _parse_event_datetime current_year "Jan 5, 2:30PM"
     = _parse_event_datetime current_year "Jan 5, 14:30"
  /\ _parse_event_datetime 2025 "Jan 5, 14:30"
     = Some (mkDateTime (mkDate 2025 1 5) 14 30)
  /\ (forall text p0 p1 rest,
         PyStr.split ","%char text = p0 :: p1 :: rest ->
         PyStr.strip p1 <> EmptyString ->
         strptime_I_M_p (PyStr.upper (PyStr.strip p1)) = None ->
         strptime_H_M (PyStr.strip p1) = None ->
         _parse_event_datetime current_year text = None)
  /\ (_parse_event_datetime current_year "Jan 5, 25:00" = None
      /\ _parse_event_datetime current_year "Jan 5, 2:30XM" = None
      /\ _parse_event_datetime current_year "soon" = None)
  /\ (forall e,
         In e (_scrape_calendar (Page rows) now) ->
         exists row text,
           In row rows /\ date_div row = Some text
           /\ _parse_event_datetime (year (date now)) (PyStr.strip text)
              = Some (datetime_obj e))
  /\ (forall row text,
         date_div row = Some text ->
         _parse_event_datetime (year (date now)) (PyStr.strip text) = None ->
         scrape_row now row = Skipped
         /\ _scrape_calendar (Page (row :: rows)) now
            = _scrape_calendar (Page rows) now).
Proof.
  intros Hy Hmo Hd Hh Hm.
  pose proof (clock_read_back_all h m Hh Hm) as Hclock.
  unfold clock_read_back in Hclock.
  destruct (strptime_I_M_p (PyStr.upper (clock12 h m))) as [[h1 m1]|] eqn:H12;
    [|discriminate].
  destruct (strptime_I_M_p (PyStr.upper (clock24 h m))) eqn:H12';
    [discriminate|].
  destruct (strptime_H_M (clock24 h m)) as [[h2 m2]|] eqn:H24; [|discriminate].
  apply andb_true_iff in Hclock. destruct Hclock as [H1 H2].
  apply andb_true_iff in H1. destruct H1 as [Hh1 Hm1].
  apply andb_true_iff in H2. destruct H2 as [Hh2 Hm2].
  apply Z.eqb_eq in Hh1, Hm1, Hh2, Hm2. subst h1 m1 h2 m2.
  assert (Ht12 : parse_event_time (clock12 h m) = Some (h, m))
    by (unfold parse_event_time; now rewrite H12).
  assert (Ht24 : parse_event_time (clock24 h m) = Some (h, m))
    by (unfold parse_event_time; now rewrite H12', H24).
  destruct (clocks_plain h m Hh Hm) as [Hp12 Hp24].
  assert (Hjan : forall clock,
             plain_part clock = true ->
             parse_event_time clock = Some (14, 30)%Z ->
             _parse_event_datetime y (date_str 1 5 clock)
             = Some (mkDateTime (mkDate y 1 5) 14 30)).
  { intros clock Hp Ht. apply parse_date_str; auto; try lia.
    unfold days_in_month. simpl. lia. }
  split; [now split|]. split; [now repeat split|].
  split; [split; now apply parse_date_str|].
  split.
  { split.
    - change "Jan 5, 2:30PM" with (date_str 1 5 "2:30PM").
      apply Hjan; vm_compute; reflexivity.
    - change "Jan 5, 14:30" with (date_str 1 5 "14:30").
      apply Hjan; vm_compute; reflexivity. }
  split; [apply same_instant_any_year|].
  split; [vm_compute; reflexivity|].
  split; [intros text p0 p1 rest; apply parse_neither_format|].
  split.
  { split; [|split].
    - apply (parse_neither_format current_year _ "Jan 5" " 25:00" []);
        solve [reflexivity | discriminate | vm_compute; reflexivity].
    - apply (parse_neither_format current_year _ "Jan 5" " 2:30XM" []);
        solve [reflexivity | discriminate | vm_compute; reflexivity].
    - unfold _parse_event_datetime. vm_compute. reflexivity. }
  split.
  - intros e He. unfold _scrape_calendar in He.
    apply (Permutation_in _ (sort_events_perm _)) in He.
    apply in_flat_map in He. destruct He as (row & Hrow & Hin).
    destruct (scrape_row now row) as [| |e'] eqn:Hr; simpl in Hin;
      [contradiction | contradiction |].
    destruct Hin as [<-|[]].
    destruct (scrape_row_appended now row e' Hr) as (text & Hdiv & Hdt).
    now exists row, text.
  - intros row text Hdiv Hnone. split.
    + now apply (scrape_row_unparsed_skipped now row text).
    + unfold _scrape_calendar. simpl.
      now rewrite (scrape_row_unparsed now row text Hdiv Hnone).
Qed.

(** 5 January 2025, 14:30, in both writings; and the sample page with and
    without a row dated "soon". *)
Lemma C8_calendar_dates_accept_12_and_24_hour_times_witness :
  (date_str 1 5 (clock12 14 30) = "Jan 5, 2:30PM"
   /\ date_str 1 5 (clock24 14 30) = "Jan 5, 14:30")
  /\ (_parse_event_datetime 2025 (date_str 1 5 (clock12 14 30))
      = Some (mkDateTime (mkDate 2025 1 5) 14 30)
      /\ _parse_event_datetime 2025 (date_str 1 5 (clock24 14 30))
         = Some (mkDateTime (mkDate 2025 1 5) 14 30))
  /\ _scrape_calendar
       (Page (sample_row "soon" "USD" "Undated" "High" :: sample_rows))
       sample_now
     = _scrape_calendar (Page sample_rows) sample_now.
Proof.
  destruct (C8_calendar_dates_accept_12_and_24_hour_times
              2025 2025 1 5 14 30 sample_rows sample_now)
    as (_ & _ & Hparse & _ & _ & _ & _ & (_ & _ & Hsoon) & _ & Hdrop);
    try lia.
  - change (days_in_month 2025 1) with 31%Z. lia.
  - split; [split; vm_compute; reflexivity|]. split; [exact Hparse|].
    apply (Hdrop (sample_row "soon" "USD" "Undated" "High") "soon");
      [reflexivity | exact Hsoon].
Defined.

End CalendarDates.


(* ====================================================================== *)
(** * Further properties of the code *)
(* ====================================================================== *)

(** ** The evaluator and the alert table *)

Section EvaluatorMore.
Import Alerts AlertOps.

Lemma recurring_never_queued (feed : PriceFeed) (bot : Bot) (now : Z)
      (db : Table) (a : PriceAlert) :
  is_one_time a = false ->
  forall t, In t (tick_calls (check_price_alerts_job feed bot now db)) ->
            att_alert t = a -> queued t = false.
Proof.
  intros Hrec t _ <-. unfold queued. rewrite Hrec. apply andb_false_r.
Qed.

(** X1. A recurring alert is never deactivated by a tick, whether or not
    its notification was delivered: its row is left as it was, and the next
    tick in which its symbol has a price meeting the threshold sends for it
    again. *)
Theorem X1_recurring_alert_survives_tick_and_fires_again
        (feed feed' : PriceFeed) (bot bot' : Bot) (now now' : Z) (db : Table)
        (a : PriceAlert) (p' : float) :
  unique_ids db ->
  In a (get_all_active_price_alerts db) ->
  is_one_time a = false ->
  fetch_current_price (feed' (PyStr.upper (asset a))) = Some p' ->
  triggered a p' = true ->
  let tick := check_price_alerts_job feed bot now db in
  row (id a) (tick_db tick) = Some a
  /\ In (mkAttempt a p' (bot' (user_id a) (message_text a p')))
        (tick_calls (check_price_alerts_job feed' bot' now' (tick_db tick))).
Proof.
  intros Hu Hin Hrec Hp Htr tick.
  apply filter_In in Hin. destruct Hin as [Ha Hact].
  destruct (tick_leaves_unqueued_row feed bot now db a Hu Ha
              (recurring_never_queued feed bot now db a Hrec)) as [_ Hrow].
  split; [exact Hrow|].
  apply tick_calls_In. exists a, p'.
  apply row_Some in Hrow. destruct Hrow as [Ha' _].
  now repeat split.
Qed.

Lemma X1_recurring_alert_survives_tick_and_fires_again_witness :
  row 2 (tick_db AlertSamples.delivered_tick) = Some AlertSamples.euro_alert
  /\ In (mkAttempt AlertSamples.euro_alert 1.125%float true)
        (tick_calls (check_price_alerts_job AlertSamples.sample_feed
                       AlertSamples.bot_ok 120
                       (tick_db AlertSamples.delivered_tick))).
Proof.
  apply (X1_recurring_alert_survives_tick_and_fires_again
           AlertSamples.sample_feed AlertSamples.sample_feed
           AlertSamples.bot_ok AlertSamples.bot_ok 60 120
           AlertSamples.sample_db AlertSamples.euro_alert 1.125%float).
  - exact sample_db_unique_ids.
  - simpl. auto.
  - reflexivity.
  - vm_compute. reflexivity.
  - vm_compute. reflexivity.
Defined.

(** X2. When no active alert has a price this tick (there is no active
    alert, or every fetch for an active symbol failed), the job sends nothing
    and writes nothing: the table is returned as it was. *)
Theorem X2_tick_without_prices_does_nothing
        (feed : PriceFeed) (bot : Bot) (now : Z) (db : Table) :
  nothing_priced feed db ->
  check_price_alerts_job feed bot now db = mkTick db [] [].
Proof.
  intros Hnone. rewrite check_price_alerts_job_sweep.
  assert (Hcalls : flat_map (outcome bot (asset_prices feed (get_distinct_alert_assets db)))
                            (get_all_active_price_alerts db) = []).
  { destruct (flat_map _ _) as [|t l] eqn:Hf; [reflexivity|].
    assert (Hin : In t (tick_calls (check_price_alerts_job feed bot now db))).
    { rewrite check_price_alerts_job_sweep. simpl. rewrite Hf. now left. }
    apply tick_calls_In in Hin.
    destruct Hin as (a & p & Ha & Hact & Hq & _).
    unfold quote in Hq. rewrite (Hnone a Ha Hact) in Hq. discriminate. }
  rewrite Hcalls. simpl. now rewrite deactivate_batch_nil.
Qed.

Lemma X2_tick_without_prices_does_nothing_witness :
  check_price_alerts_job dead_feed AlertSamples.bot_ok 60 AlertSamples.sample_db
  = mkTick AlertSamples.sample_db [] [].
Proof.
  apply (X2_tick_without_prices_does_nothing
           dead_feed AlertSamples.bot_ok 60 AlertSamples.sample_db).
  intros a _ _. reflexivity.
Defined.

End EvaluatorMore.

Section TableMore.
Import Alerts AlertOps.

(** X3. A tick writes nothing but deactivations: the table keeps its rows
    and their order; a row is changed exactly when its id is in the batch,
    which holds only active one-time alerts whose notification was delivered,
    and such a row becomes the same alert, inactive, stamped with the time of
    the batch; every other row is left as it was. *)
Theorem X3_tick_changes_only_delivered_one_time_rows
        (feed : PriceFeed) (bot : Bot) (now : Z) (db : Table) :
  unique_ids db ->
  let tick := check_price_alerts_job feed bot now db in
  map id (tick_db tick) = map id db
  /\ (forall a, In a db -> In (id a) (tick_batch tick) ->
        is_active a = true /\ is_one_time a = true
        /\ (exists p, In (mkAttempt a p true) (tick_calls tick))
        /\ row (id a) (tick_db tick) = Some (set_inactive now a))
  /\ (forall a, In a db -> ~ In (id a) (tick_batch tick) ->
        row (id a) (tick_db tick) = Some a).
Proof.
  intros Hu tick. split; [|split].
  - subst tick. rewrite tick_db_batch. unfold deactivate_batch.
    rewrite map_map. apply map_ext. intros a. now destruct (id_in _ a).
  - intros a Ha Hin. pose proof Hin as Hb.
    apply tick_batch_In in Hb. destruct Hb as (t & Ht & Hq & Hid).
    pose proof Ht as Ht'. apply tick_calls_In in Ht'.
    destruct Ht' as (b & q & Hb & Hact & _ & _ & Heq).
    assert (b = a).
    { apply (unique_ids_inj db); auto. rewrite <- Hid, Heq. reflexivity. }
    subst b. unfold queued in Hq. rewrite Heq in Hq. simpl in Hq.
    apply andb_true_iff in Hq. destruct Hq as [Hd Hone].
    split; [exact Hact|]. split; [exact Hone|]. split.
    + exists q. rewrite <- Hd, <- Heq. exact Ht.
    + subst tick. rewrite tick_db_batch, row_deactivate_batch, row_unique by assumption.
      simpl. apply id_in_In in Hin. now rewrite Hin.
  - intros a Ha Hout. subst tick.
    rewrite tick_db_batch, row_deactivate_batch, row_unique by assumption.
    simpl. destruct (id_in _ a) eqn:Hid; [|reflexivity].
    apply id_in_In in Hid. contradiction.
Qed.

Lemma X3_tick_changes_only_delivered_one_time_rows_witness :
  map id (tick_db AlertSamples.delivered_tick) = [1; 2; 3]%Z.
Proof.
  apply (X3_tick_changes_only_delivered_one_time_rows
           AlertSamples.sample_feed AlertSamples.bot_ok 60
           AlertSamples.sample_db sample_db_unique_ids).
Defined.

Lemma filter_keeps_all {A} (f : A -> bool) (l : list A) :
  (forall x, In x l -> f x = true) -> filter f l = l.
Proof.
  induction l as [|x l IH]; simpl; intros H; [reflexivity|].
  rewrite (H x (or_introl eq_refl)). f_equal. apply IH. auto.
Qed.



(** X5. [delete_price_alert] removes the row of the given key and nothing
    else: the key is no longer found, every other key is found as before, and
    deleting a key that no row has leaves the table as it was. *)
Theorem X5_delete_price_alert_removes_one_key (alert_id : Z) (db : Table) :
  get_price_alert_by_id alert_id (delete_price_alert alert_id db) = None
  /\ (forall i, i <> alert_id ->
        get_price_alert_by_id i (delete_price_alert alert_id db)
        = get_price_alert_by_id i db)
  /\ (get_price_alert_by_id alert_id db = None ->
      delete_price_alert alert_id db = db).
Proof.
  split; [|split].
  - unfold get_price_alert_by_id, delete_price_alert.
    destruct (find _ (filter _ db)) as [a|] eqn:Hf; [|reflexivity].
    apply find_some in Hf. destruct Hf as [Ha He].
    apply filter_In in Ha. destruct Ha as [_ Hne].
    rewrite He in Hne. discriminate.
  - intros i Hne. now apply row_delete_other.
  - intros Hnone. unfold delete_price_alert. apply filter_keeps_all.
    intros a Ha. apply (find_none _ _ Hnone) in Ha. now rewrite Ha.
Qed.


End TableMore.

(** ** Start-up and the admin's task handlers *)

Section StartupFacts.
Import Scheduler AdminTasks.

Lemma lookup_job_absent (jid : string) (store : list Job) :
  ~ In jid (map id store) -> lookup_job jid store = None.
Proof.
  intros Hout. unfold lookup_job.
  destruct (find _ store) as [j|] eqn:Hf; [|reflexivity].
  apply find_some in Hf. destruct Hf as [Hj He]. apply String.eqb_eq in He.
  exfalso. apply Hout. rewrite <- He. now apply in_map.
Qed.

(** Jobs with new, pairwise distinct ids are stored in the order they were
    added. *)
Lemma add_pending_fresh (pending : list (Job * bool)) (store : list Job) :
  NoDup (map id (map fst pending)) ->
  (forall jid, In jid (map id (map fst pending)) -> ~ In jid (map id store)) ->
  add_pending pending store = Some (store ++ map fst pending).
Proof.
  revert store. induction pending as [|[job r] rest IH]; simpl; intros store Hnd Hfresh.
  - now rewrite app_nil_r.
  - inversion Hnd as [|? ? Hjob Hnd']; subst.
    unfold real_add_job.
    rewrite lookup_job_absent by (apply Hfresh; now left).
    rewrite IH; [now rewrite <- app_assoc | assumption |].
    intros jid Hjid Hin. rewrite map_app in Hin. apply in_app_or in Hin.
    destruct Hin as [Hin|[<-|[]]].
    + apply (Hfresh jid); [now right | exact Hin].
    + contradiction.
Qed.

(** Before [start], the loop of [setup_scheduler] queues one job per task. *)
Lemma add_task_jobs_pending (tasks : list ScheduledTask) (s : AsyncIOScheduler) :
  running s = false ->
  add_task_jobs tasks s
  = Some (mkScheduler false (scheduler_timezone s)
            (pending_jobs s
             ++ map (fun t => (task_job (scheduler_timezone s) t, true)) tasks)
            (jobstore s)).
Proof.
  revert s. induction tasks as [|t rest IH]; simpl; intros s Hrun.
  - rewrite app_nil_r. now destruct s; simpl in *; subst.
  - unfold add_task_job, add_job. rewrite Hrun.
    rewrite IH by reflexivity. simpl. now rewrite <- app_assoc.
Qed.

Lemma well_formed_tasks_ids (tz : string) (tasks : list ScheduledTask) :
  well_formed_tasks tasks ->
  NoDup (map id (map (task_job tz) tasks ++ system_jobs tz)).
Proof.
  intros [Hnd Hres]. rewrite map_app, map_map. simpl.
  apply NoDup_app; [exact Hnd | |].
  - repeat constructor; simpl; intuition discriminate.
  - intros jid Hin Hr. apply in_map_iff in Hin. destruct Hin as (t & <- & Ht).
    exact (Hres t Ht Hr).
Qed.

Lemma analysis_jobs_of_tasks (tz : string) (tasks : list ScheduledTask) :
  filter is_analysis_job (map (task_job tz) tasks ++ system_jobs tz)
  = map (task_job tz) tasks.
Proof.
  rewrite filter_app. simpl. rewrite app_nil_r.
  induction tasks as [|t rest IH]; simpl; congruence.
Qed.

End StartupFacts.

Section StartupClaims.
Import Scheduler AdminTasks.

(** X7. Start-up from a fresh scheduler never fails on a well-formed task
    table: the running scheduler holds exactly one job per persisted task, in
    table order, carrying the task's asset, hour and minute (in the
    scheduler's zone), followed by the price-alert checker and the daily
    calendar sender; nothing stays pending, and the table and the scheduler
    agree. *)
Theorem X7_startup_schedules_every_persisted_task
        (tasks : list ScheduledTask) (tz : string) :
  well_formed_tasks tasks ->
  on_startup tasks (mkScheduler false tz [] [])
  = Some (mkScheduler true tz [] (map (task_job tz) tasks ++ system_jobs tz))
  /\ in_sync (mkAdminState
                (mkScheduler true tz [] (map (task_job tz) tasks ++ system_jobs tz))
                tasks).
Proof.
  intros Hwf. pose proof (well_formed_tasks_ids tz tasks Hwf) as Hnd. split.
  - unfold on_startup, setup_scheduler.
    rewrite add_task_jobs_pending by reflexivity. simpl.
    unfold start. simpl. rewrite <- !app_assoc. simpl.
    rewrite add_pending_fresh.
    + simpl. do 2 f_equal. rewrite map_app, map_map. reflexivity.
    + rewrite map_app, map_map. exact Hnd.
    + intros jid _ [].
  - unfold in_sync. simpl. split; [reflexivity|]. split; [exact Hnd|].
    intros jid. rewrite analysis_jobs_of_tasks, map_map. simpl. tauto.
Qed.

Lemma sample_tasks_well_formed : well_formed_tasks sample_tasks.
Proof.
  split.
  - simpl. repeat constructor; simpl; intuition discriminate.
  - intros t [<-|[<-|[]]]; simpl; intuition discriminate.
Qed.

Lemma X7_startup_schedules_every_persisted_task_witness :
  on_startup sample_tasks (mkScheduler false "UTC" [] [])
  = Some (mkScheduler true "UTC" []
            (map (task_job "UTC") sample_tasks ++ system_jobs "UTC")).
Proof.
  apply (X7_startup_schedules_every_persisted_task sample_tasks "UTC").
  exact sample_tasks_well_formed.
Defined.

End StartupClaims.

Section TaskHandlerFacts.
Import Scheduler AdminTasks.

Lemma split_max_0 (sep : ascii) (s : string) : split_max sep 0 s = [s].
Proof. now destruct s. Qed.

Lemma remove_button_job_id (jid : string) :
  split_max ":"%char 2 ("task:remove:" ++ jid) = ["task"; "remove"; jid].
Proof. cbn. now rewrite split_max_0. Qed.

Lemma filter_absent_job (jid : string) (store : list Job) :
  lookup_job jid store = None ->
  filter (fun j => negb (String.eqb (id j) jid)) store = store.
Proof.
  intros Hnone. apply filter_keeps_all. intros j Hj.
  apply (find_none _ _ Hnone) in Hj. now rewrite Hj.
Qed.

Lemma delete_absent_task (jid : string) (tasks : list ScheduledTask) :
  existsb (fun t => String.eqb (job_id t) jid) tasks = false ->
  delete_task jid tasks = tasks.
Proof.
  intros Hnone. apply filter_keeps_all. intros t Ht.
  destruct (String.eqb (job_id t) jid) eqn:E; [|reflexivity].
  assert (existsb (fun t => String.eqb (job_id t) jid) tasks = true)
    by (apply existsb_exists; now exists t).
  congruence.
Qed.

(** What a successful request of the minute handler was and did. *)
Lemma add_task_minute_handler_scheduled
      (text asset : string) (hour : Z) (st st1 : AdminState) (a : string) (h m : Z) :
  add_task_minute_handler text asset hour st = Some (st1, TaskScheduled a h m) ->
  a = asset /\ h = hour /\ m = PyStr.int text
  /\ PyStr.isdigit text = true /\ (0 <= m <= 59)%Z
  /\ get_job (task_job_id a h m) (scheduler st) = None
  /\ existsb (fun t => String.eqb (job_id t) (task_job_id a h m))
             (scheduled_tasks st) = false
  /\ add_job (scheduled_analysis_job a) (cron h m None) (task_job_id a h m) true
             (scheduler st) = Some (scheduler st1)
  /\ scheduled_tasks st1
     = scheduled_tasks st
       ++ [mkScheduledTask (task_job_id a h m) a h m "Asia/Baghdad"].
Proof.
  unfold add_task_minute_handler, add_task.
  destruct (orb _ _) eqn:Hvalid; [discriminate|].
  apply orb_false_iff in Hvalid. destruct Hvalid as [Hdig Hrange].
  apply negb_false_iff in Hdig, Hrange.
  apply andb_true_iff in Hrange. destruct Hrange as [Hlo Hhi].
  apply Z.leb_le in Hlo, Hhi.
  destruct (get_job _ (scheduler st)) eqn:Hget; [discriminate|].
  destruct (existsb _ (scheduled_tasks st)) eqn:Hex; [discriminate|].
  destruct (add_job _ _ _ true (scheduler st)) as [s'|] eqn:Hadd; [|discriminate].
  intros [= <- <- <- <-]. simpl. repeat split; auto.
Qed.

End TaskHandlerFacts.

Section TaskHandlerClaims.
Import Scheduler AdminTasks.

(** X8. On a running scheduler, removing a task through the button the task
    list shows for it undoes its scheduling: after the minute handler has
    scheduled a task, [remove_task_handler] on that button's data gives back
    the scheduler and the table as they were before. Removing a job id that
    neither the scheduler nor the table knows changes nothing and raises
    nothing, even when the id itself contains colons. *)
Theorem X8_remove_task_undoes_add_task
        (text asset : string) (hour : Z) (st st1 : AdminState)
        (a : string) (h m : Z) :
  running (scheduler st) = true ->
  add_task_minute_handler text asset hour st = Some (st1, TaskScheduled a h m) ->
  remove_task_handler
    (remove_button_data (mkScheduledTask (task_job_id a h m) a h m "Asia/Baghdad"))
    st1 = Some st
  /\ (forall jid,
         get_job jid (scheduler st) = None ->
         existsb (fun t => String.eqb (job_id t) jid) (scheduled_tasks st) = false ->
         remove_task_handler ("task:remove:" ++ jid) st = Some st).
Proof.
  intros Hrun Hadd.
  destruct (add_task_minute_handler_scheduled _ _ _ _ _ _ _ _ Hadd)
    as (_ & _ & _ & _ & _ & Hget & Hex & Hjob & Htasks).
  destruct st as [s tasks], st1 as [s1 tasks1].
  simpl in Hrun, Hget, Hex, Hjob, Htasks. split.
  - unfold remove_task_handler, remove_button_data. simpl job_id.
    rewrite remove_button_job_id. simpl.
    unfold add_job in Hjob. rewrite Hrun in Hjob.
    unfold get_job in Hget. rewrite Hrun in Hget.
    unfold real_add_job in Hjob. simpl in Hjob. rewrite Hget in Hjob.
    injection Hjob as <-. subst tasks1.
    unfold get_job. simpl.
    rewrite (lookup_job_app_fresh (mkJob (task_job_id a h m) _ _)) by exact Hget.
    unfold remove_job. simpl. rewrite filter_app. simpl.
    rewrite String.eqb_refl. simpl. rewrite app_nil_r.
    rewrite filter_absent_job by exact Hget.
    unfold delete_task. rewrite filter_app. simpl.
    rewrite String.eqb_refl. simpl. rewrite app_nil_r.
    fold (delete_task (task_job_id a h m) tasks).
    rewrite delete_absent_task by exact Hex.
    destruct s; simpl in *; subst. reflexivity.
  - intros jid Hnone Hexj. unfold remove_task_handler.
    rewrite remove_button_job_id. simpl in Hnone, Hexj |- *. rewrite Hnone.
    now rewrite delete_absent_task.
Qed.

Lemma X8_remove_task_undoes_add_task_witness :
  remove_task_handler
    (remove_button_data (mkScheduledTask (task_job_id "XAUUSD" 8 30) "XAUUSD" 8 30
                                         "Asia/Baghdad"))
    (mkAdminState
       (mkScheduler true "UTC" []
          [mkJob "task_XAUUSD_8_30" (scheduled_analysis_job "XAUUSD")
                 (CronTrigger 8 30 "UTC")])
       [mkScheduledTask "task_XAUUSD_8_30" "XAUUSD" 8 30 "Asia/Baghdad"])
  = Some (mkAdminState (mkScheduler true "UTC" [] []) []).
Proof.
  apply (X8_remove_task_undoes_add_task
           "30" "XAUUSD" 8 (mkAdminState (mkScheduler true "UTC" [] []) [])).
  - reflexivity.
  - vm_compute. reflexivity.
Defined.

End TaskHandlerClaims.

Section SyncFacts.
Import Scheduler AdminTasks.

Lemma in_map_filter_other {A} (f : A -> string) (jid : string) (l : list A)
      (x : string) :
  In x (map f (filter (fun t => negb (String.eqb (f t) jid)) l))
  <-> In x (map f l) /\ x <> jid.
Proof.
  rewrite !in_map_iff. split.
  - intros (t & <- & Ht). apply filter_In in Ht. destruct Ht as [Ht Hne].
    apply negb_true_iff, String.eqb_neq in Hne. split; [now exists t | exact Hne].
  - intros [(t & <- & Ht) Hne]. exists t. split; [reflexivity|].
    apply filter_In. split; [exact Ht|].
    now apply negb_true_iff, String.eqb_neq.
Qed.

Lemma analysis_ids_filter_other (jid : string) (store : list Job) (x : string) :
  In x (map id (filter is_analysis_job
                       (filter (fun j => negb (String.eqb (id j) jid)) store)))
  <-> In x (map id (filter is_analysis_job store)) /\ x <> jid.
Proof.
  rewrite !in_map_iff. split.
  - intros (j & <- & Hj). apply filter_In in Hj. destruct Hj as [Hj Han].
    apply filter_In in Hj. destruct Hj as [Hj Hne].
    apply negb_true_iff, String.eqb_neq in Hne. split; [|exact Hne].
    exists j. split; [reflexivity|]. now apply filter_In.
  - intros [(j & <- & Hj) Hne]. apply filter_In in Hj. destruct Hj as [Hj Han].
    exists j. split; [reflexivity|]. apply filter_In. split; [|exact Han].
    apply filter_In. split; [exact Hj|].
    now apply negb_true_iff, String.eqb_neq.
Qed.

Lemma unique_job_ids_filter (f : Job -> bool) (store : list Job) :
  unique_job_ids store -> unique_job_ids (filter f store).
Proof.
  unfold unique_job_ids. induction store as [|j store IH]; simpl; intros Hu.
  - constructor.
  - inversion Hu as [|? ? Hout Hrest]; subst.
    destruct (f j); simpl; [|now apply IH].
    constructor; [|now apply IH].
    intros Hin. apply Hout. apply in_map_iff in Hin.
    destruct Hin as (k & Hk & Hin). apply filter_In in Hin.
    rewrite <- Hk. apply in_map. tauto.
Qed.

Lemma analysis_ids_in_store (store : list Job) (x : string) :
  In x (map id (filter is_analysis_job store)) -> In x (map id store).
Proof.
  rewrite !in_map_iff. intros (j & Hid & Hj). apply filter_In in Hj.
  exists j. tauto.
Qed.

Lemma in_sync_task_has_job (st : AdminState) (jid : string) :
  in_sync st -> get_job jid (scheduler st) = None ->
  existsb (fun t => String.eqb (job_id t) jid) (scheduled_tasks st) = false.
Proof.
  intros (Hrun & _ & Hsync) Hget. unfold get_job in Hget. rewrite Hrun in Hget.
  apply lookup_job_None in Hget.
  destruct (existsb _ _) eqn:Hex; [|reflexivity].
  apply existsb_exists in Hex. destruct Hex as (t & Ht & He).
  apply String.eqb_eq in He. exfalso. apply Hget.
  apply analysis_ids_in_store, Hsync. rewrite <- He. now apply in_map.
Qed.

End SyncFacts.

Section SyncClaims.
Import Scheduler AdminTasks.

(** X9. The admin handlers keep the task table and the running scheduler in
    step. From a state in which the scheduler runs, its job ids are distinct
    and its analysis jobs carry exactly the job ids of the table, the minute
    handler never raises, whatever the ASCII text, the asset and the hour
    (in particular the unique [job_id] column is never violated), and both
    the minute handler and [remove_task_handler] end in a state with the
    same property. *)
Theorem X9_task_handlers_keep_table_and_scheduler_in_sync (st : AdminState) :
  in_sync st ->
  (forall text asset hour,
      ascii_text text = true ->
      exists st' r,
        add_task_minute_handler text asset hour st = Some (st', r) /\ in_sync st')
  /\ (forall data st',
         remove_task_handler data st = Some st' -> in_sync st').
Proof.
  intros Hsync. split.
  - intros text asset hour _. unfold add_task_minute_handler.
    destruct (orb _ _); [now exists st, InvalidMinute|].
    set (m := PyStr.int text). set (jid := task_job_id asset hour m).
    destruct (get_job jid (scheduler st)) eqn:Hget;
      [now exists st, TaskAlreadyExists|].
    unfold add_task. rewrite (in_sync_task_has_job st jid Hsync Hget).
    destruct Hsync as (Hrun & Huniq & Hids).
    unfold get_job in Hget. rewrite Hrun in Hget.
    unfold add_job, real_add_job. rewrite Hrun. simpl id. rewrite Hget.
    do 2 eexists. split; [reflexivity|].
    assert (Hfresh := lookup_job_None _ _ Hget).
    unfold in_sync. simpl. split; [reflexivity|]. split.
    + unfold unique_job_ids in *. rewrite map_app. simpl.
      apply NoDup_app; [exact Huniq | repeat constructor; auto |].
      intros x Hx [<- | []]. now apply Hfresh.
    + intros x. rewrite filter_app, !map_app, !in_app_iff. simpl.
      now rewrite (Hids x).
  - intros data st'. unfold remove_task_handler.
    destruct (split_max ":"%char 2 data) as [|p0 [|p1 [|jid rest]]];
      try discriminate.
    intros [= <-]. destruct Hsync as (Hrun & Huniq & Hids).
    assert (Hgoal : in_sync (mkAdminState (remove_job jid (scheduler st))
                                           (delete_task jid (scheduled_tasks st)))).
    { unfold in_sync, remove_job, delete_task. simpl.
      split; [exact Hrun|]. split; [now apply unique_job_ids_filter|].
      intros x. rewrite in_map_filter_other, analysis_ids_filter_other.
      now rewrite (Hids x). }
    destruct (get_job jid (scheduler st)) eqn:Hget; [exact Hgoal|].
    unfold get_job in Hget. rewrite Hrun in Hget.
    destruct Hgoal as (_ & _ & Hgoal).
    unfold in_sync. simpl. split; [exact Hrun|]. split; [exact Huniq|].
    intros x. rewrite (Hgoal x). unfold remove_job. simpl.
    now rewrite (filter_absent_job jid _ Hget).
Qed.

Lemma sample_state_in_sync :
  in_sync (mkAdminState
             (mkScheduler true "UTC" []
                (map (task_job "UTC") sample_tasks ++ system_jobs "UTC"))
             sample_tasks).
Proof.
  split; [reflexivity|]. split.
  - apply well_formed_tasks_ids, sample_tasks_well_formed.
  - intros jid. simpl. tauto.
Qed.

Lemma X9_task_handlers_keep_table_and_scheduler_in_sync_witness :
  exists st' r,
    add_task_minute_handler
      "15" "GBPUSD" 9
      (mkAdminState
         (mkScheduler true "UTC" []
            (map (task_job "UTC") sample_tasks ++ system_jobs "UTC"))
         sample_tasks)
    = Some (st', r) /\ in_sync st'.
Proof.
  apply (X9_task_handlers_keep_table_and_scheduler_in_sync _ sample_state_in_sync).
  reflexivity.
Defined.

End SyncClaims.

Section ConversationClaims.
Import Scheduler AdminTasks.

(** X10. Whatever the admin types, the add-task conversation (prompt, asset,
    hour, minute) schedules a task only with the upper-cased asset, an hour
    typed as digits within 0..23 and a minute typed as digits within 0..59;
    it then clears the conversation, appends to the table exactly the row of
    that task under the id built from the three values, and the scheduler
    did not know that id before. In particular a rejected hour is never
    carried into a task: the next message is read as the hour again. *)
Theorem X10_conversation_schedules_only_validated_input
        (asset_text hour_text minute_text : string) (st st' : AdminState)
        (d : Dialog) (a : string) (h m : Z) :
  add_task_conversation asset_text hour_text minute_text st
  = Some (d, st', Replied (TaskScheduled a h m)) ->
  a = PyStr.upper asset_text
  /\ PyStr.isdigit hour_text = true /\ h = PyStr.int hour_text /\ (0 <= h <= 23)%Z
  /\ PyStr.isdigit minute_text = true /\ m = PyStr.int minute_text
  /\ (0 <= m <= 59)%Z
  /\ d = mkDialog None None None
  /\ get_job (task_job_id a h m) (scheduler st) = None
  /\ scheduled_tasks st'
     = scheduled_tasks st
       ++ [mkScheduledTask (task_job_id a h m) a h m "Asia/Baghdad"].
Proof.
  unfold add_task_conversation. cbn -[add_task_minute_handler].
  unfold add_task_hour_handler.
  destruct (orb (negb (PyStr.isdigit hour_text)) _) eqn:Hhour.
  - cbn -[add_task_minute_handler]. unfold add_task_hour_handler.
    destruct (orb (negb (PyStr.isdigit minute_text)) _); discriminate.
  - cbn -[add_task_minute_handler].
    apply orb_false_iff in Hhour. destruct Hhour as [Hdig Hrange].
    apply negb_false_iff in Hdig, Hrange.
    apply andb_true_iff in Hrange. destruct Hrange as [Hlo Hhi].
    apply Z.leb_le in Hlo, Hhi.
    destruct (add_task_minute_handler minute_text _ _ st)
      as [[st1 [| |a1 h1 m1]]|] eqn:Hmin; try discriminate.
    intros [= <- <- <- <- <-].
    destruct (add_task_minute_handler_scheduled _ _ _ _ _ _ _ _ Hmin)
      as (-> & -> & -> & Hmdig & Hm & Hget & _ & _ & Htasks).
    repeat split; auto; lia.
Qed.

Lemma X10_conversation_schedules_only_validated_input_witness :
  add_task_conversation "xauusd" "8" "30"
                        (mkAdminState (mkScheduler true "UTC" [] []) [])
  = Some (mkDialog None None None,
          mkAdminState
            (mkScheduler true "UTC" []
               [mkJob "task_XAUUSD_8_30" (scheduled_analysis_job "XAUUSD")
                      (CronTrigger 8 30 "UTC")])
            [mkScheduledTask "task_XAUUSD_8_30" "XAUUSD" 8 30 "Asia/Baghdad"],
          Replied (TaskScheduled "XAUUSD" 8 30))
  /\ "XAUUSD" = PyStr.upper "xauusd"
  /\ (0 <= 8 <= 23)%Z /\ (0 <= 30 <= 59)%Z.
Proof.
  assert (Hrun :
            add_task_conversation "xauusd" "8" "30"
                                  (mkAdminState (mkScheduler true "UTC" [] []) [])
            = Some (mkDialog None None None,
                    mkAdminState
                      (mkScheduler true "UTC" []
                         [mkJob "task_XAUUSD_8_30" (scheduled_analysis_job "XAUUSD")
                                (CronTrigger 8 30 "UTC")])
                      [mkScheduledTask "task_XAUUSD_8_30" "XAUUSD" 8 30
                                       "Asia/Baghdad"],
                    Replied (TaskScheduled "XAUUSD" 8 30)))
    by (vm_compute; reflexivity).
  split; [exact Hrun|].
  destruct (X10_conversation_schedules_only_validated_input _ _ _ _ _ _ _ _ _ Hrun)
    as (Ha & _ & _ & Hh & _ & _ & Hm & _).
  repeat split; solve [exact Ha | apply Hh | apply Hm].
Defined.

End ConversationClaims.

(** ** The calendar scraper: what a parsed date can be *)

Section PatternFacts.
Import Calendar CalendarMore.

Lemma yields_pure {A} (P : A -> Prop) (a : A) : P a -> yields P (pure a).
Proof. intros Ha s b rest [[= <- _]|[]]. exact Ha. Qed.

Lemma yields_seq {A B} (Q : A -> Prop) (P : B -> Prop)
      (p : Pattern A) (f : A -> Pattern B) :
  yields Q p -> (forall a, Q a -> yields P (f a)) -> yields P (seq p f).
Proof.
  intros Hp Hf s b rest Hin. unfold seq in Hin. apply in_flat_map in Hin.
  destruct Hin as ([a r] & Ha & Hb). simpl in Hb.
  exact (Hf a (Hp _ _ _ Ha) _ _ _ Hb).
Qed.

Lemma yields_alt {A} (P : A -> Prop) (p q : Pattern A) :
  yields P p -> yields P q -> yields P (alt p q).
Proof.
  intros Hp Hq s a rest Hin. unfold alt in Hin. apply in_app_iff in Hin.
  destruct Hin; [eapply Hp | eapply Hq]; eassumption.
Qed.

Lemma yields_any {A} (p : Pattern A) : yields (fun _ => True) p.
Proof. intros s a rest _. exact I. Qed.

Lemma yields_digit_in (lo hi : nat) :
  yields (fun v => Z.of_nat lo <= v <= Z.of_nat hi)%Z (digit_in lo hi).
Proof.
  intros s v rest Hin. unfold digit_in, seq, char_where in Hin.
  destruct s as [|c s]; [contradiction|].
  destruct (andb _ _) eqn:Hc; [|contradiction].
  simpl in Hin. destruct Hin as [[= <- _]|[]].
  apply andb_true_iff in Hc. destruct Hc as [Hlo Hhi].
  apply Nat.leb_le in Hlo, Hhi. unfold PyStr.digit_value. lia.
Qed.

Lemma yields_two_digits (a b c d : nat) :
  yields (fun v => Z.of_nat (10 * a + c) <= v <= Z.of_nat (10 * b + d))%Z
         (two_digits (digit_in a b) (digit_in c d)).
Proof.
  unfold two_digits.
  apply (yields_seq _ _ _ _ (yields_digit_in a b)). intros x Hx.
  apply (yields_seq _ _ _ _ (yields_digit_in c d)). intros y Hy.
  apply yields_pure. lia.
Qed.

Lemma yields_weaken {A} (P Q : A -> Prop) (p : Pattern A) :
  (forall a, P a -> Q a) -> yields P p -> yields Q p.
Proof. intros HPQ Hp s a rest Hin. exact (HPQ a (Hp s a rest Hin)). Qed.

Ltac range_of H :=
  eapply yields_weaken; [|exact H]; cbv beta; intros; lia.

Lemma directive_H_range : yields (fun h => 0 <= h <= 23)%Z directive_H.
Proof.
  unfold directive_H, digit. repeat apply yields_alt.
  - range_of (yields_two_digits 2 2 0 3).
  - range_of (yields_two_digits 0 1 0 9).
  - range_of (yields_digit_in 0 9).
Qed.

Lemma directive_I_range : yields (fun h => 1 <= h <= 12)%Z directive_I.
Proof.
  unfold directive_I. repeat apply yields_alt.
  - range_of (yields_two_digits 1 1 0 2).
  - range_of (yields_two_digits 0 0 1 9).
  - range_of (yields_digit_in 1 9).
Qed.

Lemma directive_M_range : yields (fun m => 0 <= m <= 59)%Z directive_M.
Proof.
  unfold directive_M, digit. repeat apply yields_alt.
  - range_of (yields_two_digits 0 5 0 9).
  - range_of (yields_digit_in 0 9).
Qed.

Lemma full_match_yields {A} (P : A -> Prop) (p : Pattern A) (data : string) (a : A) :
  yields P p -> full_match p data = Some a -> P a.
Proof.
  intros Hp. unfold full_match. destruct (p data) as [|[b rest] l] eqn:Hd;
    [discriminate|].
  destruct rest; [|discriminate]. intros [= <-].
  apply (Hp data b EmptyString). rewrite Hd. now left.
Qed.

Lemma hour_of_12_range (h : Z) (pm : bool) :
  (1 <= h <= 12)%Z -> (0 <= hour_of_12 h pm <= 23)%Z.
Proof.
  intros Hh. unfold hour_of_12. destruct pm; destruct (Z.eqb_spec h 12); lia.
Qed.

Lemma parse_event_time_range (time_part : string) (h m : Z) :
  parse_event_time time_part = Some (h, m) ->
  (0 <= h <= 23)%Z /\ (0 <= m <= 59)%Z.
Proof.
  unfold parse_event_time.
  destruct (strptime_I_M_p (PyStr.upper time_part)) as [t|] eqn:H12.
  - intros [= ->]. revert H12. unfold strptime_I_M_p.
    apply (full_match_yields clock_ok).
    apply (yields_seq _ _ _ _ directive_I_range). intros h1 Hh1.
    apply (yields_seq _ _ _ _ (yields_any _)). intros _ _.
    apply (yields_seq _ _ _ _ directive_M_range). intros m1 Hm1.
    apply (yields_seq _ _ _ _ (yields_any _)). intros pm _.
    apply yields_pure. split; simpl; [now apply hour_of_12_range | exact Hm1].
  - unfold strptime_H_M. apply (full_match_yields clock_ok).
    apply (yields_seq _ _ _ _ directive_H_range). intros h1 Hh1.
    apply (yields_seq _ _ _ _ (yields_any _)). intros _ _.
    apply (yields_seq _ _ _ _ directive_M_range). intros m1 Hm1.
    apply yields_pure. split; assumption.
Qed.

End PatternFacts.

Section ParsedDates.
Import Calendar CalendarMore.

(** X11. Whatever text the page carries, a date [_parse_event_datetime]
    accepts is a real instant of the current year: its year is the current
    one, its month and day pass the checks of the [date] constructor for that
    year (no 30 February, 29 February only in a leap year), its hour lies
    within 0..23 and its minute within 0..59. *)
Theorem X11_parsed_event_datetime_is_an_instant_of_the_current_year
        (current_year : Z) (date_str : string) (dt : DateTime) :
  _parse_event_datetime current_year date_str = Some dt ->
  year (date dt) = current_year
  /\ valid_date current_year (month (date dt)) (day (date dt)) = true
  /\ (0 <= hour dt <= 23)%Z /\ (0 <= minute dt <= 59)%Z.
Proof.
  unfold _parse_event_datetime. cbv zeta.
  destruct (strptime_b_d_Y _) as [event_date|]; [|discriminate].
  destruct (valid_date current_year _ _) eqn:Hvalid; [|discriminate].
  destruct (match PyStr.split ","%char date_str with
            | _ :: p1 :: _ => PyStr.strip p1
            | _ => EmptyString
            end) as [|c time_part] eqn:Htime.
  - intros [= <-]. simpl. repeat split; auto; lia.
  - destruct (parse_event_time (String c time_part)) as [[h m]|] eqn:Hclock;
      [|discriminate].
    intros [= <-]. simpl. apply parse_event_time_range in Hclock.
    repeat split; auto; lia.
Qed.

Lemma X11_parsed_event_datetime_is_an_instant_of_the_current_year_witness :
  _parse_event_datetime 2025 "Jan 5, 2:30PM"
  = Some (mkDateTime (mkDate 2025 1 5) 14 30)
  /\ valid_date 2025 1 5 = true
  /\ (0 <= 14 <= 23)%Z /\ (0 <= 30 <= 59)%Z.
Proof.
  assert (Hparse : _parse_event_datetime 2025 "Jan 5, 2:30PM"
                   = Some (mkDateTime (mkDate 2025 1 5) 14 30))
    by (vm_compute; reflexivity).
  split; [exact Hparse|].
  apply (X11_parsed_event_datetime_is_an_instant_of_the_current_year
           _ _ _ Hparse).
Defined.

Lemma Date_eqb_eq (a b : Date) : Date_eqb a b = true -> a = b.
Proof.
  unfold Date_eqb. destruct a, b. simpl. intros H.
  apply andb_true_iff in H. destruct H as [Hy H].
  apply andb_true_iff in H. destruct H as [Hm Hd].
  apply Z.eqb_eq in Hy, Hm, Hd. congruence.
Qed.

Lemma scrape_row_today_or_tomorrow (now : DateTime) (row : Row) (e : Event) :
  scrape_row now row = Appended e ->
  year (date (datetime_obj e)) = year (date now)
  /\ (date (datetime_obj e) = date now
      \/ date (datetime_obj e) = next_day (date now)).
Proof.
  unfold scrape_row. destruct (date_div row) as [text|]; [|discriminate].
  destruct (List.length (tds row) <? 6)%nat; [discriminate|].
  destruct (orb _ _); [discriminate|].
  destruct (_parse_event_datetime _ _) as [dt|] eqn:Hdt; [|discriminate].
  destruct (orb (Date_eqb _ _) (Date_eqb _ _)) eqn:Hday; [|discriminate].
  simpl. destruct (previous_td row), (concensus_td row), (actual_td row);
    try discriminate.
  intros [= <-]. simpl. split.
  - unfold _parse_event_datetime in Hdt. cbv zeta in Hdt.
    destruct (strptime_b_d_Y _); [|discriminate].
    destruct (valid_date _ _ _); [|discriminate].
    destruct (match PyStr.split ","%char (PyStr.strip text) with
              | _ :: p1 :: _ => PyStr.strip p1
              | _ => EmptyString
              end).
    + now injection Hdt as <-.
    + destruct (parse_event_time _) as [[h m]|]; [|discriminate].
      now injection Hdt as <-.
  - apply orb_true_iff in Hday. destruct Hday as [H|H];
      apply Date_eqb_eq in H; auto.
Qed.

(** X12. Every event a scrape returns is dated in the year of the clock
    reading, because the page's dates carry no year and are read into the
    current one. So on 31 December every returned event is dated that day:
    an event the page lists for 1 January is never returned as tomorrow's. *)
Theorem X12_scrape_on_new_years_eve_returns_no_event_of_tomorrow
        (response : Response) (now : DateTime) (e : Event) :
  month (date now) = 12%Z -> day (date now) = 31%Z ->
  In e (_scrape_calendar response now) ->
  date (datetime_obj e) = date now.
Proof.
  intros Hmonth Hday Hin. destruct response as [| |rows]; try contradiction.
  simpl in Hin.
  apply (Permutation_in _ (sort_events_perm _)) in Hin.
  apply in_flat_map in Hin. destruct Hin as (row & _ & Hrow).
  destruct (scrape_row now row) as [| |e'] eqn:Hscrape; try contradiction.
  destruct Hrow as [<-|[]].
  destruct (scrape_row_today_or_tomorrow _ _ _ Hscrape) as [Hyear [Hd|Hd]];
    [exact Hd|].
  exfalso. rewrite Hd in Hyear. unfold next_day in Hyear.
  rewrite Hmonth, Hday in Hyear. unfold days_in_month in Hyear.
  simpl in Hyear. lia.
Qed.

Lemma X12_scrape_on_new_years_eve_returns_no_event_of_tomorrow_witness :
  exists e,
    _scrape_calendar (Page new_year_rows) new_years_eve = [e]
    /\ event e = "Jobless Claims"
    /\ date (datetime_obj e) = date new_years_eve.
Proof.
  eexists. split; [vm_compute; reflexivity|]. split; [reflexivity|].
  apply (X12_scrape_on_new_years_eve_returns_no_event_of_tomorrow
           (Page new_year_rows) new_years_eve);
    [reflexivity | reflexivity | vm_compute; left; reflexivity].
Defined.

End ParsedDates.

Section StableOrder.
Import Calendar CalendarMore.

Lemma lex_leb_refl (a : list Z) : lex_leb a a = true.
Proof.
  induction a as [|x a IH]; simpl; [reflexivity|].
  now rewrite Z.ltb_irrefl.
Qed.

Lemma lex_leb_antisym (a b : list Z) :
  List.length a = List.length b ->
  lex_leb a b = true -> lex_leb b a = true -> a = b.
Proof.
  revert b. induction a as [|x a IH]; intros [|y b]; simpl;
    try discriminate; auto.
  intros [= Hlen].
  destruct (Z.ltb_spec x y), (Z.ltb_spec y x); try discriminate; try lia.
  intros Hab Hba. assert (x = y) by lia. subst. f_equal. now apply IH.
Qed.

(** Two events at the same instant compare as not later, each way. *)
Lemma same_instant_not_later (t : DateTime) (a b : Event) :
  same_instant t a = true -> same_instant t b = true ->
  DateTime_leb (datetime_obj a) (datetime_obj b) = true.
Proof.
  unfold same_instant, DateTime_leb. intros Ha Hb.
  apply andb_true_iff in Ha, Hb. destruct Ha as [Hat _], Hb as [_ Htb].
  exact (lex_leb_trans _ _ _ Hat Htb).
Qed.

Lemma insert_event_same_instant (t : DateTime) (e : Event) (l : list Event) :
  filter (same_instant t) (insert_event e l)
  = filter (same_instant t) (e :: l).
Proof.
  induction l as [|e' l IH]; [reflexivity|].
  cbn [insert_event].
  destruct (DateTime_leb (datetime_obj e) (datetime_obj e')) eqn:Hle;
    [reflexivity|].
  cbn [filter] in *. rewrite IH.
  destruct (same_instant t e) eqn:He, (same_instant t e') eqn:He';
    try reflexivity.
  rewrite (same_instant_not_later t e e' He He') in Hle. discriminate.
Qed.

Lemma sort_events_same_instant (t : DateTime) (l : list Event) :
  filter (same_instant t) (sort_events l) = filter (same_instant t) l.
Proof.
  induction l as [|e l IH]; [reflexivity|].
  cbn [sort_events fold_right]. fold (sort_events l).
  rewrite insert_event_same_instant. cbn [filter]. now rewrite IH.
Qed.

(** X13. The sort of the scrape is stable: the events of one instant come
    out in the order of their rows on the page, so that together with the
    ordering by time the returned list is fully determined by the page. *)
Theorem X13_events_of_one_instant_keep_page_order
        (rows : list Row) (now t : DateTime) :
  filter (same_instant t) (_scrape_calendar (Page rows) now)
  = filter (same_instant t)
           (flat_map (fun row => appended (scrape_row now row)) rows)
  /\ (forall a b, same_instant t a = true -> same_instant t b = true ->
                  fields (datetime_obj a) = fields (datetime_obj b)).
Proof.
  split; [apply sort_events_same_instant|].
  intros a b Ha Hb. apply lex_leb_antisym; [reflexivity | |].
  - exact (same_instant_not_later t a b Ha Hb).
  - exact (same_instant_not_later t b a Hb Ha).
Qed.

End StableOrder.

(** ** Reports to the administrators *)

Section AdminReports.
Import Fanout.

Lemma report_to_admins_all_sent (bot : Bot) (admin_ids : list Z) (n : nat)
      (log : list (Z * Text)) :
  (forall x, In x admin_ids -> bot x (AdminReport n) = Sent) ->
  report_to_admins bot admin_ids n log
  = (true, log ++ map (fun x => (x, AdminReport n)) admin_ids).
Proof.
  revert log. induction admin_ids as [|x l IH]; intros log Hall; simpl.
  - now rewrite app_nil_r.
  - rewrite (Hall x (or_introl eq_refl)). simpl.
    rewrite IH by (intros y Hy; apply Hall; now right).
    now rewrite <- app_assoc.
Qed.

Lemma report_to_admins_first_failure (bot : Bot) (before after : list Z) (a : Z)
      (n : nat) (log : list (Z * Text)) :
  (forall x, In x before -> bot x (AdminReport n) = Sent) ->
  bot a (AdminReport n) = Raised ->
  report_to_admins bot (before ++ a :: after) n log
  = (false, log ++ map (fun x => (x, AdminReport n)) (before ++ [a])).
Proof.
  revert log. induction before as [|x l IH]; intros log Hall Hraise; simpl.
  - now rewrite Hraise.
  - rewrite (Hall x (or_introl eq_refl)). simpl.
    rewrite IH; [|intros y Hy; apply Hall; now right | exact Hraise].
    now rewrite <- app_assoc.
Qed.

(** X14. In the daily calendar job the reports to the administrators are
    sent one after the other without a guard: when at least one recipient
    got the digest and the report to some administrator raises, the
    administrators listed before it have their report, the ones listed after
    it are never tried, and the job ends with that exception. *)
Theorem X14_daily_job_report_stops_at_first_failing_admin
        (bot : Bot) (user_ids before after : list Z) (a : Z) (body : string)
        (log : list (Z * Text)) :
  let n := List.length user_ids - failures bot user_ids (Digest body) in
  0 < n ->
  (forall x, In x before -> bot x (AdminReport n) = Sent) ->
  bot a (AdminReport n) = Raised ->
  send_daily_economic_calendar_job bot user_ids (before ++ a :: after) body log
  = (AdminSendRaised n,
     log ++ map (fun c => (c, Digest body)) user_ids
         ++ map (fun x => (x, AdminReport n)) (before ++ [a])).
Proof.
  cbv zeta. intros Hn Hall Hraise.
  assert (Hne : user_ids <> []) by (intros ->; simpl in Hn; lia).
  rewrite (daily_job_nonempty bot user_ids _ body log Hne). cbv zeta.
  destruct (Nat.ltb_spec 0 (List.length user_ids
                            - failures bot user_ids (Digest body))); [|lia].
  rewrite (report_to_admins_first_failure bot before after a _ _ Hall Hraise).
  now rewrite <- app_assoc.
Qed.

Lemma X14_daily_job_report_stops_at_first_failing_admin_witness :
  send_daily_economic_calendar_job
    (fun c _ => if Z.eqb c 2 then Raised else Sent)
    [11; 12]%Z ([1] ++ 2 :: [3])%Z "digest" []
  = (AdminSendRaised 2,
     [] ++ map (fun c => (c, Digest "digest")) [11; 12]%Z
        ++ map (fun x => (x, AdminReport 2)) ([1] ++ [2])%Z).
Proof.
  apply (X14_daily_job_report_stops_at_first_failing_admin
           (fun c _ => if Z.eqb c 2 then Raised else Sent)
           [11; 12]%Z [1]%Z [3]%Z 2%Z "digest" []).
  - simpl. lia.
  - intros x [<-|[]]. reflexivity.
  - reflexivity.
Defined.

End AdminReports.

Section AnalysisJobClaims.
Import Fanout AnalysisJob.

Lemma analysis_gather_calls (bot : AnalysisJob.Bot) (chat_ids : list Z)
      (text : Notice) (log : list (Z * Notice)) :
  snd (AnalysisJob.gather bot chat_ids text log)
  = log ++ map (fun c => (c, text)) chat_ids.
Proof.
  revert log. induction chat_ids as [|c l IH]; intros log; simpl.
  - now rewrite app_nil_r.
  - specialize (IH (log ++ [(c, text)])).
    destruct (AnalysisJob.gather bot l text (log ++ [(c, text)])) as [rs log2].
    simpl in *. rewrite IH. now rewrite <- app_assoc.
Qed.

Lemma notify_admins_calls (bot : AnalysisJob.Bot) (admin_ids : list Z)
      (asset e : string) (log : list (Z * Notice)) :
  notify_admins bot admin_ids asset e log
  = log ++ map (fun a => (a, JobFailed asset e)) admin_ids.
Proof.
  revert log. induction admin_ids as [|a l IH]; intros log; simpl.
  - now rewrite app_nil_r.
  - destruct (is_exception _); rewrite IH; now rewrite <- app_assoc.
Qed.

(** X15. The scheduled analysis job keeps its two audiences apart, whatever
    the transport does. When one of its three awaited calls (candles,
    analysis, VIP list) raises, no VIP user is contacted and every
    administrator is sent the failure notice, also after the send to another
    administrator has raised. When all three return, every VIP user is sent
    the analysis once, in order, and no administrator is contacted, even if
    every one of those sends raises. *)
Theorem X15_analysis_job_notifies_every_admin_or_every_vip
        (Candles : Type)
        (fetch_and_prepare_candles : string -> Awaited Candles)
        (analyze_asset : string -> Candles -> Awaited string)
        (get_vip_users : Awaited (list Z))
        (admin_ids : list Z) (asset : string) (bot : AnalysisJob.Bot)
        (log : list (Z * Notice)) :
  let job := scheduled_analysis_job Candles true fetch_and_prepare_candles
                                    analyze_asset get_vip_users
                                    admin_ids asset bot log in
  let failed e := log ++ map (fun a => (a, JobFailed asset e)) admin_ids in
  (forall e, fetch_and_prepare_candles asset = Raise e -> job = failed e)
  /\ (forall candles e,
         fetch_and_prepare_candles asset = Returned candles ->
         analyze_asset asset candles = Raise e -> job = failed e)
  /\ (forall candles recommendation,
         fetch_and_prepare_candles asset = Returned candles ->
         analyze_asset asset candles = Returned recommendation ->
         (forall e, get_vip_users = Raise e -> job = failed e)
         /\ (forall vip_users,
                get_vip_users = Returned vip_users ->
                job = log ++ map (fun u => (u, VipAnalysis asset recommendation))
                                 vip_users)).
Proof.
  cbv zeta. unfold scheduled_analysis_job. simpl negb. cbv iota.
  split; [|split].
  - intros e ->. apply notify_admins_calls.
  - intros candles e -> ->. apply notify_admins_calls.
  - intros candles recommendation -> ->. split.
    + intros e ->. apply notify_admins_calls.
    + intros vip_users ->. destruct vip_users as [|u l].
      * simpl. now rewrite app_nil_r.
      * apply analysis_gather_calls.
Qed.

End AnalysisJobClaims.

(** ** The price-alert conversations *)

Section NumeralFacts.
Import AlertFlow.

Lemma int_from_acc (d : Decimal.uint) (acc : positive) :
  PyStr.int_from (Z.pos acc) (NilEmpty.string_of_uint d)
  = Z.pos (Pos.of_uint_acc d acc).
Proof.
  revert acc. induction d; intros acc;
    cbn [NilEmpty.string_of_uint PyStr.int_from Pos.of_uint_acc];
    try reflexivity; rewrite <- IHd; f_equal;
    set (v := PyStr.digit_value _); vm_compute in v; subst v; lia.
Qed.

Lemma int_of_uint (d : Decimal.uint) :
  PyStr.int_from 0 (NilEmpty.string_of_uint d) = Z.of_uint d.
Proof.
  unfold Z.of_uint.
  induction d; cbn [NilEmpty.string_of_uint PyStr.int_from Pos.of_uint Z.of_N];
    try reflexivity;
    set (v := (10 * 0 + PyStr.digit_value _)%Z); vm_compute in v; subst v;
    first [exact IHd | apply int_from_acc].
Qed.

Lemma all_digits_uint (d : Decimal.uint) :
  PyStr.all_digits (NilEmpty.string_of_uint d) = true.
Proof. induction d; simpl; auto. Qed.

Lemma py_int_uint (d : Decimal.uint) :
  d <> Decimal.Nil ->
  py_int (NilEmpty.string_of_uint d) = Some (Z.of_uint d).
Proof.
  intros Hne. rewrite <- int_of_uint.
  destruct d; try congruence;
    unfold py_int, PyStr.isdigit; cbn [NilEmpty.string_of_uint PyStr.all_digits];
    rewrite all_digits_uint; reflexivity.
Qed.

Lemma py_int_str (n : Z) : py_int (PyStr.str n) = Some n.
Proof.
  unfold PyStr.str. destruct n as [|p|p]; [reflexivity | |].
  - cbn [Z.to_int NilEmpty.string_of_int].
    rewrite py_int_uint by apply DecimalPos.Unsigned.to_uint_nonnil.
    unfold Z.of_uint. now rewrite DecimalPos.Unsigned.of_to.
  - cbn [Z.to_int NilEmpty.string_of_int]. unfold py_int.
    assert (Hd : PyStr.isdigit (NilEmpty.string_of_uint (Pos.to_uint p)) = true).
    { pose proof (DecimalPos.Unsigned.to_uint_nonnil p) as Hne.
      unfold PyStr.isdigit. rewrite all_digits_uint.
      destruct (Pos.to_uint p); try congruence; reflexivity. }
    rewrite Hd. unfold PyStr.int. rewrite int_of_uint.
    unfold Z.of_uint. now rewrite DecimalPos.Unsigned.of_to.
Qed.

End NumeralFacts.

Section FlowFacts.
Import UserHandlers AlertFlow.

Lemma prefix_empty (s : string) : String.prefix "" s = true.
Proof. now destruct s. Qed.

Lemma split_without (sep : ascii) (s : string) :
  without sep s = true -> PyStr.split sep s = [s].
Proof.
  induction s as [|c s IH]; simpl; [reflexivity|].
  intros H. apply andb_true_iff in H. destruct H as [Hc Hs].
  apply negb_true_iff in Hc. rewrite Hc, (IH Hs). reflexivity.
Qed.

Lemma uint_without_colon (d : Decimal.uint) :
  without ":"%char (NilEmpty.string_of_uint d) = true.
Proof. induction d; simpl; auto. Qed.

Lemma str_without_colon (n : Z) : without ":"%char (PyStr.str n) = true.
Proof.
  unfold PyStr.str. destruct (Z.to_int n); simpl; apply uint_without_colon.
Qed.

Lemma part_delete_button (n : Z) :
  part 2 (delete_button n) = Some (PyStr.str n).
Proof.
  unfold part, delete_button. cbn -[PyStr.str].
  now rewrite (split_without _ _ (str_without_colon n)).
Qed.

Lemma part_manage_button (n : Z) :
  part 1 (manage_button n) = Some (PyStr.str n).
Proof.
  unfold part, manage_button. cbn -[PyStr.str].
  now rewrite (split_without _ _ (str_without_colon n)).
Qed.




(** X17. Deleting an alert checks no ownership. The delete button of an
    alert followed by the confirmation deletes the row with that id (any id
    but 0) whoever sends the two queries, and clears the conversation; yet
    [manage_specific_alert_handler], which shows that delete button, answers
    "Alert not found." to anyone but the owner. *)
Theorem X17_delete_needs_no_ownership
        (float_of : string -> option float) (s : Session)
        (from_user now alert_id : Z) :
  alert_id <> 0%Z ->
  run float_of from_user now
      [Callback (delete_button alert_id); Callback "alert_delete_confirmed"] s
  = Some (mkSession (user_rows s)
                    (Alerts.delete_price_alert alert_id (alert_rows s))
                    cleared)
  /\ (forall alert,
         AlertOps.get_price_alert_by_id alert_id (alert_rows s) = Some alert ->
         Alerts.user_id alert <> from_user ->
         callback_query (manage_button alert_id) from_user now s
         = Some (s, AlertNotFound)).
Proof.
  intros Hid. split.
  - unfold run, handle.
    assert (Hfirst : callback_query (delete_button alert_id) from_user now s
                     = confirm_delete_alert_handler (delete_button alert_id) s)
      by (unfold callback_query, delete_button; cbn -[PyStr.str];
          now rewrite prefix_empty).
    rewrite Hfirst. unfold confirm_delete_alert_handler.
    rewrite part_delete_button, py_int_str.
    cbn. apply Z.eqb_neq in Hid. rewrite Hid. reflexivity.
  - intros alert Hget Hother.
    assert (Hroute : callback_query (manage_button alert_id) from_user now s
                     = manage_specific_alert_handler (manage_button alert_id)
                                                     from_user s)
      by (unfold callback_query, manage_button; cbn -[PyStr.str];
          now rewrite prefix_empty).
    rewrite Hroute. unfold manage_specific_alert_handler.
    rewrite part_manage_button, py_int_str, Hget.
    apply Z.eqb_neq in Hother. now rewrite Hother.
Qed.

Lemma X17_delete_needs_no_ownership_witness :
  run sample_float_of 7 0
      [Callback (delete_button 4); Callback "alert_delete_confirmed"]
      sample_session
  = Some (mkSession (user_rows sample_session)
                    (Alerts.delete_price_alert 4 (alert_rows sample_session))
                    cleared)
  /\ Alerts.user_id (alert_of 4 8) = 8%Z
  /\ callback_query (manage_button 4) 7 0 sample_session
     = Some (sample_session, AlertNotFound).
Proof.
  destruct (X17_delete_needs_no_ownership sample_float_of sample_session 7 0 4
                                          ltac:(lia)) as [Hdel Hmanage].
  split; [exact Hdel|]. split; [reflexivity|].
  apply (Hmanage (alert_of 4 8)); [reflexivity | simpl; lia].
Defined.

End FlowFacts.

(** ** The admin's user pages *)

Section UserPages.
Import AlertFlow AdminUsers.

Lemma last_part_page_data (page : Z) :
  last_part (page_data page) = PyStr.str page.
Proof.
  unfold last_part, page_data. cbn -[PyStr.str].
  now rewrite (split_without _ _ (str_without_colon page)).
Qed.

Lemma view_buttons (users : list UserRow) (rest : Keyboard) :
  List.concat (map (fun user => [(ViewUser, view_data (id user))]) users ++ rest)
  = map (fun user => (ViewUser, view_data (id user))) users ++ List.concat rest.
Proof.
  induction users as [|u l IH]; cbn [map app List.concat]; [reflexivity|].
  now rewrite IH.
Qed.

Lemma filter_view_buttons (f : Button -> bool) (users : list UserRow) :
  (forall d, f (ViewUser, d) = true) ->
  map snd (filter f (map (fun user => (ViewUser, view_data (id user))) users))
  = map (fun user => view_data (id user)) users.
Proof.
  intros Hf. induction users as [|u l IH]; simpl; [reflexivity|].
  rewrite Hf. simpl. congruence.
Qed.

Lemma filter_no_view_buttons (f : Button -> bool) (users : list UserRow) :
  (forall d, f (ViewUser, d) = false) ->
  filter f (map (fun user => (ViewUser, view_data (id user))) users) = [].
Proof.
  intros Hf. induction users as [|u l IH]; simpl; [reflexivity|].
  now rewrite Hf.
Qed.

Lemma users_listed (users : list UserRow) (total page : Z) :
  data_of ViewUser (paginated_users_keyboard users total page 5)
  = map (fun user => view_data (id user)) users.
Proof.
  unfold data_of, paginated_users_keyboard. cbv zeta.
  rewrite view_buttons, filter_app, map_app.
  rewrite filter_view_buttons by reflexivity.
  destruct (1 <? page)%Z, (page <? (total + 5 - 1) / 5)%Z; simpl;
    now rewrite app_nil_r.
Qed.

Lemma next_offered (users : list UserRow) (total page : Z) :
  data_of Next (paginated_users_keyboard users total page 5)
  = if (page <? (total + 5 - 1) / 5)%Z then [page_data (page + 1)] else [].
Proof.
  unfold data_of, paginated_users_keyboard. cbv zeta.
  rewrite view_buttons, filter_app, map_app.
  rewrite filter_no_view_buttons by reflexivity.
  destruct (1 <? page)%Z, (page <? (total + 5 - 1) / 5)%Z; reflexivity.
Qed.

(** The keyboard offers Next exactly when users are left after the page. *)
Lemma next_page_exists (k n : nat) :
  (Z.of_nat (S k) <? (Z.of_nat n + 5 - 1) / 5)%Z = (5 * S k <? n)%nat.
Proof.
  destruct (Nat.ltb_spec (5 * S k) n) as [Hlt|Hge].
  - apply Z.ltb_lt.
    assert (Z.of_nat (S k) + 1 <= (Z.of_nat n + 5 - 1) / 5)%Z
      by (apply Z.div_le_lower_bound; lia).
    lia.
  - apply Z.ltb_ge.
    assert ((Z.of_nat n + 5 - 1) / 5 < Z.of_nat (S k) + 1)%Z
      by (apply Z.div_lt_upper_bound; lia).
    lia.
Qed.

Lemma browse_screen (k : nat) (ordered : list UserRow) :
  skipn (5 * k) ordered <> [] ->
  admin_browse_users_handler (page_data (Z.of_nat (S k))) ordered
  = Some (UsersPage (Z.of_nat (S k))
                    ((Z.of_nat (List.length ordered) + 5 - 1) / 5)
                    (paginated_users_keyboard
                       (firstn 5 (skipn (5 * k) ordered))
                       (Z.of_nat (List.length ordered)) (Z.of_nat (S k)) 5)).
Proof.
  intros Hrest. unfold admin_browse_users_handler.
  rewrite last_part_page_data, py_int_str. unfold get_all_users, USERS_PER_PAGE.
  replace (Z.to_nat ((Z.of_nat (S k) - 1) * 5)) with (5 * k) by lia.
  change (Z.to_nat 5) with 5.
  destruct (skipn (5 * k) ordered) as [|u rest]; [congruence|]. reflexivity.
Qed.

Lemma browse_from (presses k : nat) (ordered : list UserRow) :
  skipn (5 * k) ordered <> [] ->
  List.length (skipn (5 * k) ordered) <= 5 * S presses ->
  List.concat (browse presses (page_data (Z.of_nat (S k))) ordered)
  = map (fun user => view_data (id user)) (skipn (5 * k) ordered)
  /\ Forall (fun shown => 1 <= List.length shown <= 5)
            (browse presses (page_data (Z.of_nat (S k))) ordered).
Proof.
  revert k. induction presses as [|m IH]; intros k Hrest Hlen.
  - cbn [browse]. rewrite (browse_screen k ordered Hrest), users_listed.
    cbn [List.concat]. rewrite app_nil_r. split.
    + now rewrite firstn_all2 by lia.
    + constructor; [|constructor]. rewrite length_map, firstn_all2 by lia.
      destruct (skipn (5 * k) ordered); [congruence | cbn [List.length] in *; lia].
  - cbn [browse]. rewrite (browse_screen k ordered Hrest), users_listed.
    rewrite next_offered, next_page_exists.
    assert (Hshown : 1 <= List.length (firstn 5 (skipn (5 * k) ordered)) <= 5).
    { rewrite length_firstn.
      destruct (skipn (5 * k) ordered); [congruence | cbn [List.length]; lia]. }
    assert (Hnext : skipn (5 * S k) ordered = skipn 5 (skipn (5 * k) ordered)).
    { rewrite skipn_skipn. f_equal. lia. }
    destruct (Nat.ltb_spec (5 * S k) (List.length ordered)) as [Hlt|Hge].
    + replace (Z.of_nat (S k) + 1)%Z with (Z.of_nat (S (S k))) by lia.
      destruct (IH (S k)) as [Hcat Hall].
      * intros Hnil. apply (f_equal (@List.length _)) in Hnil.
        rewrite length_skipn in Hnil. simpl in Hnil. lia.
      * rewrite Hnext, length_skipn. lia.
      * cbn [List.concat]. rewrite Hcat, Hnext, <- map_app, firstn_skipn.
        split; [reflexivity|]. constructor; [now rewrite length_map | exact Hall].
    + cbn [List.concat]. rewrite app_nil_r. split.
      * rewrite firstn_all2; [reflexivity|]. rewrite length_skipn. lia.
      * constructor; [now rewrite length_map | constructor].
Qed.

(** X18. Browsing the users from the first page, pressing Next as long as
    the keyboard offers it, lists every user of the table exactly once and
    in the order of the query; every screen on the way lists between one and
    five users, so that the "No users found." screen is reached only when
    the table is empty. *)
Theorem X18_browsing_with_next_lists_every_user_once
        (ordered : list UserRow) :
  List.concat (browse (List.length ordered) (page_data 1) ordered)
  = map (fun user => view_data (id user)) ordered
  /\ Forall (fun shown => 1 <= List.length shown <= 5)
            (browse (List.length ordered) (page_data 1) ordered)
  /\ (admin_browse_users_handler (page_data 1) ordered = Some NoUsersFound
      <-> ordered = []).
Proof.
  destruct ordered as [|u rest] eqn:Hl.
  - split; [reflexivity|]. split; [constructor|]. split; reflexivity.
  - rewrite <- Hl.
    assert (Hrest : skipn (5 * 0) ordered <> []) by (subst; discriminate).
    destruct (browse_from (List.length ordered) 0 ordered Hrest) as [Hcat Hall].
    { simpl skipn. lia. }
    split; [exact Hcat|]. split; [exact Hall|].
    change (page_data 1) with (page_data (Z.of_nat 1)).
    rewrite (browse_screen 0 ordered Hrest). split; [discriminate|].
    subst. discriminate.
Qed.

End UserPages.

Section UserManagement.
Import AlertFlow AdminUsers.

Lemma get_user_unique (table : list UserRow) (u : UserRow) :
  unique_user_ids table -> In u table -> get_user (id u) table = Some u.
Proof.
  unfold unique_user_ids, get_user.
  induction table as [|r l IH]; simpl; intros Hu Hin; [contradiction|].
  inversion Hu as [|? ? Hout Hrest]; subst.
  destruct Hin as [->|Hin]; [now rewrite Z.eqb_refl|].
  destruct (Z.eqb_spec (id r) (id u)) as [He|_]; [|now apply IH].
  exfalso. apply Hout. rewrite He. now apply in_map.
Qed.

(** A change of the rows with one id, which keeps the id. *)
Lemma get_user_changed (g : UserRow -> UserRow) (uid other : Z)
      (table : list UserRow) :
  (forall r, id (g r) = id r) ->
  get_user other (map (fun r => if Z.eqb (id r) uid then g r else r) table)
  = if Z.eqb other uid then option_map g (get_user uid table)
    else get_user other table.
Proof.
  intros Hg. unfold get_user.
  induction table as [|r l IH]; cbn [map find];
    [now destruct (Z.eqb other uid)|].
  destruct (Z.eqb_spec (id r) uid) as [He|Hne].
  - rewrite Hg. destruct (Z.eqb_spec (id r) other) as [Ho|Ho].
    + subst. now rewrite Z.eqb_refl.
    + rewrite IH. destruct (Z.eqb_spec other uid); [congruence | reflexivity].
  - destruct (Z.eqb_spec (id r) other) as [Ho|Ho].
    + subst. now destruct (Z.eqb_spec (id r) uid).
    + rewrite IH. destruct (Z.eqb_spec other uid); [|reflexivity].
      subst. cbn [find]. now destruct (Z.eqb_spec (id r) uid).
Qed.

Lemma unique_row (table : list UserRow) (u r : UserRow) :
  unique_user_ids table -> In u table -> In r table -> id r = id u -> r = u.
Proof.
  intros Hu Hin Hr He.
  assert (H1 := get_user_unique table u Hu Hin).
  assert (H2 := get_user_unique table r Hu Hr).
  rewrite He in H2. congruence.
Qed.

Lemma toggle_back (table : list UserRow) (u : UserRow) :
  unique_user_ids table -> In u table ->
  set_vip_status (id u) (is_vip u)
                 (set_vip_status (id u) (negb (is_vip u)) table)
  = table.
Proof.
  intros Hu Hin. unfold set_vip_status. rewrite map_map.
  rewrite <- (map_id table) at 2. apply map_ext_in. intros r Hr.
  destruct (Z.eqb_spec (id r) (id u)) as [He|Hne]; simpl.
  - rewrite He, Z.eqb_refl. rewrite (unique_row table u r Hu Hin Hr He).
    now destruct u.
  - now destruct (Z.eqb_spec (id r) (id u)).
Qed.

Ltac split_button :=
  cbn -[PyStr.str py_int]; rewrite (split_without _ _ (str_without_colon _)).

(** X19. Every action button of the management keyboard of a user acts on
    that user and on nobody else: the three plan buttons set the plan, with
    an expiry thirty days ahead for standard and pro and none for free; the
    credits button adds ten credits; the VIP button flips the flag, and
    pressing it twice restores the table. *)
Theorem X19_management_buttons_act_on_their_user_only
        (table : list UserRow) (u : UserRow) (now : Z) :
  unique_user_ids table -> In u table ->
  data_of Action (user_management_keyboard u)
  = [ "user:set_tier:standard:" ++ PyStr.str (id u);
      "user:set_tier:pro:" ++ PyStr.str (id u);
      "user:set_tier:free:" ++ PyStr.str (id u);
      "user:add_credits:10:" ++ PyStr.str (id u);
      "user:toggle_vip:" ++ PyStr.str (id u) ]%string
  /\ (forall tier,
         In tier ["standard"; "pro"; "free"] ->
         exists table',
           manage_user_actions_handler
             ("user:set_tier:" ++ tier ++ ":" ++ PyStr.str (id u)) now table
           = Some table'
           /\ get_user (id u) table'
              = Some (mkUserRow (id u) tier
                                (if String.eqb tier "free" then None
                                 else Some (now + 30 * 86400)%Z)
                                (is_vip u) (credits u))
           /\ (forall other, other <> id u ->
                             get_user other table' = get_user other table))
  /\ (exists table',
         manage_user_actions_handler
           ("user:add_credits:10:" ++ PyStr.str (id u)) now table
         = Some table'
         /\ get_user (id u) table'
            = Some (mkUserRow (id u) (subscription_tier u)
                              (subscription_expiry u) (is_vip u)
                              (credits u + 10))
         /\ (forall other, other <> id u ->
                           get_user other table' = get_user other table))
  /\ (exists table',
         manage_user_actions_handler
           ("user:toggle_vip:" ++ PyStr.str (id u)) now table
         = Some table'
         /\ get_user (id u) table'
            = Some (mkUserRow (id u) (subscription_tier u)
                              (subscription_expiry u) (negb (is_vip u))
                              (credits u))
         /\ (forall other, other <> id u ->
                           get_user other table' = get_user other table)
         /\ manage_user_actions_handler
              ("user:toggle_vip:" ++ PyStr.str (id u)) now table'
            = Some table).
Proof.
  intros Huniq Hin. assert (Hu := get_user_unique table u Huniq Hin).
  split; [reflexivity|]. split; [|split].
  - intros tier Htier.
    exists (update_user_tier (id u) tier now table).
    assert (Hrow : get_user (id u) (update_user_tier (id u) tier now table)
                   = Some (mkUserRow (id u) tier
                                     (if String.eqb tier "free" then None
                                      else Some (now + 30 * 86400)%Z)
                                     (is_vip u) (credits u))).
    { unfold update_user_tier. cbv zeta.
      rewrite (get_user_changed
                 (fun r => mkUserRow (id r) tier _ (is_vip r) (credits r)))
        by reflexivity.
      rewrite Z.eqb_refl, Hu. simpl.
      destruct Htier as [<-|[<-|[<-|[]]]]; reflexivity. }
    split; [|split; [exact Hrow|]].
    + unfold manage_user_actions_handler.
      destruct Htier as [<-|[<-|[<-|[]]]]; split_button;
        cbn -[PyStr.str update_user_tier get_user];
        rewrite py_int_str; cbn -[PyStr.str update_user_tier get_user];
        now rewrite Hrow.
    + intros other Hother. unfold update_user_tier. cbv zeta.
      rewrite (get_user_changed
                 (fun r => mkUserRow (id r) tier _ (is_vip r) (credits r)))
        by reflexivity.
      now destruct (Z.eqb_spec other (id u)).
  - exists (change_credits (id u) 10 table).
    assert (Hrow : get_user (id u) (change_credits (id u) 10 table)
                   = Some (mkUserRow (id u) (subscription_tier u)
                                     (subscription_expiry u) (is_vip u)
                                     (credits u + 10))).
    { unfold change_credits.
      rewrite (get_user_changed
                 (fun r => mkUserRow (id r) (subscription_tier r)
                                     (subscription_expiry r) (is_vip r)
                                     (credits r + 10)))
        by reflexivity.
      now rewrite Z.eqb_refl, Hu. }
    split; [|split; [exact Hrow|]].
    + unfold manage_user_actions_handler. split_button.
      cbn -[PyStr.str change_credits get_user py_int].
      rewrite py_int_str. change (py_int "10") with (Some 10%Z).
      cbn -[PyStr.str change_credits get_user].
      now rewrite Hrow.
    + intros other Hother. unfold change_credits.
      rewrite (get_user_changed
                 (fun r => mkUserRow (id r) (subscription_tier r)
                                     (subscription_expiry r) (is_vip r)
                                     (credits r + 10)))
        by reflexivity.
      now destruct (Z.eqb_spec other (id u)).
  - exists (set_vip_status (id u) (negb (is_vip u)) table).
    assert (Hrow : get_user (id u)
                            (set_vip_status (id u) (negb (is_vip u)) table)
                   = Some (mkUserRow (id u) (subscription_tier u)
                                     (subscription_expiry u) (negb (is_vip u))
                                     (credits u))).
    { unfold set_vip_status.
      rewrite (get_user_changed
                 (fun r => mkUserRow (id r) (subscription_tier r)
                                     (subscription_expiry r) (negb (is_vip u))
                                     (credits r)))
        by reflexivity.
      now rewrite Z.eqb_refl, Hu. }
    assert (Hpress : forall t,
               manage_user_actions_handler
                 ("user:toggle_vip:" ++ PyStr.str (id u)) now t
               = match get_user (id u) t with
                 | Some user =>
                     match get_user (id u)
                                    (set_vip_status (id u) (negb (is_vip user)) t)
                     with
                     | Some _ => Some (set_vip_status (id u) (negb (is_vip user)) t)
                     | None => None
                     end
                 | None => None
                 end).
    { intros t. unfold manage_user_actions_handler. split_button.
      cbn -[PyStr.str set_vip_status get_user].
      rewrite py_int_str. cbn -[PyStr.str set_vip_status get_user].
      now destruct (get_user (id u) t). }
    split; [|split; [exact Hrow|split]].
    + rewrite Hpress, Hu. now rewrite Hrow.
    + intros other Hother. unfold set_vip_status.
      rewrite (get_user_changed
                 (fun r => mkUserRow (id r) (subscription_tier r)
                                     (subscription_expiry r) (negb (is_vip u))
                                     (credits r)))
        by reflexivity.
      now destruct (Z.eqb_spec other (id u)).
    + rewrite Hpress, Hrow. cbn [is_vip]. rewrite negb_involutive.
      rewrite (toggle_back table u Huniq Hin). now rewrite Hu.
Qed.

Lemma sample_users_unique : unique_user_ids sample_users.
Proof.
  unfold unique_user_ids.
  change (map id sample_users) with [1; 2; 3; 4; 5; 6; 7; 8; 9; 10; 11; 12]%Z.
  repeat constructor; simpl; intuition discriminate.
Qed.

Lemma X19_management_buttons_act_on_their_user_only_witness :
  exists table',
    manage_user_actions_handler "user:toggle_vip:3" 0 sample_users = Some table'
    /\ get_user 3 table' = Some (mkUserRow 3 "free" None true 10)
    /\ manage_user_actions_handler "user:toggle_vip:3" 0 table'
       = Some sample_users.
Proof.
  destruct (X19_management_buttons_act_on_their_user_only
              sample_users (mkUserRow 3 "free" None false 10) 0
              sample_users_unique)
    as (_ & _ & _ & table' & Hpress & Hrow & _ & Hback).
  - simpl. right. right. left. reflexivity.
  - exists table'. split; [exact Hpress|]. split; [exact Hrow | exact Hback].
Defined.

End UserManagement.

(** ** The calendar message *)

Section CalendarMessageFacts.
Import Calendar CalendarMessage.
Variable Char : Type.
Variable heading : list Char.
Variable day_header : DayStr -> Date -> list Char.
Variable event_text : Event -> list Char.
Variable today : Date.
Variable H : nat.
Hypothesis event_text_fits :
  forall e, 0 < List.length (event_text e) <= 4096.
Hypothesis day_header_short :
  forall d day, List.length (day_header d day) <= H.

Local Abbreviation step := (handler_step Char day_header event_text today).
Local Abbreviation whole := (message_step Char day_header event_text today).

Lemma open_day_grows (e : Event) (m : list Char) (c : DayStr) :
  exists header,
    fst (open_day Char day_header today e m c) = m ++ header
    /\ List.length header <= H.
Proof.
  unfold open_day. cbv zeta. destruct (negb _); simpl.
  - eexists. split; [reflexivity | apply day_header_short].
  - exists []. rewrite app_nil_r. split; [reflexivity | simpl; lia].
Qed.

Lemma open_day_prefix (e : Event) (w m : list Char) (c : DayStr) :
  open_day Char day_header today e (w ++ m) c
  = (w ++ fst (open_day Char day_header today e m c),
     snd (open_day Char day_header today e m c)).
Proof.
  unfold open_day. cbv zeta. destruct (negb _); simpl; [|reflexivity].
  now rewrite app_assoc.
Qed.

Lemma handler_steps (events : list Event) (answered : list (list Char))
      (m : list Char) (c : DayStr) :
  Forall (fits H) answered -> 0 < List.length m <= 4096 ->
  exists answered' m' c',
    fold_left step events (answered, m, c) = (answered', m', c')
    /\ fold_left whole events (List.concat answered ++ m, c)
       = (List.concat answered' ++ m', c')
    /\ Forall (fits H) answered' /\ 0 < List.length m' <= 4096.
Proof.
  revert answered m c. induction events as [|e rest IH]; intros answered m c Hall Hm.
  - exists answered, m, c. auto.
  - cbn [fold_left]. unfold handler_step at 2, message_step at 2.
    rewrite open_day_prefix.
    destruct (open_day_grows e m c) as (header & Hopen & Hshort).
    destruct (open_day Char day_header today e m c) as [m1 c1].
    simpl in Hopen. subst m1. cbn [fst snd].
    pose proof (event_text_fits e) as Htext.
    destruct (Nat.ltb_spec 4096 (List.length (m ++ header)
                                 + List.length (event_text e))) as [Hcut|Hfit].
    + destruct (IH (answered ++ [m ++ header]) ([] ++ event_text e) c1)
        as (answered' & m' & c' & Hfold & Hwhole & Hall' & Hm').
      * apply Forall_app. split; [exact Hall|]. constructor; [|constructor].
        unfold fits. rewrite length_app. lia.
      * simpl. lia.
      * exists answered', m', c'. split; [exact Hfold|]. split; [|auto].
        rewrite <- Hwhole. rewrite concat_app. simpl.
        now rewrite app_nil_r, <- !app_assoc.
    + destruct (IH answered ((m ++ header) ++ event_text e) c1)
        as (answered' & m' & c' & Hfold & Hwhole & Hall' & Hm').
      * exact Hall.
      * rewrite length_app. lia.
      * exists answered', m', c'. split; [exact Hfold|]. split; [|auto].
        rewrite <- Hwhole. now rewrite <- !app_assoc.
Qed.

End CalendarMessageFacts.

Section CalendarMessageClaims.
Import Calendar CalendarMessage.

(** X20. When the heading and the lines of every event are between 1 and
    4096 characters long, the texts the calendar handler answers with, put
    end to end, are the one message the loop builds without cutting: no
    event is lost, repeated or moved. None of these texts is empty, and
    none is longer than 4096 characters plus the length of one day line (the
    day line is added before the length is checked, so the bound is not
    4096 itself). *)
Theorem X20_calendar_handler_cuts_without_loss
        (Char : Type) (heading : list Char)
        (day_header : DayStr -> Date -> list Char)
        (event_text : Event -> list Char)
        (events : list Event) (today : Date) (H : nat) :
  events <> [] ->
  0 < List.length heading <= 4096 ->
  (forall e, 0 < List.length (event_text e) <= 4096) ->
  (forall d day, List.length (day_header d day) <= H) ->
  List.concat (myfxbook_calendar_menu_handler Char heading day_header event_text
                                              events today)
  = whole_message Char heading day_header event_text events today
  /\ Forall (fun text => 0 < List.length text <= 4096 + H)
            (myfxbook_calendar_menu_handler Char heading day_header event_text
                                            events today).
Proof.
  intros Hne Hhead Htext Hshort.
  unfold myfxbook_calendar_menu_handler, whole_message.
  destruct events as [|e rest] eqn:He; [congruence|]. rewrite <- He.
  destruct (handler_steps Char day_header event_text today H Htext Hshort
                          events [] heading NoDay)
    as (answered & m & c & Hfold & Hwhole & Hall & Hm); [constructor | lia |].
  rewrite Hfold. simpl in Hwhole. rewrite Hwhole. cbn [fst].
  destruct m as [|x m]; [simpl in Hm; lia|]. split.
  - rewrite concat_app. simpl. now rewrite app_nil_r.
  - apply Forall_app. split; [exact Hall|]. constructor; [|constructor].
    lia.
Qed.

Lemma X20_calendar_handler_cuts_without_loss_witness :
  List.concat (myfxbook_calendar_menu_handler
                 nat sample_heading sample_day_header sample_event_text
                 sample_events (mkDate 2025 1 4))
  = whole_message nat sample_heading sample_day_header sample_event_text
                  sample_events (mkDate 2025 1 4)
  /\ Forall (fun text => 0 < List.length text <= 4096 + 2)
            (myfxbook_calendar_menu_handler
               nat sample_heading sample_day_header sample_event_text
               sample_events (mkDate 2025 1 4)).
Proof.
  apply (X20_calendar_handler_cuts_without_loss
           nat sample_heading sample_day_header sample_event_text
           sample_events (mkDate 2025 1 4) 2).
  - discriminate.
  - simpl. lia.
  - intros e. simpl. lia.
  - intros [| |] day; simpl; lia.
Defined.

End CalendarMessageClaims.

(** ** Credits and plans *)

Section CreditFacts.
Import AdminUsers AnalysisCredits.

Lemma get_user_row (uid : Z) (table : list UserRow) (user : UserRow) :
  get_user uid table = Some user -> In user table /\ id user = uid.
Proof.
  unfold get_user. intros Hf. apply find_some in Hf.
  now rewrite Z.eqb_eq in Hf.
Qed.

Lemma charge_keeps_no_debt (table : list UserRow) (user : UserRow) :
  unique_user_ids table -> no_debt table -> In user table ->
  (0 < credits user)%Z ->
  no_debt (change_credits (id user) (-1) table).
Proof.
  intros Hu Hdebt Hin Hpos r Hr. unfold change_credits in Hr.
  apply in_map_iff in Hr. destruct Hr as (r0 & <- & Hr0).
  destruct (Z.eqb_spec (id r0) (id user)) as [He|_]; [|now apply Hdebt].
  rewrite (unique_row table user r0 Hu Hin Hr0 He). simpl. lia.
Qed.

(** What the handler does with the button of an asset, by the user's plan
    and credits. *)
Lemma analyze_asset_button (table : list UserRow) (from_user : Z)
      (user : UserRow) (asset : string) :
  get_user from_user table = Some user ->
  In asset analysis_keyboard_assets ->
  analyze_callback_handler ("analyze:" ++ asset) from_user table
  = if andb (is_free user) (negb (is_vip user))
    then if (credits user <=? 0)%Z then Some (table, NoCreditsLeft)
         else Some (change_credits (id user) (-1) table, Analyzing asset)
    else Some (table, Analyzing asset).
Proof.
  intros Huser Hasset. unfold analyze_callback_handler. rewrite Huser.
  simpl in Hasset.
  destruct Hasset as [<-|[<-|[<-|[<-|[<-|[<-|[]]]]]]]; reflexivity.
Qed.

Lemma charged_row (table : list UserRow) (user : UserRow) :
  get_user (id user) table = Some user ->
  get_user (id user) (change_credits (id user) (-1) table)
  = Some (mkUserRow (id user) (subscription_tier user)
                    (subscription_expiry user) (is_vip user)
                    (credits user - 1))
  /\ (forall other, other <> id user ->
                    get_user other (change_credits (id user) (-1) table)
                    = get_user other table).
Proof.
  intros Huser. unfold change_credits. split.
  - rewrite (get_user_changed
               (fun r => mkUserRow (id r) (subscription_tier r)
                                   (subscription_expiry r) (is_vip r)
                                   (credits r + -1)))
      by reflexivity.
    rewrite Z.eqb_refl, Huser. reflexivity.
  - intros other Hother.
    rewrite (get_user_changed
               (fun r => mkUserRow (id r) (subscription_tier r)
                                   (subscription_expiry r) (is_vip r)
                                   (credits r + -1)))
      by reflexivity.
    destruct (Z.eqb_spec other (id user)); [congruence | reflexivity].
Qed.

(** X21. Analysis credits. Pressing the button of an asset charges one
    credit to a free user who is no VIP and has credits left, and starts the
    analysis; such a user without credits is refused and nothing is
    written; a subscriber or a VIP is served without a charge. Whatever the
    callback data, the handler touches no other user's row and never leaves
    a user with negative credits. The expiry of a subscription is checked by
    the menu handler only, which turns an expired subscriber into a free
    user: the handler of the asset buttons serves a subscriber without
    looking at the expiry. *)
Theorem X21_credits_are_charged_to_free_users_and_never_overdrawn
        (table : list UserRow) (from_user now : Z) (user : UserRow) :
  unique_user_ids table -> no_debt table ->
  get_user from_user table = Some user ->
  (forall data table' answer,
      analyze_callback_handler data from_user table = Some (table', answer) ->
      no_debt table'
      /\ (forall other, other <> from_user ->
                        get_user other table' = get_user other table)
      /\ (table' = table
          \/ (is_free user = true /\ is_vip user = false
              /\ (0 < credits user)%Z
              /\ get_user from_user table'
                 = Some (mkUserRow (id user) (subscription_tier user)
                                   (subscription_expiry user) (is_vip user)
                                   (credits user - 1)))))
  /\ (forall asset,
         In asset analysis_keyboard_assets ->
         (is_free user = true -> is_vip user = false ->
          (0 < credits user)%Z ->
          exists table',
            analyze_callback_handler ("analyze:" ++ asset) from_user table
            = Some (table', Analyzing asset)
            /\ get_user from_user table'
               = Some (mkUserRow (id user) (subscription_tier user)
                                 (subscription_expiry user) (is_vip user)
                                 (credits user - 1))
            /\ (forall other, other <> from_user ->
                              get_user other table' = get_user other table)
            /\ no_debt table')
         /\ (is_free user = true -> is_vip user = false ->
             (credits user <= 0)%Z ->
             analyze_callback_handler ("analyze:" ++ asset) from_user table
             = Some (table, NoCreditsLeft))
         /\ (is_free user = false \/ is_vip user = true ->
             analyze_callback_handler ("analyze:" ++ asset) from_user table
             = Some (table, Analyzing asset)))
  /\ (is_subscriber user = true ->
      (forall asset,
          In asset analysis_keyboard_assets ->
          analyze_callback_handler ("analyze:" ++ asset) from_user table
          = Some (table, Analyzing asset))
      /\ (forall expiry,
             subscription_expiry user = Some expiry -> (expiry < now)%Z ->
             snd (menu_analyze_handler from_user now table) = SubscriptionExpired
             /\ get_user from_user (fst (menu_analyze_handler from_user now table))
                = Some (mkUserRow (id user) "free" None (is_vip user)
                                  (credits user)))).
Proof.
  intros Huniq Hdebt Huser.
  destruct (get_user_row _ _ _ Huser) as [Hin <-].
  destruct (charged_row table user Huser) as [Hrow Hothers].
  split; [|split].
  - intros data table' answer. unfold analyze_callback_handler. rewrite Huser.
    destruct (nth_error _ 1) as [action|]; [|discriminate].
    destruct (String.eqb action "other").
    + destruct (andb _ _); intros [= <- _]; auto.
    + destruct (andb (is_free user) (negb (is_vip user))) eqn:Hfree;
        [|intros [= <- _]; auto].
      destruct (Z.leb_spec (credits user) 0) as [Hzero|Hpos];
        intros [= <- _]; [auto|].
      apply andb_true_iff in Hfree. destruct Hfree as [Hf Hv].
      apply negb_true_iff in Hv.
      split; [now apply charge_keeps_no_debt|]. split; [exact Hothers|].
      right. repeat split; auto.
  - intros asset Hasset.
    rewrite (analyze_asset_button table (id user) user asset Huser Hasset).
    split; [|split].
    + intros Hf Hv Hpos.
      exists (change_credits (id user) (-1) table).
      split; [|split; [exact Hrow|split; [exact Hothers|]]].
      * rewrite Hf, Hv. cbn [andb negb].
        destruct (Z.leb_spec (credits user) 0); [lia | reflexivity].
      * now apply charge_keeps_no_debt.
    + intros Hf Hv Hzero. rewrite Hf, Hv. cbn [andb negb].
      destruct (Z.leb_spec (credits user) 0); [reflexivity | lia].
    + intros [Hf|Hv]; [now rewrite Hf|].
      rewrite Hv. now rewrite andb_false_r.
  - intros Hsub.
    assert (Hfree : is_free user = false).
    { unfold is_subscriber in Hsub. unfold is_free.
      apply orb_true_iff in Hsub.
      destruct Hsub as [H|H]; apply String.eqb_eq in H; now rewrite H. }
    split.
    + intros asset Hasset.
      rewrite (analyze_asset_button table (id user) user asset Huser Hasset).
      now rewrite Hfree.
    + intros expiry Hexp Hlt. unfold menu_analyze_handler.
      rewrite Huser, Hsub, Hexp. apply Z.ltb_lt in Hlt. rewrite Hlt.
      cbn [andb fst snd]. split; [reflexivity|].
      unfold update_user_tier. cbv zeta.
      rewrite (get_user_changed
                 (fun r => mkUserRow (id r) "free" _ (is_vip r) (credits r)))
        by reflexivity.
      rewrite Z.eqb_refl, Huser. reflexivity.
Qed.

Lemma sample_accounts_sound :
  unique_user_ids sample_accounts /\ no_debt sample_accounts.
Proof.
  split.
  - repeat constructor; simpl; intuition discriminate.
  - intros user [<-|[<-|[]]]; simpl; lia.
Qed.

(** The free user with one credit is charged it and then refused; the
    expired subscriber is served by the asset button and turned into a free
    user by the menu. *)
Lemma X21_credits_are_charged_to_free_users_and_never_overdrawn_witness :
  analyze_callback_handler "analyze:XAUUSD" 22 sample_accounts
  = Some ([expired_pro; mkUserRow 22 "free" None false 0], Analyzing "XAUUSD")
  /\ analyze_callback_handler "analyze:XAUUSD" 22
                              [expired_pro; mkUserRow 22 "free" None false 0]
     = Some ([expired_pro; mkUserRow 22 "free" None false 0], NoCreditsLeft)
  /\ analyze_callback_handler "analyze:XAUUSD" 21 sample_accounts
     = Some (sample_accounts, Analyzing "XAUUSD")
  /\ snd (menu_analyze_handler 21 200 sample_accounts) = SubscriptionExpired.
Proof.
  destruct sample_accounts_sound as [Huniq Hdebt].
  destruct (X21_credits_are_charged_to_free_users_and_never_overdrawn
              sample_accounts 22 200 last_credit Huniq Hdebt eq_refl)
    as (_ & Hfree & _).
  destruct (Hfree "XAUUSD" ltac:(simpl; auto)) as (Hcharge & _ & _).
  destruct (Hcharge eq_refl eq_refl ltac:(simpl; lia))
    as (table' & Hrun & _ & _ & Hdebt').
  assert (Htable : table' = [expired_pro; mkUserRow 22 "free" None false 0]).
  { vm_compute in Hrun. now injection Hrun as <-. }
  subst table'.
  assert (Huniq' : unique_user_ids
                     [expired_pro; mkUserRow 22 "free" None false 0])
    by (repeat constructor; simpl; intuition discriminate).
  destruct (X21_credits_are_charged_to_free_users_and_never_overdrawn
              [expired_pro; mkUserRow 22 "free" None false 0] 22 200
              (mkUserRow 22 "free" None false 0) Huniq' Hdebt' eq_refl)
    as (_ & Hspent & _).
  destruct (Hspent "XAUUSD" ltac:(simpl; auto)) as (_ & Hrefuse & _).
  destruct (X21_credits_are_charged_to_free_users_and_never_overdrawn
              sample_accounts 21 200 expired_pro Huniq Hdebt eq_refl)
    as (_ & _ & Hsub).
  destruct (Hsub eq_refl) as [Hserve Hmenu].
  split; [exact Hrun|]. split; [apply Hrefuse; [reflexivity | reflexivity | simpl; lia]|].
  split; [apply (Hserve "XAUUSD"); simpl; auto|].
  apply (Hmenu 100%Z); [reflexivity | lia].
Defined.

End CreditFacts.
